(** * Chatbot backend: AI provider dispatch, retry policy, streaming and
      the inventory intent pipeline

    A shallow embedding of
    - [utils/mistralClient.js] and [utils/openaiClient.js] (the two provider
      clients: outbound message list, retry loop, streaming handler),
    - [utils/aiClientManager.js] (provider selection),
    - [utils/promptEnhancer.js] ([enhancePrompt]),
    - [routes/chatInventoryRoutes.js] (the [/check], [/order] and [/intent]
      handlers),
    - [routes/adminInventoryRoutes.js] (the [/add], [/update-stock] and
      order-status handlers),
    - [routes/sessionRoutes.js] (posting a message, as owner and in public,
      and clearing the messages of a session),
    - [routes/webhookRoutes.js] (the webhook handler),
    - [server.js] (the order in which routes are loaded and models are
      registered),
    together with the fragment of JavaScript these files rely on
    (truthiness, property access, [JSON.parse], string methods).

    Conventions.  A JavaScript string is a byte string holding UTF-8.  A
    JavaScript number is an IEEE 754 double; a finite one is written as a
    decimal [mant * 10 ^ expo], the one that prints it.  Text is converted
    to a number by rounding to the nearest double, and the subtraction is
    that of binary64.  Numbers are compared through their decimals, which
    are in the order of the doubles they print.  Calls to the network and
    to [Math.random] are replaced by explicit oracles passed as
    arguments. *)

From Stdlib Require Import ZArith QArith Qpower Qminmax Lqa String Ascii List Bool Lia.
From Stdlib Require SpecFloat.
From stdpp Require Import base option gmap strings pretty.

Import ListNotations.
Local Open Scope string_scope.
Local Open Scope list_scope.

(* ===================================================================== *)
(** ** JavaScript values *)
(* ===================================================================== *)

Module JS.

(** A finite number, [mant * 10 ^ expo]. *)
Record decimal : Type := Dec { mant : Z; expo : Z }.

(** Values that reach the modelled code: results of [JSON.parse], request
    bodies, and [undefined] for absent properties. *)
#[warnings="-register-all"]
Inductive JSValue : Type :=
| JUndefined
| JNull
| JBool (b : bool)
| JNum (d : decimal)
| JStr (s : string)
| JArr (items : list JSValue)
| JObj (fields : list (string * JSValue)).

(** Result of [ToNumber]. *)
Inductive number : Type :=
| Fin (d : decimal)
| PosInf
| NegInf
| NaN.

(** Exceptions raised by the language itself. *)
Inductive exn : Type :=
| TypeError (what : string)
| SyntaxError.

(** *** Strings *)

Definition dq : string := String (ascii_of_nat 34) EmptyString.
Definition nl : string := String (ascii_of_nat 10) EmptyString.

Definition byte (c : ascii) : nat := nat_of_ascii c.

Fixpoint drop (n : nat) (s : string) : string :=
  match n, s with
  | O, _ => s
  | S n', String _ s' => drop n' s'
  | S _, EmptyString => EmptyString
  end.

(** [s.includes(sub)] *)
Fixpoint includes (sub s : string) : bool :=
  String.prefix sub s ||
  match s with
  | EmptyString => false
  | String _ s' => includes sub s'
  end.

(** [s.replace(pat, rep)] with a string pattern: the first occurrence only. *)
Fixpoint replaceFirst (pat rep s : string) : string :=
  if String.prefix pat s then rep +:+ drop (String.length pat) s
  else match s with
       | EmptyString => EmptyString
       | String c s' => String c (replaceFirst pat rep s')
       end.

(** [s.replace(/^p/, '')]: strip a literal prefix when it is there. *)
Definition stripPrefix (p s : string) : string :=
  if String.prefix p s then drop (String.length p) s else s.

(** [s.split('\n')] *)
Fixpoint splitLines (s : string) : list string :=
  match s with
  | EmptyString => [EmptyString]
  | String c s' =>
      if Nat.eqb (byte c) 10 then EmptyString :: splitLines s'
      else match splitLines s' with
           | [] => [String c EmptyString]
           | l :: ls => String c l :: ls
           end
  end.

(** White space and line terminators removed by [trim], as UTF-8 byte
    sequences: TAB, LF, VT, FF, CR, SP, U+00A0, U+1680, U+2000..U+200A,
    U+2028, U+2029, U+202F, U+205F, U+3000, U+FEFF. *)
Definition wsLength (s : string) : nat :=
  match s with
  | String a r =>
      let x := byte a in
      if (Nat.leb 9 x && Nat.leb x 13) || Nat.eqb x 32 then 1%nat
      else match r with
           | String b r' =>
               let y := byte b in
               if Nat.eqb x 194 && Nat.eqb y 160 then 2%nat
               else match r' with
                    | String c _ =>
                        let z := byte c in
                        if Nat.eqb x 225 && Nat.eqb y 154 && Nat.eqb z 128 then 3%nat
                        else if Nat.eqb x 226 && Nat.eqb y 128 &&
                                ((Nat.leb 128 z && Nat.leb z 138) ||
                                 Nat.eqb z 168 || Nat.eqb z 169 || Nat.eqb z 175)
                             then 3%nat
                        else if Nat.eqb x 226 && Nat.eqb y 129 && Nat.eqb z 159 then 3%nat
                        else if Nat.eqb x 227 && Nat.eqb y 128 && Nat.eqb z 128 then 3%nat
                        else if Nat.eqb x 239 && Nat.eqb y 187 && Nat.eqb z 191 then 3%nat
                        else 0%nat
                    | EmptyString => 0%nat
                    end
           | EmptyString => 0%nat
           end
  | EmptyString => 0%nat
  end.

Fixpoint trimStartFuel (fuel : nat) (s : string) : string :=
  match fuel with
  | O => s
  | S fuel' =>
      match wsLength s with
      | O => s
      | n => trimStartFuel fuel' (drop n s)
      end
  end.

(** Every step removes at least one byte, so the length is enough fuel. *)
Definition trimStart (s : string) : string := trimStartFuel (String.length s) s.

(** [trimEnd] keeps the shortest prefix after which only white space
    follows. *)
Fixpoint trimEnd (s : string) : string :=
  match s with
  | EmptyString => EmptyString
  | String c s' =>
      match trimStart s with
      | EmptyString => EmptyString
      | _ => String c (trimEnd s')
      end
  end.

Definition trim (s : string) : string := trimEnd (trimStart s).

Definition lowerAscii (c : ascii) : ascii :=
  let x := byte c in
  if Nat.leb 65 x && Nat.leb x 90 then ascii_of_nat (x + 32) else c.

(** [s.toLowerCase()] on the ASCII letters; other bytes are kept. *)
Fixpoint toLowerCase (s : string) : string :=
  match s with
  | EmptyString => EmptyString
  | String c s' => String (lowerAscii c) (toLowerCase s')
  end.

(** [/[ऀ-ॿ]/.test(s)]: the Devanagari block is the UTF-8 range
    E0 A4 80 .. E0 A5 BF. *)
Fixpoint containsDevanagari (s : string) : bool :=
  match s with
  | String a ((String b (String c _)) as r) =>
      (Nat.eqb (byte a) 224 &&
       (Nat.eqb (byte b) 164 || Nat.eqb (byte b) 165) &&
       Nat.leb 128 (byte c) && Nat.leb (byte c) 191)
      || containsDevanagari r
  | _ => false
  end.

(** *** Numbers *)

Definition ofZ (z : Z) : decimal := Dec z 0.

(** The mantissa of [d] once its exponent is lowered to [e <= expo d]. *)
Definition scaled (d : decimal) (e : Z) : Z := (mant d * 10 ^ (expo d - e))%Z.

Definition cmp (a b : decimal) : comparison :=
  let e := Z.min (expo a) (expo b) in
  Z.compare (scaled a e) (scaled b e).

Definition leb (a b : decimal) : bool :=
  match cmp a b with Gt => false | _ => true end.

Definition ltb (a b : decimal) : bool :=
  match cmp a b with Lt => true | _ => false end.

Definition isZero (d : decimal) : bool := (mant d =? 0)%Z.

Definition isPositive (d : decimal) : bool := (0 <? mant d)%Z.

Definition negate (d : decimal) : decimal := Dec (- mant d) (expo d).

(** *** Doubles

    The numbers of the language are the values of IEEE 754 binary64; the
    operations on them are those of [SpecFloat], with 53 bits of precision
    and exponents below 1024. *)

Definition double : Type := SpecFloat.spec_float.

Definition bits : Z := 53.
Definition topExponent : Z := 1024.

(** The double nearest to [p * 10 ^ e], ties to even. *)
Definition nearest (negative : bool) (p : positive) (e : Z) : double :=
  match e with
  | Zneg k =>
      SpecFloat.SFdiv bits topExponent
        (SpecFloat.S754_finite negative p 0)
        (SpecFloat.S754_finite false (Pos.pow 10 k) 0)
  | _ => SpecFloat.binary_normalize bits topExponent
           (if negative then Zneg p * 10 ^ e else Zpos p * 10 ^ e)%Z 0 false
  end.

Definition toDouble (d : decimal) : double :=
  match mant d with
  | Z0 => SpecFloat.S754_zero false
  | Zpos p => nearest false p (expo d)
  | Zneg p => nearest true p (expo d)
  end.

Definition doubleOf (n : number) : double :=
  match n with
  | Fin d => toDouble d
  | PosInf => SpecFloat.S754_infinity false
  | NegInf => SpecFloat.S754_infinity true
  | NaN => SpecFloat.S754_nan
  end.

Definition sameDouble (a b : double) : bool :=
  match a, b with
  | SpecFloat.S754_finite s m e, SpecFloat.S754_finite s' m' e' =>
      Bool.eqb s s' && Pos.eqb m m' && Z.eqb e e'
  | _, _ => false
  end.

(** [10 ^ n <= P / Q] *)
Definition pow10Leb (n P Q : Z) : bool :=
  if (0 <=? n)%Z then (10 ^ n * Q <=? P)%Z else (Q <=? P * 10 ^ (- n))%Z.

Fixpoint raise (fuel : nat) (n P Q : Z) : Z :=
  match fuel with
  | O => n
  | S fuel' => if pow10Leb n P Q then raise fuel' (n + 1)%Z P Q else n
  end.

Fixpoint lower (fuel : nat) (n P Q : Z) : Z :=
  match fuel with
  | O => n
  | S fuel' => if pow10Leb (n - 1) P Q then n else lower fuel' (n - 1)%Z P Q
  end.

(** The [n] with [10 ^ (n - 1) <= P / Q < 10 ^ n], from an estimate by
    binary logarithms that is off by one at most. *)
Definition magnitude (P Q : Z) : Z :=
  let guess := ((Z.log2 P - Z.log2 Q) * 30103 / 100000)%Z in
  lower 4 (raise 4 guess P Q) P Q.

(** [floor (P / Q / 10 ^ t)] *)
Definition scaledFloor (P Q t : Z) : Z :=
  if (0 <=? t)%Z then (P / (Q * 10 ^ t))%Z else ((P * 10 ^ (- t)) / Q)%Z.

(** [P / Q] compared with [(s + 1/2) * 10 ^ t]. *)
Definition compareMid (P Q s t : Z) : comparison :=
  if (0 <=? t)%Z then Z.compare (2 * P) ((2 * s + 1) * Q * 10 ^ t)
  else Z.compare (2 * P * 10 ^ (- t)) ((2 * s + 1) * Q).

Fixpoint trimZeros (fuel : nat) (s t : Z) : decimal :=
  match fuel with
  | O => Dec s t
  | S fuel' =>
      if ((t <? 0) && (s mod 10 =? 0))%Z then trimZeros fuel' (s / 10)%Z (t + 1)%Z
      else Dec s t
  end.

(** The decimal [s * 10 ^ t] as it is written here: an integer in full, a
    fraction without trailing zeros. *)
Definition written (s t : Z) : decimal :=
  if (0 <=? t)%Z then Dec (s * 10 ^ t) 0 else trimZeros 20 s t.

(** The digits [Number::toString] prints for the positive double [x] of
    value [P / Q], with [10 ^ (n - 1) <= P / Q < 10 ^ n]: the least number
    [k] of digits such that some [s * 10 ^ (n - k)] rounds to [x], and of
    the candidates the one nearest to [x].  Seventeen digits tell any two
    doubles apart. *)
Fixpoint shortest (fuel : nat) (k : Z) (x : double) (P Q n : Z) : option (Z * Z) :=
  match fuel with
  | O => None
  | S fuel' =>
      let t := (n - k)%Z in
      let lo := scaledFloor P Q t in
      let hi := (lo + 1)%Z in
      let rounds s := match s with
                      | Zpos p => sameDouble (nearest false p t) x
                      | _ => false
                      end in
      match rounds lo, rounds hi with
      | true, false => Some (lo, t)
      | false, true => Some (hi, t)
      | true, true =>
          match compareMid P Q lo t with
          | Lt => Some (lo, t)
          | Gt => Some (hi, t)
          | Eq => Some (if Z.even lo then lo else hi, t)
          end
      | false, false => shortest fuel' (k + 1)%Z x P Q n
      end
  end.

(** A double as the number that prints it. *)
Definition ofDouble (x : double) : number :=
  match x with
  | SpecFloat.S754_zero _ => Fin (Dec 0 0)
  | SpecFloat.S754_infinity false => PosInf
  | SpecFloat.S754_infinity true => NegInf
  | SpecFloat.S754_nan => NaN
  | SpecFloat.S754_finite s m e =>
      let P := if (0 <=? e)%Z then (Zpos m * 2 ^ e)%Z else Zpos m in
      let Q := if (0 <=? e)%Z then 1%Z else (2 ^ (- e))%Z in
      let d := match shortest 17 1 (SpecFloat.S754_finite false m e) P Q
                              (magnitude P Q) with
               | Some (digits, t) => written digits t
               | None => if (0 <=? e)%Z then Dec P 0 else Dec (Zpos m * 5 ^ (- e)) e
               end in
      Fin (if s then negate d else d)
  end.

(** The number a decimal literal denotes. *)
Definition rounded (d : decimal) : number := ofDouble (toDouble d).

(** [a - b] *)
Definition numSub (a b : number) : number :=
  ofDouble (SpecFloat.SFsub bits topExponent (doubleOf a) (doubleOf b)).

(** The order of the numbers; [NaN] compares with nothing. *)
Definition numCmp (a b : number) : option comparison :=
  match a, b with
  | NaN, _ | _, NaN => None
  | Fin x, Fin y => Some (cmp x y)
  | PosInf, PosInf | NegInf, NegInf => Some Eq
  | NegInf, _ | _, PosInf => Some Lt
  | PosInf, _ | _, NegInf => Some Gt
  end.

(** [a <= b] *)
Definition numLeb (a b : number) : bool :=
  match numCmp a b with
  | Some Lt | Some Eq => true
  | _ => false
  end.

(** [a < b] *)
Definition numLtb (a b : number) : bool :=
  match numCmp a b with
  | Some Lt => true
  | _ => false
  end.

Definition zero : number := Fin (ofZ 0).

Fixpoint stripZeros (fuel : nat) (m e : Z) : Z * Z :=
  match fuel with
  | O => (m, e)
  | S fuel' =>
      if (m mod 10 =? 0)%Z then stripZeros fuel' (m / 10)%Z (e + 1)%Z else (m, e)
  end.

Fixpoint zeros (n : nat) : string :=
  match n with
  | O => EmptyString
  | S n' => String "0" (zeros n')
  end.

Definition digitsOf (z : Z) : string := pretty (Z.to_N z).

(** [Number.prototype.toString] in radix 10, for a finite number. *)
Definition numberToString (d : decimal) : string :=
  if (mant d =? 0)%Z then "0"
  else
    let '(m, e) := stripZeros (S (Z.to_nat (Z.log2 (Z.abs (mant d)))))
                              (Z.abs (mant d)) (expo d) in
    let s := digitsOf m in
    let k := Z.of_nat (String.length s) in
    let n := (k + e)%Z in
    let body :=
      if ((k <=? n) && (n <=? 21))%Z then s +:+ zeros (Z.to_nat (n - k))
      else if ((0 <? n) && (n <=? 21))%Z then
        String.substring 0 (Z.to_nat n) s +:+ "." +:+ drop (Z.to_nat n) s
      else if ((-6 <? n) && (n <=? 0))%Z then "0." +:+ zeros (Z.to_nat (- n)) +:+ s
      else
        let ex := (n - 1)%Z in
        let es := (if (ex <? 0)%Z then "-" else "+") +:+ digitsOf (Z.abs ex) in
        match s with
        | EmptyString => EmptyString
        | String c EmptyString => String c EmptyString +:+ "e" +:+ es
        | String c r => String c ("." +:+ r) +:+ "e" +:+ es
        end
    in if (mant d <? 0)%Z then "-" +:+ body else body.

Definition digitVal (c : ascii) : option Z :=
  let x := byte c in
  if Nat.leb 48 x && Nat.leb x 57 then Some (Z.of_nat (x - 48)) else None.

Definition hexVal (c : ascii) : option Z :=
  let x := byte c in
  if Nat.leb 48 x && Nat.leb x 57 then Some (Z.of_nat (x - 48))
  else if Nat.leb 97 x && Nat.leb x 102 then Some (Z.of_nat (x - 87))
  else if Nat.leb 65 x && Nat.leb x 70 then Some (Z.of_nat (x - 55))
  else None.

Definition isExpMark (c : ascii) : bool :=
  Nat.eqb (byte c) 101 || Nat.eqb (byte c) 69.

(** Digits of a [0x], [0o] or [0b] literal. *)
Fixpoint radixDigits (radix acc : Z) (s : string) : option Z :=
  match s with
  | EmptyString => Some acc
  | String c s' =>
      match hexVal c with
      | Some v => if (v <? radix)%Z then radixDigits radix (acc * radix + v)%Z s' else None
      | None => None
      end
  end.

Definition radixLiteral (radix : Z) (s : string) : number :=
  match s with
  | EmptyString => NaN
  | _ => match radixDigits radix 0 s with
         | Some z => rounded (ofZ z)
         | None => NaN
         end
  end.

(** Scanner for [StrUnsignedDecimalLiteral]: digits, an optional fraction
    (one side of the point may be empty) and an optional exponent. *)
Inductive sphase : Type := SStart | SInt | SPoint | SFrac | SE | SESign | SExp.

Fixpoint scanDecimal (ph : sphase) (m f : Z) (eneg : bool) (ev : Z) (s : string)
  : option decimal :=
  match s with
  | EmptyString =>
      match ph with
      | SInt | SFrac | SExp => Some (Dec m ((if eneg then - ev else ev) - f))
      | _ => None
      end
  | String c s' =>
      match ph, digitVal c with
      | SStart, Some v | SInt, Some v => scanDecimal SInt (m * 10 + v) f eneg ev s'
      | SPoint, Some v | SFrac, Some v => scanDecimal SFrac (m * 10 + v) (f + 1) eneg ev s'
      | SE, Some v | SESign, Some v | SExp, Some v =>
          scanDecimal SExp m f eneg (ev * 10 + v) s'
      | SStart, None => if Nat.eqb (byte c) 46 then scanDecimal SPoint m f eneg ev s' else None
      | SInt, None =>
          if Nat.eqb (byte c) 46 then scanDecimal SFrac m f eneg ev s'
          else if isExpMark c then scanDecimal SE m f eneg ev s' else None
      | SFrac, None => if isExpMark c then scanDecimal SE m f eneg ev s' else None
      | SE, None =>
          if Nat.eqb (byte c) 43 then scanDecimal SESign m f false ev s'
          else if Nat.eqb (byte c) 45 then scanDecimal SESign m f true ev s' else None
      | _, None => None
      end
  end.

Definition unsignedLiteral (neg : bool) (s : string) : number :=
  if String.eqb s "Infinity" then (if neg then NegInf else PosInf)
  else match scanDecimal SStart 0 0 false 0 s with
       | Some d => rounded (if neg then negate d else d)
       | None => NaN
       end.

(** [StringToNumber]: the literal, rounded to the nearest double. *)
Definition stringToNumber (s : string) : number :=
  match trim s with
  | EmptyString => Fin (ofZ 0)
  | String c r as t =>
      if String.prefix "0x" t || String.prefix "0X" t then radixLiteral 16 (drop 2 t)
      else if String.prefix "0o" t || String.prefix "0O" t then radixLiteral 8 (drop 2 t)
      else if String.prefix "0b" t || String.prefix "0B" t then radixLiteral 2 (drop 2 t)
      else if Nat.eqb (byte c) 43 then unsignedLiteral false r
      else if Nat.eqb (byte c) 45 then unsignedLiteral true r
      else unsignedLiteral false t
  end.

(** *** Conversions and operators on values *)

(** [ToString]; an array joins its elements with commas, [null] and
    [undefined] elements giving the empty string. *)
Fixpoint toString (v : JSValue) : string :=
  match v with
  | JUndefined => "undefined"
  | JNull => "null"
  | JBool true => "true"
  | JBool false => "false"
  | JNum d => numberToString d
  | JStr s => s
  | JArr items =>
      (fix join (l : list JSValue) : string :=
         match l with
         | [] => EmptyString
         | x :: r =>
             let sx := match x with
                       | JUndefined | JNull => EmptyString
                       | _ => toString x
                       end in
             match r with
             | [] => sx
             | _ :: _ => sx +:+ "," +:+ join r
             end
         end) items
  | JObj _ => "[object Object]"
  end.

(** [ToNumber]; arrays and objects go through [ToPrimitive], which for the
    values modelled here is [toString]. *)
Definition toNumber (v : JSValue) : number :=
  match v with
  | JUndefined => NaN
  | JNull => Fin (ofZ 0)
  | JBool true => Fin (ofZ 1)
  | JBool false => Fin (ofZ 0)
  | JNum d => Fin d
  | JStr s => stringToNumber s
  | JArr _ | JObj _ => stringToNumber (toString v)
  end.

(** [ToBoolean] *)
Definition truthy (v : JSValue) : bool :=
  match v with
  | JUndefined | JNull => false
  | JBool b => b
  | JNum d => negb (isZero d)
  | JStr s => negb (String.eqb s EmptyString)
  | JArr _ | JObj _ => true
  end.

(** [Number.prototype.toString] in radix 10. *)
Definition numToString (n : number) : string :=
  match n with
  | Fin d => numberToString d
  | PosInf => "Infinity"
  | NegInf => "-Infinity"
  | NaN => "NaN"
  end.

(** [a >= v] for a number [a]: false as soon as [v] converts to NaN. *)
Definition geValue (a : number) (v : JSValue) : bool := numLeb (toNumber v) a.

(** [v === s] for a string literal [s]. *)
Definition strictEqStr (v : JSValue) (s : string) : bool :=
  match v with
  | JStr t => String.eqb t s
  | _ => false
  end.

(** Own property of an object literal; a later binding of a key wins. *)
Definition lookupLast (k : string) (fields : list (string * JSValue)) : JSValue :=
  fold_left (fun acc kv => if String.eqb (fst kv) k then snd kv else acc)
            fields JUndefined.

(** [v.k] where [k] is one of the property names the modelled code reads
    (none of them is inherited, an index or [length]): a [TypeError] on
    [undefined] and [null], the own property of an object, [undefined] on
    every other value. *)
Definition getProp (v : JSValue) (k : string) : exn + JSValue :=
  match v with
  | JUndefined | JNull => inl (TypeError k)
  | JObj fields => inr (lookupLast k fields)
  | _ => inr JUndefined
  end.

(** [v?.k] *)
Definition getPropOpt (v : JSValue) (k : string) : JSValue :=
  match getProp v k with
  | inl _ => JUndefined
  | inr x => x
  end.

(** [v[i]] for an index literal [i]. *)
Definition getIndex (v : JSValue) (i : nat) : exn + JSValue :=
  match v with
  | JUndefined | JNull => inl (TypeError (pretty i))
  | JArr items => inr (nth i items JUndefined)
  | JStr s => inr (match String.get i s with
                   | Some c => JStr (String c EmptyString)
                   | None => JUndefined
                   end)
  | JObj fields => inr (lookupLast (pretty i) fields)
  | _ => inr JUndefined
  end.

(** [v.includes(s)]: defined on strings and arrays; on any other value the
    property is not a function and the call raises. *)
Definition callIncludes (v : JSValue) (s : string) : exn + bool :=
  match v with
  | JStr t => inr (includes s t)
  | JArr items => inr (existsb (fun x => strictEqStr x s) items)
  | _ => inl (TypeError "includes")
  end.

End JS.

(* ===================================================================== *)
(** ** [JSON.parse] *)
(* ===================================================================== *)

Module JSON.
Import JS.

Inductive token : Type :=
| TLBrace | TRBrace | TLBracket | TRBracket | TColon | TComma
| TString (s : string)
| TNumber (d : decimal)
| TTrue | TFalse | TNull.

(** Where the scanner stands inside a number: an optional minus sign; a
    single zero or a non-zero digit followed by digits; an optional point
    with at least one digit; an optional exponent mark with an optional
    sign and at least one digit. *)
Inductive nphase : Type :=
| NMinus | NZero | NInt | NPoint | NFrac | NE | NESign | NExp.

Record numAcc : Type :=
  NumAcc { nNeg : bool; nMant : Z; nFrac : Z; nExpNeg : bool; nExp : Z }.

(** The number a literal stands for: the literal rounded to the nearest
    double.  A literal beyond the range of the doubles, which the language
    reads as an infinity, is kept as it is written. *)
Definition numValue (a : numAcc) : decimal :=
  let d := Dec (if nNeg a then - nMant a else nMant a)
               ((if nExpNeg a then - nExp a else nExp a) - nFrac a) in
  match rounded d with
  | Fin r => r
  | _ => d
  end.

Definition accepting (ph : nphase) : bool :=
  match ph with
  | NZero | NInt | NFrac | NExp => true
  | _ => false
  end.

Inductive lexState : Type :=
| LIdle
| LNum (ph : nphase) (a : numAcc)
| LStr (acc : list ascii)                      (* inside a string, reversed *)
| LEsc (acc : list ascii)                      (* after a backslash *)
| LUni (acc : list ascii) (k : nat) (code : nat) (* k hex digits of \u read *)
| LHigh (acc : list ascii) (hi : nat)          (* after a high surrogate *)
| LHighEsc (acc : list ascii) (hi : nat)       (* and a backslash *)
| LLow (acc : list ascii) (hi : nat) (k : nat) (code : nat) (* and k digits *)
| LLit (rest : string) (t : token).            (* rest of true, false, null *)

(** UTF-8 encoding of a code unit below 2^16. *)
Definition utf8 (n : nat) : list ascii :=
  if Nat.ltb n 128 then [ascii_of_nat n]
  else if Nat.ltb n 2048 then
    [ascii_of_nat (192 + n / 64); ascii_of_nat (128 + n mod 64)]
  else
    [ascii_of_nat (224 + n / 4096); ascii_of_nat (128 + (n / 64) mod 64);
     ascii_of_nat (128 + n mod 64)].

Definition isHighSurrogate (n : nat) : bool :=
  (55296 <=? N.of_nat n)%N && (N.of_nat n <=? 56319)%N.

Definition isLowSurrogate (n : nat) : bool :=
  (56320 <=? N.of_nat n)%N && (N.of_nat n <=? 57343)%N.

(** UTF-8 encoding of the code point a surrogate pair stands for. *)
Definition utf8Pair (hi lo : nat) : list ascii :=
  let n := (65536 + (N.of_nat hi - 55296) * 1024 + (N.of_nat lo - 56320))%N in
  [ascii_of_N (240 + n / 262144); ascii_of_N (128 + (n / 4096) mod 64);
   ascii_of_N (128 + (n / 64) mod 64); ascii_of_N (128 + n mod 64)]%N.

Definition isJsonSpace (x : nat) : bool :=
  Nat.eqb x 32 || Nat.eqb x 9 || Nat.eqb x 10 || Nat.eqb x 13.

(** One character read between tokens. *)
Definition idleStep (c : ascii) : option (lexState * list token) :=
  let x := byte c in
  if isJsonSpace x then Some (LIdle, [])
  else if Nat.eqb x 123 then Some (LIdle, [TLBrace])
  else if Nat.eqb x 125 then Some (LIdle, [TRBrace])
  else if Nat.eqb x 91 then Some (LIdle, [TLBracket])
  else if Nat.eqb x 93 then Some (LIdle, [TRBracket])
  else if Nat.eqb x 58 then Some (LIdle, [TColon])
  else if Nat.eqb x 44 then Some (LIdle, [TComma])
  else if Nat.eqb x 34 then Some (LStr [], [])
  else if Nat.eqb x 45 then Some (LNum NMinus (NumAcc true 0 0 false 0), [])
  else if Nat.eqb x 48 then Some (LNum NZero (NumAcc false 0 0 false 0), [])
  else if Nat.eqb x 116 then Some (LLit "rue" TTrue, [])
  else if Nat.eqb x 102 then Some (LLit "alse" TFalse, [])
  else if Nat.eqb x 110 then Some (LLit "ull" TNull, [])
  else match digitVal c with
       | Some v => Some (LNum NInt (NumAcc false v 0 false 0), [])
       | None => None
       end.

(** One character read inside a number; [None] when the character does not
    continue the number. *)
Definition numStep (ph : nphase) (a : numAcc) (c : ascii) : option (nphase * numAcc) :=
  let '(NumAcc neg m f eneg ev) := a in
  match ph, digitVal c with
  | NMinus, Some v =>
      Some (if (v =? 0)%Z then NZero else NInt, NumAcc neg v f eneg ev)
  | NInt, Some v => Some (NInt, NumAcc neg (m * 10 + v) f eneg ev)
  | NPoint, Some v | NFrac, Some v =>
      Some (NFrac, NumAcc neg (m * 10 + v) (f + 1) eneg ev)
  | NE, Some v | NESign, Some v | NExp, Some v =>
      Some (NExp, NumAcc neg m f eneg (ev * 10 + v))
  | NZero, Some _ => None
  | NZero, None | NInt, None =>
      if Nat.eqb (byte c) 46 then Some (NPoint, a)
      else if isExpMark c then Some (NE, a) else None
  | NFrac, None => if isExpMark c then Some (NE, a) else None
  | NE, None =>
      if Nat.eqb (byte c) 43 then Some (NESign, NumAcc neg m f false ev)
      else if Nat.eqb (byte c) 45 then Some (NESign, NumAcc neg m f true ev)
      else None
  | _, None => None
  end.

(** One character read inside a string. *)
Definition strStep (acc : list ascii) (c : ascii) : option (lexState * list token) :=
  let x := byte c in
  if Nat.eqb x 34 then Some (LIdle, [TString (string_of_list_ascii (rev acc))])
  else if Nat.eqb x 92 then Some (LEsc acc, [])
  else if Nat.ltb x 32 then None
  else Some (LStr (c :: acc), []).

(** One character read after a backslash. *)
Definition escStep (acc : list ascii) (c : ascii) : option (lexState * list token) :=
  let x := byte c in
  if Nat.eqb x 34 || Nat.eqb x 92 || Nat.eqb x 47 then Some (LStr (c :: acc), [])
  else if Nat.eqb x 98 then Some (LStr (ascii_of_nat 8 :: acc), [])
  else if Nat.eqb x 102 then Some (LStr (ascii_of_nat 12 :: acc), [])
  else if Nat.eqb x 110 then Some (LStr (ascii_of_nat 10 :: acc), [])
  else if Nat.eqb x 114 then Some (LStr (ascii_of_nat 13 :: acc), [])
  else if Nat.eqb x 116 then Some (LStr (ascii_of_nat 9 :: acc), [])
  else if Nat.eqb x 117 then Some (LUni acc 0 0, [])
  else None.

(** An escaped high surrogate waits for the escape of a low one, with
    which it makes one code point; followed by anything else it stays a
    code unit of its own. *)
Definition lexStep (st : lexState) (c : ascii) : option (lexState * list token) :=
  let x := byte c in
  match st with
  | LIdle => idleStep c
  | LNum ph a =>
      match numStep ph a c with
      | Some (ph', a') => Some (LNum ph' a', [])
      | None =>
          if accepting ph then
            match idleStep c with
            | Some (st', ts) => Some (st', TNumber (numValue a) :: ts)
            | None => None
            end
          else None
      end
  | LStr acc => strStep acc c
  | LEsc acc => escStep acc c
  | LUni acc k code =>
      match hexVal c with
      | Some v =>
          let code' := (code * 16 + Z.to_nat v)%nat in
          if Nat.eqb k 3 then
            if isHighSurrogate code' then Some (LHigh acc code', [])
            else Some (LStr (rev (utf8 code') ++ acc), [])
          else Some (LUni acc (S k) code', [])
      | None => None
      end
  | LHigh acc hi =>
      if Nat.eqb x 92 then Some (LHighEsc acc hi, [])
      else strStep (rev (utf8 hi) ++ acc) c
  | LHighEsc acc hi =>
      if Nat.eqb x 117 then Some (LLow acc hi 0 0, [])
      else escStep (rev (utf8 hi) ++ acc) c
  | LLow acc hi k code =>
      match hexVal c with
      | Some v =>
          let code' := (code * 16 + Z.to_nat v)%nat in
          if Nat.eqb k 3 then
            if isLowSurrogate code' then Some (LStr (rev (utf8Pair hi code') ++ acc), [])
            else if isHighSurrogate code'
                 then Some (LHigh (rev (utf8 hi) ++ acc) code', [])
                 else Some (LStr (rev (utf8 code') ++ rev (utf8 hi) ++ acc), [])
          else Some (LLow acc hi (S k) code', [])
      | None => None
      end
  | LLit rest t =>
      match rest with
      | String r rest' =>
          if Nat.eqb x (byte r) then
            match rest' with
            | EmptyString => Some (LIdle, [t])
            | _ => Some (LLit rest' t, [])
            end
          else None
      | EmptyString => None
      end
  end.

Fixpoint lex (st : lexState) (s : string) : option (list token) :=
  match s with
  | EmptyString =>
      match st with
      | LIdle => Some []
      | LNum ph a => if accepting ph then Some [TNumber (numValue a)] else None
      | _ => None
      end
  | String c s' =>
      match lexStep st c with
      | Some (st', ts) =>
          match lex st' s' with
          | Some rest => Some (ts ++ rest)
          | None => None
          end
      | None => None
      end
  end.

(** The parser proper: a stack of open arrays and objects, and what may
    come next. *)
Inductive frame : Type :=
| FArr (ritems : list JSValue)
| FObj (rfields : list (string * JSValue)) (key : option string).

Inductive mode : Type :=
| MValue       (* a value *)
| MArrStart    (* a value or a closing bracket *)
| MObjStart    (* a key or a closing brace *)
| MKey         (* a key *)
| MColon       (* a colon *)
| MAfter       (* a comma or the matching close *)
| MDone (v : JSValue).

Definition complete (v : JSValue) (stack : list frame) : option (list frame * mode) :=
  match stack with
  | [] => Some ([], MDone v)
  | FArr ritems :: st => Some (FArr (v :: ritems) :: st, MAfter)
  | FObj rfields (Some k) :: st => Some (FObj ((k, v) :: rfields) None :: st, MAfter)
  | FObj _ None :: _ => None
  end.

Definition startsValue (m : mode) : bool :=
  match m with MValue | MArrStart => true | _ => false end.

Definition parseStep (stack : list frame) (m : mode) (t : token)
  : option (list frame * mode) :=
  match t with
  | TString s =>
      match m, stack with
      | MObjStart, FObj rfields None :: st
      | MKey, FObj rfields None :: st => Some (FObj rfields (Some s) :: st, MColon)
      | _, _ => if startsValue m then complete (JStr s) stack else None
      end
  | TNumber d => if startsValue m then complete (JNum d) stack else None
  | TTrue => if startsValue m then complete (JBool true) stack else None
  | TFalse => if startsValue m then complete (JBool false) stack else None
  | TNull => if startsValue m then complete JNull stack else None
  | TLBracket => if startsValue m then Some (FArr [] :: stack, MArrStart) else None
  | TLBrace => if startsValue m then Some (FObj [] None :: stack, MObjStart) else None
  | TRBracket =>
      match m, stack with
      | MArrStart, FArr ritems :: st
      | MAfter, FArr ritems :: st => complete (JArr (rev ritems)) st
      | _, _ => None
      end
  | TRBrace =>
      match m, stack with
      | MObjStart, FObj rfields None :: st
      | MAfter, FObj rfields None :: st => complete (JObj (rev rfields)) st
      | _, _ => None
      end
  | TComma =>
      match m, stack with
      | MAfter, FArr _ :: _ => Some (stack, MValue)
      | MAfter, FObj _ None :: _ => Some (stack, MKey)
      | _, _ => None
      end
  | TColon =>
      match m with
      | MColon => Some (stack, MValue)
      | _ => None
      end
  end.

Fixpoint parseTokens (stack : list frame) (m : mode) (ts : list token)
  : option JSValue :=
  match ts with
  | [] => match m with MDone v => Some v | _ => None end
  | t :: ts' =>
      match parseStep stack m t with
      | Some (stack', m') => parseTokens stack' m' ts'
      | None => None
      end
  end.

(** [JSON.parse(text)] for a string [text]; [None] is a [SyntaxError]. *)
Definition parseText (text : string) : option JSValue :=
  match lex LIdle text with
  | Some ts => parseTokens [] MValue ts
  | None => None
  end.

(** [JSON.parse(v)]: the argument is converted with [ToString] first. *)
Definition parse (v : JSValue) : exn + JSValue :=
  match parseText (toString v) with
  | Some r => inr r
  | None => inl SyntaxError
  end.

End JSON.

(* ===================================================================== *)
(** ** What the two provider clients share *)
(* ===================================================================== *)

Module Provider.
Import JS.

(** A chat message, as the routes build it and as the vendor receives it. *)
Record Message : Type := Msg { role : JSValue; content : JSValue }.

(** The [options] argument of the clients; an absent field is
    [JUndefined]. *)
Record Options : Type := {
  model : JSValue;
  temperature : JSValue;
  max_tokens : JSValue;
  system_prompt : JSValue;
  userLanguage : JSValue;
  inventoryAccess : JSValue;
  stream : JSValue
}.

Definition noOptions : Options :=
  {| model := JUndefined; temperature := JUndefined; max_tokens := JUndefined;
     system_prompt := JUndefined; userLanguage := JUndefined;
     inventoryAccess := JUndefined; stream := JUndefined |}.

(** The body posted to [/chat/completions]; [rStreamed] tells whether the
    call asks for [responseType: 'stream']. *)
Record Request : Type := {
  rModel : JSValue;
  rMessages : list Message;
  rTemperature : JSValue;
  rMaxTokens : JSValue;
  rStream : JSValue;
  rStreamed : bool
}.

(** The [response] field of an axios error. *)
Record ErrorResponse : Type := { status : Z; data : JSValue }.

(** An axios error: [response] when the server answered, [request] when the
    request left but no answer came, [code] for network-level failures. *)
Record HttpError : Type := {
  response : option ErrorResponse;
  request : bool;
  code : option string;
  message : string
}.

(** Outcome of one [client.post]; the payload is [response.data]. *)
Inductive HttpResult (A : Type) : Type :=
| HttpOk (payload : A)
| HttpFail (e : HttpError).
Arguments HttpOk {A} _.
Arguments HttpFail {A} _.

(** What travels up a [throw]. *)
Inductive Thrown : Type :=
| ThrownHttp (e : HttpError)
| ThrownExn (x : exn).

(** The errors a client finally raises, one per message of the outer
    [catch]. *)
Inductive ClientError : Type :=
| AuthenticationFailed          (* status 401 *)
| RateLimitExceeded             (* status 429 *)
| ServerError                   (* status >= 500 *)
| NoResponse                    (* request sent, no response *)
| StatusError (st : Z)          (* streaming only: any other status *)
| Failed (cause : Thrown).      (* "Failed to generate ...: " + message *)

(** What one call of a client did: the requests it posted, in order, the
    delays it slept between them, and how it ended. *)
Record Trace (A : Type) : Type := {
  requests : list Request;
  delays : list Q;
  result : A
}.
Arguments requests {A} _.
Arguments delays {A} _.
Arguments result {A} _.

Definition attempts {A} (t : Trace A) : nat := length (requests t).

(** [a || b] *)
Definition orElse (a b : JSValue) : JSValue := if truthy a then a else b.

Definition defaultPrompt : string := "You are a helpful AI assistant.".

Definition languagePrompt : string :=
  "You are a friendly and helpful AI assistant. Always greet the " +:+
  "user appropriately when they say hello, hi, namaste, or any other " +:+
  "greeting. Respond to basic greetings and questions like " +:+
  dq +:+
  "how are you" +:+
  dq +:+
  " in a conversational manner. Please respond in the same language " +:+
  "as the user. If the user speaks in Hindi, respond in Hindi. If " +:+
  "they speak in English, respond in English. If they speak in any " +:+
  "other language, try to respond in that same language.".

Definition inventoryInstruction : string :=
  nl +:+
  nl +:+
  "IMPORTANT INSTRUCTION: You have access to the product inventory " +:+
  "information from the 'productinventories' collection. You MUST " +:+
  "ONLY provide information about products that are available in the " +:+
  "inventory data. If a user asks about a product or any information " +:+
  "that is not in the inventory data, you MUST respond that you " +:+
  "don't have that information or the product is not available in " +:+
  "your inventory. DO NOT provide any information from your general " +:+
  "knowledge about products, specifications, or any other details " +:+
  "that are not explicitly mentioned in the inventory data provided " +:+
  "to you. Always check if the product exists in the inventory " +:+
  "before responding." +:+
  nl +:+
  nl +:+
  "When a user asks about product availability, you should respond " +:+
  "in the same language as the user. If the user speaks in Hindi, " +:+
  "respond in Hindi. If they speak in English, respond in English." +:+
  nl +:+
  nl +:+
  "For product inventory queries, you can help users with:" +:+
  nl +:+
  "1. Checking if a product is available in stock" +:+
  nl +:+
  "2. Providing information about available quantity" +:+
  nl +:+
  "3. Helping place orders for available products" +:+
  nl +:+
  "4. Suggesting alternatives if a product is out of stock" +:+
  nl +:+
  nl +:+
  "The product inventory database contains information such as " +:+
  "product name, SKU, available stock, and unit of measurement.".

(** The system prompt both [generateResponse] methods compute. *)
Definition systemPrompt (o : Options) : JSValue :=
  let base :=
    if truthy (system_prompt o) then system_prompt o
    else if truthy (userLanguage o) then JStr languagePrompt
    else JStr defaultPrompt in
  if truthy (inventoryAccess o)
  then JStr (toString base +:+ inventoryInstruction)
  else base.

(** [msg => ({ role: msg.role === 'bot' ? 'assistant' : 'user',
               content: msg.content })] *)
Definition mapMessage (m : Message) : Message :=
  Msg (JStr (if strictEqStr (role m) "bot" then "assistant" else "user"))
      (content m).

Definition maxRetries : nat := 3.

Section RetryLoop.

Context {A : Type}.
(** The client's [_shouldRetryRequest], which may itself raise. *)
Variable shouldRetry : HttpError -> exn + bool.
(** The delay before the next attempt, from the incremented [retries]
    and the value [Math.random()] returned. *)
Variable delayFor : nat -> Q -> Q.
Variable req : Request.
(** The network: the outcome of the n-th post of this call (from 0). *)
Variable http : nat -> HttpResult A.
(** [Math.random]: the value of the n-th call (from 0). *)
Variable random : nat -> Q.

(** The [while (retries < maxRetries)] loop, by recursion on
    [k = maxRetries - retries].  [inr None] is the exit through the loop
    condition, which leaves [response] unset. *)
Fixpoint retryLoop (k : nat) : Trace (Thrown + option A) :=
  match k with
  | O => {| requests := []; delays := []; result := inr None |}
  | S k' =>
      let retries := (maxRetries - k)%nat in
      let stop r := {| requests := [req]; delays := []; result := r |} in
      match http retries with
      | HttpOk payload => stop (inr (Some payload))
      | HttpFail e =>
          match shouldRetry e with
          | inl x => stop (inl (ThrownExn x))
          | inr false => stop (inl (ThrownHttp e))
          | inr true =>
              let retries' := S retries in
              if Nat.leb maxRetries retries' then stop (inl (ThrownHttp e))
              else
                let t := retryLoop k' in
                {| requests := req :: requests t;
                   delays := delayFor retries' (random retries) :: delays t;
                   result := result t |}
          end
      end
  end.

End RetryLoop.

(** [Math.pow(2, retries) * 1000] *)
Definition baseDelay (retries : nat) : Q := inject_Z (2 ^ Z.of_nat retries * 1000).

(** Calls made on the [onChunk] sink. *)
Inductive Call : Type :=
| Content (v : JSValue)     (* a fragment of text *)
| Done                      (* the completion signal *)
| Problem (e : ClientError). (* an [{error}] payload *)

(** [parsed.choices[0]?.delta?.content] *)
Definition deltaContent (parsed : JSValue) : exn + JSValue :=
  match getProp parsed "choices" with
  | inl x => inl x
  | inr choices =>
      match getIndex choices 0 with
      | inl x => inl x
      | inr first => inr (getPropOpt (getPropOpt first "delta") "content")
      end
  end.

(** [chunk.toString().split('\n').filter(line => line.trim() !== '')] *)
Definition chunkLines (chunk : string) : list string :=
  List.filter (fun line => negb (String.eqb (trim line) EmptyString))
              (splitLines chunk).

End Provider.

(* ===================================================================== *)
(** ** [utils/mistralClient.js] *)
(* ===================================================================== *)

Module MistralClient.
Import JS Provider.

Definition networkCodes : list string :=
  ["ECONNRESET"; "ETIMEDOUT"; "ECONNABORTED"; "ENOTFOUND"; "EAI_AGAIN"].

(** The third test of [_shouldRetryRequest]:
    [error.response && error.response.status === 404 ||
     (error.response.data && error.response.data.error &&
      error.response.data.error.includes('model not found'))].
    [&&] binds tighter than [||], so the right operand is evaluated as soon
    as the left one is falsy, also when [error.response] is [undefined]. *)
Definition modelMissing (e : HttpError) : exn + bool :=
  match response e with
  | None => inl (TypeError "data")
  | Some r =>
      if (status r =? 404)%Z then inr true
      else if negb (truthy (data r)) then inr false
      else match getProp (data r) "error" with
           | inl x => inl x
           | inr err =>
               if negb (truthy err) then inr false
               else callIncludes err "model not found"
           end
  end.

Definition statusIs (e : HttpError) (p : Z -> bool) : bool :=
  match response e with
  | Some r => p (status r)
  | None => false
  end.

(** [_shouldRetryRequest(error)] *)
Definition _shouldRetryRequest (e : HttpError) : exn + bool :=
  if statusIs e (Z.eqb 401) then inr false
  else if statusIs e (Z.eqb 400) then inr false
  else match modelMissing e with
       | inl x => inl x
       | inr true => inr false
       | inr false =>
           if statusIs e (Z.eqb 429) then inr true
           else if statusIs e (Z.leb 500) then inr true
           else match code e with
                | Some c => if existsb (String.eqb c) networkCodes then inr true else inr true
                | None => inr true
                end
       end.

(** [baseDelay + jitter] with [jitter = Math.random() * 1000] *)
Definition delayFor (retries : nat) (rnd : Q) : Q := baseDelay retries + rnd * 1000.

Definition buildRequest (messages : list Message) (o : Options) : Request :=
  {| rModel := orElse (model o) (JStr "mistral-small");
     rMessages := Msg (JStr "system") (systemPrompt o) :: map mapMessage messages;
     rTemperature := orElse (temperature o) (JNum (Dec 7 (-1)));
     rMaxTokens := orElse (max_tokens o) (JNum (ofZ 1000));
     rStream := orElse (stream o) (JBool false);
     rStreamed := false |}.

Definition buildStreamingRequest (messages : list Message) (o : Options) : Request :=
  {| rModel := orElse (model o) (JStr "mistral-small");
     rMessages := map mapMessage messages;
     rTemperature := orElse (temperature o) (JNum (Dec 7 (-1)));
     rMaxTokens := orElse (max_tokens o) (JNum (ofZ 1000));
     rStream := JBool true;
     rStreamed := true |}.

(** The outer [catch] of both methods. *)
Definition classify (t : Thrown) : ClientError :=
  match t with
  | ThrownHttp e =>
      match response e with
      | Some r =>
          if (status r =? 401)%Z then AuthenticationFailed
          else if (status r =? 429)%Z then RateLimitExceeded
          else if (500 <=? status r)%Z then ServerError
          else Failed t
      | None => if request e then NoResponse else Failed t
      end
  | ThrownExn _ => Failed t
  end.

(** The object [generateResponse] returns:
    [{ reply: response.data.choices[0].message.content,
       model: response.data.model, usage: response.data.usage, latency }]. *)
Definition replyObject (resp : option JSValue) (latency : decimal) : exn + JSValue :=
  match resp with
  | None => inl (TypeError "data")
  | Some d =>
      match getProp d "choices" with
      | inl x => inl x
      | inr choices =>
      match getIndex choices 0 with
      | inl x => inl x
      | inr first =>
      match getProp first "message" with
      | inl x => inl x
      | inr msg =>
      match getProp msg "content" with
      | inl x => inl x
      | inr reply =>
          inr (JObj [("reply", reply);
                     ("model", getPropOpt d "model");
                     ("usage", getPropOpt d "usage");
                     ("latency", JNum latency)])
      end end end end
  end.

(** [generateResponse(sessionId, messages, options)].  [latency] is the
    difference of the two clock readings. *)
Definition generateResponse (messages : list Message) (o : Options)
    (http : nat -> HttpResult JSValue) (random : nat -> Q) (latency : decimal)
  : Trace (ClientError + JSValue) :=
  let t := retryLoop _shouldRetryRequest delayFor (buildRequest messages o)
                     http random maxRetries in
  {| requests := requests t;
     delays := delays t;
     result := match result t with
               | inl thrown => inl (classify thrown)
               | inr resp =>
                   match replyObject resp latency with
                   | inl x => inl (classify (ThrownExn x))
                   | inr obj => inr obj
                   end
               end |}.

(** One line of a chunk, inside the ['data'] listener. *)
Definition onLine (line : string) : list Call :=
  if includes "data:" line then
    let payload := trim (replaceFirst "data:" EmptyString line) in
    if String.eqb payload "[DONE]" then [Done]
    else match JSON.parseText payload with
         | None => []                       (* logged, not fatal *)
         | Some parsed =>
             match deltaContent parsed with
             | inl _ => []                  (* logged, not fatal *)
             | inr c => if truthy c then [Content c] else []
             end
         end
  else [].

(** The ['data'] listener: the sink calls one chunk causes. *)
Definition onData (chunk : string) : list Call :=
  flat_map onLine (chunkLines chunk).

(** The ['end'] listener only logs. *)
Definition onEnd : list Call := [].

(** [generateStreamingResponse(sessionId, messages, onChunk, options)].
    The payload of a successful post is the stream: its chunks, in order,
    before it ends.  The sink calls are those of the whole stream. *)
Definition generateStreamingResponse (messages : list Message) (o : Options)
    (http : nat -> HttpResult (list string)) (random : nat -> Q)
  : Trace (ClientError + list Call) :=
  let t := retryLoop _shouldRetryRequest delayFor
                     (buildStreamingRequest messages o) http random maxRetries in
  {| requests := requests t;
     delays := delays t;
     result := match result t with
               | inl thrown => inl (classify thrown)
               | inr None => inl (classify (ThrownExn (TypeError "data")))
               | inr (Some chunks) => inr (flat_map onData chunks ++ onEnd)
               end |}.

End MistralClient.

(* ===================================================================== *)
(** ** [utils/openaiClient.js] *)
(* ===================================================================== *)

Module OpenAIClient.
Import JS Provider.

(** The test made on a response with status 400, 401 or 404:
    [status === 404 && error.response.data && error.response.data.error &&
     error.response.data.error.message &&
     error.response.data.error.message.includes('model')].
    The method returns [false] whatever the test answers; the test counts
    by the [TypeError] of [includes] on a message that is truthy and
    neither a string nor an array. *)
Definition namesModel (r : ErrorResponse) : exn + bool :=
  if negb (status r =? 404)%Z then inr false
  else if negb (truthy (data r)) then inr false
  else match getProp (data r) "error" with
       | inl x => inl x
       | inr err =>
           if negb (truthy err) then inr false
           else match getProp err "message" with
                | inl x => inl x
                | inr msg =>
                    if negb (truthy msg) then inr false
                    else callIncludes msg "model"
                end
       end.

(** [_shouldRetryRequest(error)] *)
Definition _shouldRetryRequest (e : HttpError) : exn + bool :=
  match response e with
  | Some r =>
      let st := status r in
      if (st =? 400)%Z || (st =? 401)%Z || (st =? 404)%Z then
        match namesModel r with
        | inl x => inl x
        | inr _ => inr false
        end
      else inr ((st =? 429)%Z || (500 <=? st)%Z)
  | None =>
      if match code e with
         | Some c => String.eqb c "ECONNRESET" || String.eqb c "ETIMEDOUT" ||
                     String.eqb c "ECONNABORTED"
         | None => false
         end || includes "timeout" (message e)
      then inr true
      else inr false
  end.

(** [Math.min(1000 * Math.pow(2, retries) + Math.random() * 1000, 10000)] *)
Definition delayFor (retries : nat) (rnd : Q) : Q :=
  Qmin (baseDelay retries + rnd * 1000) 10000.

Definition buildRequest (messages : list Message) (o : Options) : Request :=
  {| rModel := orElse (model o) (JStr "gpt-3.5-turbo");
     rMessages := Msg (JStr "system") (systemPrompt o) :: map mapMessage messages;
     rTemperature := orElse (temperature o) (JNum (Dec 7 (-1)));
     rMaxTokens := orElse (max_tokens o) (JNum (ofZ 1000));
     rStream := orElse (stream o) (JBool false);
     rStreamed := false |}.

Definition buildStreamingRequest (messages : list Message) (o : Options) : Request :=
  {| rModel := orElse (model o) (JStr "gpt-3.5-turbo");
     rMessages := map mapMessage messages;
     rTemperature := orElse (temperature o) (JNum (Dec 7 (-1)));
     rMaxTokens := orElse (max_tokens o) (JNum (ofZ 1000));
     rStream := JBool true;
     rStreamed := true |}.

(** The outer [catch] of [generateResponse]. *)
Definition classify (t : Thrown) : ClientError :=
  match t with
  | ThrownHttp e =>
      match response e with
      | Some r =>
          if (status r =? 401)%Z then AuthenticationFailed
          else if (status r =? 429)%Z then RateLimitExceeded
          else if (500 <=? status r)%Z then ServerError
          else Failed t
      | None => if request e then NoResponse else Failed t
      end
  | ThrownExn _ => Failed t
  end.

(** The outer [catch] of [generateStreamingResponse], which reports on the
    sink instead of raising. *)
Definition classifyStreaming (t : Thrown) : ClientError :=
  match t with
  | ThrownHttp e =>
      match response e with
      | Some r =>
          if (status r =? 401)%Z then AuthenticationFailed
          else if (status r =? 429)%Z then RateLimitExceeded
          else if (500 <=? status r)%Z then ServerError
          else StatusError (status r)
      | None => if request e then NoResponse else Failed t
      end
  | ThrownExn _ => Failed t
  end.

(** [{ reply: response.data.choices[0].message.content,
       model: response.data.model, usage: response.data.usage }] *)
Definition replyObject (resp : option JSValue) : exn + JSValue :=
  match resp with
  | None => inl (TypeError "data")
  | Some d =>
      match getProp d "choices" with
      | inl x => inl x
      | inr choices =>
      match getIndex choices 0 with
      | inl x => inl x
      | inr first =>
      match getProp first "message" with
      | inl x => inl x
      | inr msg =>
      match getProp msg "content" with
      | inl x => inl x
      | inr reply =>
          inr (JObj [("reply", reply);
                     ("model", getPropOpt d "model");
                     ("usage", getPropOpt d "usage")])
      end end end end
  end.

Definition generateResponse (messages : list Message) (o : Options)
    (http : nat -> HttpResult JSValue) (random : nat -> Q)
  : Trace (ClientError + JSValue) :=
  let t := retryLoop _shouldRetryRequest delayFor (buildRequest messages o)
                     http random maxRetries in
  {| requests := requests t;
     delays := delays t;
     result := match result t with
               | inl thrown => inl (classify thrown)
               | inr resp =>
                   match replyObject resp with
                   | inl x => inl (classify (ThrownExn x))
                   | inr obj => inr obj
                   end
               end |}.

(** The lines of one chunk, inside the ['data'] listener: a line holding
    [[DONE]] signals completion and leaves the listener. *)
Fixpoint onLines (lines : list string) : list Call :=
  match lines with
  | [] => []
  | line :: rest =>
      if includes "[DONE]" line then [Done]
      else
        match JSON.parseText (trim (stripPrefix "data: " line)) with
        | None => onLines rest                 (* logged, not fatal *)
        | Some parsed =>
            match deltaContent parsed with
            | inl _ => onLines rest            (* logged, not fatal *)
            | inr c => if truthy c then Content c :: onLines rest else onLines rest
            end
        end
  end.

Definition onData (chunk : string) : list Call := onLines (chunkLines chunk).

(** The ['end'] listener: [onChunk({ done: true })]. *)
Definition onEnd : list Call := [Done].

(** [generateStreamingResponse(sessionId, messages, options, onChunk)]:
    a failure ends in one [{error}] call on the sink. *)
Definition generateStreamingResponse (messages : list Message) (o : Options)
    (http : nat -> HttpResult (list string)) (random : nat -> Q)
  : Trace (list Call) :=
  let t := retryLoop _shouldRetryRequest delayFor
                     (buildStreamingRequest messages o) http random maxRetries in
  {| requests := requests t;
     delays := delays t;
     result := match result t with
               | inl thrown => [Problem (classifyStreaming thrown)]
               | inr None => []
               | inr (Some chunks) => flat_map onData chunks ++ onEnd
               end |}.

End OpenAIClient.

(* ===================================================================== *)
(** ** [utils/aiClientManager.js] *)
(* ===================================================================== *)

Module AIClientManager.
Import JS Provider.

(** The two singleton clients. *)
Inductive Client : Type := Mistral | OpenAI.

#[global] Instance Client_eq_dec : EqDecision Client.
Proof. solve_decision. Defined.

(** The manager object.  [clients] holds the own properties of the registry
    object, a plain object. *)
Record Manager : Type := {
  clients : gmap string Client;
  defaultProvider : string
}.

(** What the registry yields under a name: a client of its own, a property
    it inherits from [Object.prototype] (a function, or the prototype
    itself under [__proto__]), or [undefined]. *)
Inductive Entry : Type :=
| Registered (c : Client)
| Inherited (name : string)
| NoEntry.

(** The properties of [Object.prototype]. *)
Definition inheritedNames : list string :=
  ["constructor"; "__proto__"; "hasOwnProperty"; "isPrototypeOf";
   "propertyIsEnumerable"; "toLocaleString"; "toString"; "valueOf";
   "__defineGetter__"; "__defineSetter__"; "__lookupGetter__";
   "__lookupSetter__"].

(** [this.clients[name]] *)
Definition lookupClient (m : Manager) (name : string) : Entry :=
  match clients m !! name with
  | Some c => Registered c
  | None =>
      if existsb (String.eqb name) inheritedNames then Inherited name else NoEntry
  end.

(** The instance the module exports. *)
Definition manager : Manager :=
  {| clients := <["mistral" := Mistral]> (<["openai" := OpenAI]> ∅);
     defaultProvider := "mistral" |}.

(** [config.ai.provider], or [JUndefined] when the test
    [!config || !config.ai || !config.ai.provider] succeeds. *)
Definition providerOf (config : JSValue) : JSValue :=
  if negb (truthy config) then JUndefined
  else
    let ai := getPropOpt config "ai" in
    if negb (truthy ai) then JUndefined
    else
      let p := getPropOpt ai "provider" in
      if negb (truthy p) then JUndefined else p.

(** [getClient(config)]: what is returned is the value of a lookup in the
    registry, and what a lookup yields is falsy only when it is
    [undefined]; [toLowerCase] exists on strings only. *)
Definition getClient (m : Manager) (config : JSValue) : exn + Entry :=
  match providerOf config with
  | JUndefined => inr (lookupClient m (defaultProvider m))
  | JStr name =>
      let provider := toLowerCase name in
      match lookupClient m provider with
      | NoEntry => inr (lookupClient m (defaultProvider m))
      | found => inr found
      end
  | _ => inl (TypeError "toLowerCase")
  end.

(** A rejected promise of the manager: an exception of the language, or the
    error a client raised. *)
Inductive Rejection : Type :=
| Raised (x : exn)
| ClientFailed (e : ClientError).

Definition noTrace {A} (r : A) : Trace A :=
  {| requests := []; delays := []; result := r |}.

(** [generateResponse(sessionId, messages, config = {})] *)
Definition generateResponse (m : Manager) (messages : list Message) (config : JSValue)
    (http : nat -> HttpResult JSValue) (random : nat -> Q) (latency : decimal)
  : Trace (Rejection + JSValue) :=
  let config := match config with JUndefined => JObj [] | c => c end in
  match getClient m config with
  | inl x => noTrace (inl (Raised x))
  | inr client =>
      match getProp config "ai", getProp config "system_prompt" with
      | inl x, _ | _, inl x => noTrace (inl (Raised x))
      | inr ai, inr sp =>
          let options :=
            {| inventoryAccess := JBool true;
               model := getPropOpt ai "model";
               temperature := getPropOpt ai "temperature";
               max_tokens := getPropOpt ai "max_tokens";
               system_prompt := sp;
               userLanguage := JUndefined;
               stream := JUndefined |} in
          let wrap (t : Trace (ClientError + JSValue)) :=
            {| requests := requests t; delays := delays t;
               result := match result t with
                         | inl e => inl (ClientFailed e)
                         | inr v => inr v
                         end |} in
          match client with
          | Registered Mistral =>
              wrap (MistralClient.generateResponse messages options http random latency)
          | Registered OpenAI =>
              wrap (OpenAIClient.generateResponse messages options http random)
          | Inherited _ | NoEntry =>
              (* [client.generateResponse] is not a function *)
              noTrace (inl (Raised (TypeError "generateResponse")))
          end
      end
  end.

End AIClientManager.

(* ===================================================================== *)
(** ** The inventory store and the chat inventory routes *)
(* ===================================================================== *)

Module Inventory.
Import JS Provider.

(** A [ProductInventory] document. *)
Record Product : Type := {
  pBotId : string;
  productName : string;
  sku : string;
  availableStock : number;
  unit : string
}.

Inductive Status : Type := pending | confirmed | rejected.

(** An [OrderRequest] document, with the values the schema stores.  The
    paths that are not required, [userId], [sessionId] and [notes], hold a
    string, [null] or [undefined]. *)
Record Order : Type := {
  oId : string;
  oBotId : string;
  oProductName : string;
  requestedQty : number;
  userQuery : string;
  oUserId : JSValue;
  oSessionId : JSValue;
  oStatus : Status;
  notes : JSValue
}.

(** The part of a [Config] document the routes read. *)
Record BotConfig : Type := { inventoryEnabled : JSValue }.

Record Session : Type := { configId : string; sUserId : string }.

(** The collections.  Document ids are opaque strings; a fresh one is handed
    to every operation that may create a document. *)
Record DB : Type := {
  configs : gmap string BotConfig;
  sessions : gmap string Session;
  products : list Product;
  orders : list Order
}.

(** What goes wrong in the persistence layer: a value that cannot be cast
    to its path, or a document the schema rejects. *)
Inductive StoreError : Type := CastError | ValidationError.

(** What may reach [next(err)] from a handler's [catch]. *)
Inductive Caught : Type :=
| CaughtExn (x : exn)
| CaughtStore (e : StoreError)
| CaughtReject (r : AIClientManager.Rejection).

Definition setOrders (db : DB) (os : list Order) : DB :=
  {| configs := configs db; sessions := sessions db;
     products := products db; orders := os |}.

Definition setProducts (db : DB) (ps : list Product) : DB :=
  {| configs := configs db; sessions := sessions db;
     products := ps; orders := orders db |}.

Definition setSessions (db : DB) (ss : gmap string Session) : DB :=
  {| configs := configs db; sessions := ss;
     products := products db; orders := orders db |}.

(** An id given in a request: only a string casts to an ObjectId. *)
Definition castId (v : JSValue) : StoreError + string :=
  match v with
  | JStr s => inr s
  | _ => inl CastError
  end.

(** [Config.findOne({ _id: botId })] *)
Definition findConfig (db : DB) (botId : JSValue) : StoreError + option BotConfig :=
  match castId botId with
  | inl e => inl e
  | inr id => inr (configs db !! id)
  end.

(** [ProductInventory.find({ botId })] *)
Definition findProducts (db : DB) (botId : string) : list Product :=
  List.filter (fun p => String.eqb (pBotId p) botId) (products db).

(** A failed cast or validator of a document path surfaces, when the
    document is saved, as a validation error. *)
Definition onSave {A} (r : StoreError + A) : StoreError + A :=
  match r with
  | inl _ => inl ValidationError
  | inr a => inr a
  end.

(** The Number path of the order schema: [required], [min: 1].  Strings and
    booleans are cast with [Number], the empty string to [null]; arrays,
    objects and what converts to [NaN] do not cast.  An infinity is a
    number as any other. *)
Definition castQty (v : JSValue) : StoreError + number :=
  match v with
  | JArr _ | JObj _ => inl CastError
  | JUndefined | JNull | JStr EmptyString => inl ValidationError
  | _ => match toNumber v with
         | NaN => inl CastError
         | n => if numLeb (Fin (ofZ 1)) n then inr n else inl ValidationError
         end
  end.

(** The cast of a String path, for a value that is neither [null] nor
    [undefined]: of an object whose [_id] is a non-empty string that
    string is taken; arrays and the other objects do not cast; what is left
    is converted with [toString]. *)
Definition castString (v : JSValue) : StoreError + string :=
  match v with
  | JArr _ => inl CastError
  | JObj fields =>
      match lookupLast "_id" fields with
      | JStr (String c s) => inr (String c s)
      | _ => inl CastError
      end
  | _ => inr (toString v)
  end.

(** A required String path with [trim]. *)
Definition castRequiredString (v : JSValue) : StoreError + string :=
  match v with
  | JUndefined | JNull => inl ValidationError
  | _ => match castString v with
         | inl e => inl e
         | inr s => match trim s with
                    | EmptyString => inl ValidationError
                    | t => inr t
                    end
         end
  end.

(** A required String path without [trim]: the text is stored as it is,
    and only the empty one is refused. *)
Definition castRequiredText (v : JSValue) : StoreError + string :=
  match v with
  | JUndefined | JNull => inl ValidationError
  | _ => match castString v with
         | inl e => inl e
         | inr EmptyString => inl ValidationError
         | inr s => inr s
         end
  end.

(** A String path with [trim] that is not required: [null] and
    [undefined] are stored as they are. *)
Definition castOptionalString (v : JSValue) : StoreError + JSValue :=
  match v with
  | JUndefined | JNull => inr v
  | _ => match castString v with
         | inl e => inl e
         | inr s => inr (JStr (trim s))
         end
  end.

(** The text of an ObjectId: twenty-four hexadecimal digits. *)
Definition isObjectId (s : string) : bool :=
  Nat.eqb (String.length s) 24 &&
  forallb (fun c => match hexVal c with Some _ => true | None => false end)
          (list_ascii_of_string s).

(** An ObjectId path that is not required, set from a value of the request
    that no query has looked up.  [null] and [undefined] are stored as they
    are; of an object with an [_id] the [_id] is taken; what is then
    converted to text has to be the text of an ObjectId. *)
Definition castOptionalId (v : JSValue) : StoreError + JSValue :=
  match v with
  | JUndefined | JNull => inr v
  | _ =>
      let source := match v with
                    | JObj fields =>
                        if truthy (lookupLast "_id" fields)
                        then lookupLast "_id" fields else v
                    | _ => v
                    end in
      if isObjectId (toString source) then inr (JStr (toLowerCase (toString source)))
      else inl CastError
  end.

(** [OrderRequest.create({...})]: validates, then appends the document.
    [sessionId] is the outcome of the cast of the session path, which the
    order route sets from the request and the intent route from a session
    document. *)
Definition createOrder (db : DB) (fresh : string)
    (botId productName qty query userId : JSValue) (sessionId : StoreError + JSValue)
    (st : Status) : StoreError + (Order * DB) :=
  match onSave (castId botId), onSave (castRequiredString productName),
        onSave (castQty qty), onSave (castRequiredText query),
        onSave (castOptionalString userId), onSave sessionId with
  | inr b, inr n, inr q, inr u, inr user, inr session =>
      let o := {| oId := fresh; oBotId := b; oProductName := n; requestedQty := q;
                  userQuery := u; oUserId := user; oSessionId := session;
                  oStatus := st; notes := JUndefined |} in
      inr (o, setOrders db (orders db ++ [o]))
  | inl e, _, _, _, _, _ | _, inl e, _, _, _, _ | _, _, inl e, _, _, _
  | _, _, _, inl e, _, _ | _, _, _, _, inl e, _ | _, _, _, _, _, inl e => inl e
  end.

(** [order.save()]: the stored document with this id is replaced. *)
Definition saveOrder (db : DB) (o : Order) : DB :=
  setOrders db (map (fun x => if String.eqb (oId x) (oId o) then o else x) (orders db)).

Definition withStatus (o : Order) (st : Status) : Order :=
  {| oId := oId o; oBotId := oBotId o; oProductName := oProductName o;
     requestedQty := requestedQty o; userQuery := userQuery o;
     oUserId := oUserId o; oSessionId := oSessionId o;
     oStatus := st; notes := notes o |}.

Definition withNotes (o : Order) (n : JSValue) : Order :=
  {| oId := oId o; oBotId := oBotId o; oProductName := oProductName o;
     requestedQty := requestedQty o; userQuery := userQuery o;
     oUserId := oUserId o; oSessionId := oSessionId o;
     oStatus := oStatus o; notes := n |}.

(** The replies of the intent route. *)
Inductive Template : Type :=
| NoProducts
| NotFound (name : JSValue)
| Available (p : Product)
| OutOfStock (p : Product)
| OrderConfirmed (qty : JSValue) (p : Product)
| OnlyAvailable (p : Product)
| Help.

Definition render (hindi : bool) (t : Template) : string :=
  match t with
  | NoProducts =>
      if hindi
      then "मुझे खेद है, इस समय इन्वेंटरी में कोई प्रोडक्ट उपलब्ध नहीं है।"
      else "I'm sorry, there are no products available in the inventory at this time."
  | NotFound name =>
      if hindi
      then "मुझे खेद है, " +:+ dq +:+ toString name +:+ dq +:+ " नाम का कोई प्रोडक्ट नहीं मिला। कृपया दूसरे प्रोडक्ट के बारे में पूछें।"
      else "I'm sorry, no product named " +:+ dq +:+ toString name +:+ dq +:+ " was found. Please ask about another product."
  | Available p =>
      if hindi
      then "हां, " +:+ productName p +:+ " उपलब्ध है। वर्तमान में " +:+ numToString (availableStock p) +:+ " " +:+ unit p +:+ " स्टॉक में हैं। कितने चाहिए?"
      else "Yes, " +:+ productName p +:+ " is available. There are currently " +:+ numToString (availableStock p) +:+ " " +:+ unit p +:+ " in stock. How many would you like?"
  | OutOfStock p =>
      if hindi
      then "मुझे खेद है, " +:+ productName p +:+ " वर्तमान में स्टॉक में नहीं है।"
      else "I'm sorry, " +:+ productName p +:+ " is currently out of stock."
  | OrderConfirmed qty p =>
      if hindi
      then "आपका ऑर्डर रिकॉर्ड कर लिया गया है। " +:+ toString qty +:+ " " +:+ unit p +:+ " " +:+ productName p +:+ " के लिए आपका ऑर्डर कन्फर्म हो गया है। हमारी टीम जल्द ही आपसे संपर्क करेगी।"
      else "Your order has been recorded. Your order for " +:+ toString qty +:+ " " +:+ unit p +:+ " of " +:+ productName p +:+ " has been confirmed. Our team will contact you soon."
  | OnlyAvailable p =>
      if hindi
      then "मुझे खेद है, " +:+ productName p +:+ " के केवल " +:+ numToString (availableStock p) +:+ " " +:+ unit p +:+ " ही उपलब्ध हैं। क्या आप कम मात्रा में ऑर्डर करना चाहेंगे?"
      else "I'm sorry, only " +:+ numToString (availableStock p) +:+ " " +:+ unit p +:+ " of " +:+ productName p +:+ " are available. Would you like to order a smaller quantity?"
  | Help =>
      if hindi
      then "मैं आपकी सहायता करने के लिए हूं। आप किसी प्रोडक्ट की उपलब्धता के बारे में पूछ सकते हैं या ऑर्डर प्लेस कर सकते हैं।"
      else "I am here to help you. You can ask about product availability or place an order."
  end.

Definition intentDetectionPrompt : string :=
  nl +:+
  "    You are an inventory management assistant. Analyze the user message and extract the following information:" +:+ nl +:+
  "    1. Intent: Is the user asking about product availability (inventory_check) or trying to place an order (order_intent)?" +:+ nl +:+
  "    2. Product Name: What product is the user asking about?" +:+ nl +:+
  "    3. Quantity: If the user is trying to place an order, what quantity are they requesting?" +:+ nl +:+
  "    " +:+ nl +:+
  "    The user may ask in Hindi or English. You must be able to understand both languages and extract the relevant information regardless of the language used." +:+ nl +:+
  "    " +:+ nl +:+
  "    Examples in Hindi:" +:+ nl +:+
  "    - " +:+ dq +:+ "क्या आपके पास लैपटॉप है?" +:+ dq +:+ " (Intent: inventory_check, Product: laptop)" +:+ nl +:+
  "    - " +:+ dq +:+ "मुझे 2 मोबाइल फोन चाहिए" +:+ dq +:+ " (Intent: order_intent, Product: mobile phone, Quantity: 2)" +:+ nl +:+
  "    " +:+ nl +:+
  "    Examples in English:" +:+ nl +:+
  "    - " +:+ dq +:+ "Do you have laptops in stock?" +:+ dq +:+ " (Intent: inventory_check, Product: laptop)" +:+ nl +:+
  "    - " +:+ dq +:+ "I want to order 3 printers" +:+ dq +:+ " (Intent: order_intent, Product: printer, Quantity: 3)" +:+ nl +:+
  "    " +:+ nl +:+
  "    Respond in JSON format only with the following structure:" +:+ nl +:+
  "    {" +:+ nl +:+
  "      " +:+ dq +:+ "intent" +:+ dq +:+ ": " +:+ dq +:+ "inventory_check" +:+ dq +:+ " or " +:+ dq +:+ "order_intent" +:+ dq +:+ " or " +:+ dq +:+ "other" +:+ dq +:+ "," +:+ nl +:+
  "      " +:+ dq +:+ "productName" +:+ dq +:+ ": " +:+ dq +:+ "extracted product name" +:+ dq +:+ "," +:+ nl +:+
  "      " +:+ dq +:+ "quantity" +:+ dq +:+ ": number or null if not specified" +:+ nl +:+
  "    }" +:+ nl +:+
  "    ".

(** Refusals a handler passes to [next] as an [ErrorResponse]. *)
Inductive Refusal : Type :=
| MissingFields        (* 400 *)
| BotNotFound          (* 404 *)
| InventoryDisabled    (* 400 *)
| SessionNotFound      (* 404 *)
| InvalidStatus        (* 400 *)
| OrderNotFound.       (* 404 *)

(** How a handler ends: [next(new ErrorResponse(..))], [next(err)], or a
    JSON answer. *)
Inductive Reply (A : Type) : Type :=
| Refused (r : Refusal)
| Errored (c : Caught)
| Answered (a : A).
Arguments Refused {A} _.
Arguments Errored {A} _.
Arguments Answered {A} _.

Definition defaultIntent : JSValue :=
  JObj [("intent", JStr "other"); ("productName", JNull); ("quantity", JNull)].

(** [try { intentData = JSON.parse(intentAnalysis.content) }
     catch (err) { intentData = { intent: 'other', ... } }] *)
Definition resolveIntent (intentAnalysis : JSValue) : JSValue :=
  match getProp intentAnalysis "content" with
  | inl _ => defaultIntent
  | inr c =>
      match JSON.parse c with
      | inl _ => defaultIntent
      | inr v => v
      end
  end.

(** What the intent route answers. *)
Record IntentAnswer : Type := {
  intent : JSValue;
  isHindi : bool;
  response : Template
}.

Definition isStatusName (v : JSValue) : option Status :=
  match v with
  | JStr "pending" => Some pending
  | JStr "confirmed" => Some confirmed
  | JStr "rejected" => Some rejected
  | _ => None
  end.

Fixpoint updateFirst {A} (test : A -> bool) (f : A -> A) (l : list A) : list A :=
  match l with
  | [] => []
  | x :: r => if test x then f x :: r else x :: updateFirst test f r
  end.

Definition withStock (p : Product) (d : number) : Product :=
  {| pBotId := pBotId p; productName := productName p; sku := sku p;
     availableStock := d; unit := unit p |}.

Section Routes.

(** [new FuzzySearch(products, ['productName'],
      { caseSensitive: false, sort: true }).search(query)],
    from the fuzzy-search package. *)
Variable fuzzySearch : list Product -> JSValue -> list Product.

(** [router.post('/order', ...)] of the chat inventory routes. *)
Definition postOrder (db : DB) (fresh : string) (body : list (string * JSValue))
  : Reply Order * DB :=
  let botId := lookupLast "botId" body in
  let productName := lookupLast "productName" body in
  let requestedQty := lookupLast "requestedQty" body in
  let userQuery := lookupLast "userQuery" body in
  let userId := lookupLast "userId" body in
  let sessionId := lookupLast "sessionId" body in
  if negb (truthy botId) || negb (truthy productName) ||
     negb (truthy requestedQty) || negb (truthy userQuery)
  then (Refused MissingFields, db)
  else
    match castId botId, findConfig db botId with
    | inl e, _ | _, inl e => (Errored (CaughtStore e), db)
    | inr _, inr None => (Refused BotNotFound, db)
    | inr bot, inr (Some botConfig) =>
        if negb (truthy (inventoryEnabled botConfig))
        then (Refused InventoryDisabled, db)
        else
          let searchResults := fuzzySearch (findProducts db bot) productName in
          let matchedProduct := head searchResults in
          let name := match matchedProduct with
                      | Some p => JStr (Inventory.productName p)
                      | None => productName
                      end in
          match createOrder db fresh botId name requestedQty userQuery
                            userId (castOptionalId sessionId) pending with
          | inl e => (Errored (CaughtStore e), db)
          | inr (orderRequest, db1) =>
              match matchedProduct with
              | Some p =>
                  if geValue (availableStock p) requestedQty then
                    let orderRequest' := withStatus orderRequest confirmed in
                    (Answered orderRequest', saveOrder db1 orderRequest')
                  else (Answered orderRequest, db1)
              | None => (Answered orderRequest, db1)
              end
          end
    end.

(** The [if / else if / else] chain of the intent route, from the
    resolved [intentData] on. *)
Definition processIntent (db : DB) (fresh : string) (botId message userId : JSValue)
    (sessionId : string) (intentData : JSValue) : Reply Template * DB :=
  match getProp intentData "intent", castId botId with
  | inl x, _ => (Errored (CaughtExn x), db)
  | inr kind, bot =>
      let name := getPropOpt intentData "productName" in
      let quantity := getPropOpt intentData "quantity" in
      if strictEqStr kind "inventory_check" && truthy name then
        match bot with
        | inl e => (Errored (CaughtStore e), db)
        | inr b =>
            match findProducts db b with
            | [] => (Answered NoProducts, db)
            | products =>
                match fuzzySearch products name with
                | [] => (Answered (NotFound name), db)
                | product :: _ =>
                    if numLtb zero (availableStock product)
                    then (Answered (Available product), db)
                    else (Answered (OutOfStock product), db)
                end
            end
        end
      else if strictEqStr kind "order_intent" && truthy name && truthy quantity then
        match bot with
        | inl e => (Errored (CaughtStore e), db)
        | inr b =>
            match findProducts db b with
            | [] => (Answered NoProducts, db)
            | products =>
                match fuzzySearch products name with
                | [] => (Answered (NotFound name), db)
                | product :: _ =>
                    if geValue (availableStock product) quantity then
                      match createOrder db fresh botId
                              (JStr (Inventory.productName product)) quantity
                              message userId (inr (JStr sessionId)) confirmed with
                      | inl e => (Errored (CaughtStore e), db)
                      | inr (_, db1) =>
                          (Answered (OrderConfirmed quantity product), db1)
                      end
                    else if numLtb zero (availableStock product)
                    then (Answered (OnlyAvailable product), db)
                    else (Answered (OutOfStock product), db)
                end
            end
        end
      else (Answered Help, db)
  end.

(** [router.post('/intent', ...)].  [freshSession] and [freshOrder] are the
    ids of the documents the handler may create; [http], [random] and
    [latency] are what the AI call meets. *)
Definition postIntent (db : DB) (freshSession freshOrder : string)
    (body : list (string * JSValue))
    (http : nat -> HttpResult JSValue) (random : nat -> Q) (latency : decimal)
  : Reply IntentAnswer * DB :=
  let botId := lookupLast "botId" body in
  let message := lookupLast "message" body in
  let userId := lookupLast "userId" body in
  let sessionId := lookupLast "sessionId" body in
  if negb (truthy botId) || negb (truthy message) || negb (truthy userId)
  then (Refused MissingFields, db)
  else
    match findConfig db botId with
    | inl e => (Errored (CaughtStore e), db)
    | inr None => (Refused BotNotFound, db)
    | inr (Some botConfig) =>
        if negb (truthy (inventoryEnabled botConfig))
        then (Refused InventoryDisabled, db)
        else
          let session : Reply string * DB :=
            if truthy sessionId then
              match castId sessionId with
              | inl e => (Errored (CaughtStore e), db)
              | inr sid =>
                  match sessions db !! sid with
                  | Some _ => (Answered sid, db)
                  | None => (Refused SessionNotFound, db)
                  end
              end
            else
              (* Session.create({ configId: botId, userId }) *)
              match onSave (castId botId), onSave (castRequiredText userId) with
              | inl e, _ | _, inl e => (Errored (CaughtStore e), db)
              | inr b, inr u =>
                  (Answered freshSession,
                   setSessions db (<[freshSession := {| configId := b; sUserId := u |}]>
                                     (sessions db)))
              end in
          match session with
          | (Refused r, db1) => (Refused r, db1)
          | (Errored c, db1) => (Errored c, db1)
          | (Answered sid, db1) =>
              let intentAnalysisMessages :=
                [Msg (JStr "system") (JStr intentDetectionPrompt);
                 Msg (JStr "user") message] in
              let call :=
                AIClientManager.generateResponse AIClientManager.manager
                  intentAnalysisMessages
                  (JObj [("system_prompt", JStr intentDetectionPrompt)])
                  http random latency in
              match result call with
              | inl rej => (Errored (CaughtReject rej), db1)
              | inr intentAnalysis =>
                  let intentData := resolveIntent intentAnalysis in
                  let hindi := containsDevanagari (toString message) in
                  match processIntent db1 freshOrder botId message userId sid
                                      intentData with
                  | (Refused r, db2) => (Refused r, db2)
                  | (Errored c, db2) => (Errored c, db2)
                  | (Answered t, db2) =>
                      (Answered {| intent := intentData; isHindi := hindi;
                                   response := t |}, db2)
                  end
              end
          end
    end.

End Routes.

(** The Number path of the product schema when a product is saved: what
    is not a number does not cast, and [min: 0]. *)
Definition validStock (n : number) : StoreError + number :=
  match n with
  | NaN => inl CastError
  | _ => if numLeb zero n then inr n else inl ValidationError
  end.

(** [router.patch('/order/:id', ...)] of the admin inventory routes: the
    status update of an order, which lowers the stock of the first product
    of the same bot and name when the new status is [confirmed].  The
    order is saved first, with the notes of the request if they are truthy;
    then the product, if its stock suffices, with the difference of the two
    doubles as its stock.  Either [save] validates and may fail. *)
Definition patchOrder (db : DB) (id : string) (body : list (string * JSValue))
  : Reply Order * DB :=
  let status := lookupLast "status" body in
  let newNotes := lookupLast "notes" body in
  match isStatusName status with
  | None => (Refused InvalidStatus, db)
  | Some st =>
      match find (fun o => String.eqb (oId o) id) (orders db) with
      | None => (Refused OrderNotFound, db)
      | Some found =>
          let o1 := withStatus found st in
          match (if truthy newNotes then onSave (castOptionalString newNotes)
                 else inr (notes o1)) with
          | inl e => (Errored (CaughtStore e), db)
          | inr n =>
              let orderRequest := withNotes o1 n in
              let db1 := saveOrder db orderRequest in
              match st with
              | confirmed =>
                  let same p := String.eqb (pBotId p) (oBotId orderRequest) &&
                                String.eqb (productName p) (oProductName orderRequest) in
                  match find same (products db1) with
                  | Some product =>
                      if numLeb (requestedQty orderRequest) (availableStock product)
                      then
                        match onSave (validStock
                                        (numSub (availableStock product)
                                                (requestedQty orderRequest))) with
                        | inl e => (Errored (CaughtStore e), db1)
                        | inr stock =>
                            (Answered orderRequest,
                             setProducts db1
                               (updateFirst same (fun p => withStock p stock)
                                            (products db1)))
                        end
                      else (Answered orderRequest, db1)
                  | None => (Answered orderRequest, db1)
                  end
              | _ => (Answered orderRequest, db1)
              end
          end
      end
  end.

End Inventory.

(* ===================================================================== *)
(** ** [server.js]: how the inventory route modules get their models *)
(* ===================================================================== *)

Module Server.

(** The two models registered on the inventory connection. *)
Inductive Model : Type := ProductInventoryModel | OrderRequestModel.

(** The properties of [global] that hold them; [None] is [undefined]. *)
Record Globals : Type := {
  InventoryProduct : option Model;
  InventoryOrder : option Model
}.

(** The constants an inventory route module declares at its top, evaluated
    once, when the module is first required:
    [const ProductInventory = global.InventoryProduct;
     const OrderRequest = global.InventoryOrder;] *)
Record Bindings : Type := {
  ProductInventory : option Model;
  OrderRequest : option Model
}.

Definition loadRoutes (g : Globals) : Bindings :=
  {| ProductInventory := InventoryProduct g; OrderRequest := InventoryOrder g |}.

(** The callback of [mongoose.connect(..).then], which registers the two
    models and stores them on [global]. *)
Definition onConnected (g : Globals) : Globals :=
  {| InventoryProduct := Some ProductInventoryModel;
     InventoryOrder := Some OrderRequestModel |}.

(** A fresh process. *)
Definition initial : Globals :=
  {| InventoryProduct := None; InventoryOrder := None |}.

(** [server.js] up to the moment the connection callback has run.  The
    [require] calls of the route modules are synchronous and come first;
    the callback runs once the connection is there.  The result is the
    global object and the constants of the inventory route modules. *)
Definition boot : Globals * Bindings :=
  let g0 := initial in
  let routes := loadRoutes g0 in
  let g1 := onConnected g0 in
  (g1, routes).

(** The constants of a route module loaded after the models were
    registered.  The handlers [postOrder], [postIntent] and [patchOrder]
    above are the handlers of such a module. *)
Definition bound : Bindings := loadRoutes (onConnected initial).

End Server.

(* ===================================================================== *)
(** ** The catalog: [/check] of the chat inventory routes, [/add] and
       [/update-stock] of the admin inventory routes *)
(* ===================================================================== *)

Module Catalog.
Import JS Provider Inventory.

(** The [product] object of a [/check] answer. *)
Record Listing : Type := {
  lProductName : string;
  lSku : string;
  lAvailableStock : number;
  lUnit : string
}.

Inductive CheckAnswer : Type :=
| NoProductsAvailable        (* found: false, 'No products available in inventory' *)
| NoMatchingProducts         (* found: false, 'No matching products found' *)
| Found (l : Listing).       (* found: true *)

Definition listing (p : Product) : Listing :=
  {| lProductName := productName p; lSku := sku p;
     lAvailableStock := availableStock p; lUnit := unit p |}.

(** Refusals of the admin handlers, each an [ErrorResponse]. *)
Inductive Denial : Type :=
| Missing          (* 400, 'Please provide all required fields' *)
| NoBot            (* 404 *)
| SkuExists        (* 400 *)
| NoProduct.       (* 404 *)

Inductive Outcome (A : Type) : Type :=
| Denied (d : Denial)
| Threw (c : Caught)
| Sent (a : A).
Arguments Denied {A} _.
Arguments Threw {A} _.
Arguments Sent {A} _.

Definition setConfigs (db : DB) (cs : gmap string BotConfig) : DB :=
  {| configs := cs; sessions := sessions db;
     products := products db; orders := orders db |}.

(** [v === undefined] *)
Definition isUndefined (v : JSValue) : bool :=
  match v with
  | JUndefined => true
  | _ => false
  end.

(** The Number path of the product schema: [required], [min: 0], cast as
    the quantity of an order is. *)
Definition castStock (v : JSValue) : StoreError + number :=
  match v with
  | JArr _ | JObj _ => inl CastError
  | JUndefined | JNull | JStr EmptyString => inl ValidationError
  | _ => validStock (toNumber v)
  end.

(** A String path with [trim], the value given. *)
Definition castTrimmed (v : JSValue) : StoreError + string :=
  match castString v with
  | inl e => inl e
  | inr s => inr (trim s)
  end.

(** The filter [{ botId, sku }]. *)
Definition sameSku (bot s : string) (p : Product) : bool :=
  String.eqb (pBotId p) bot && String.eqb (sku p) s.

(** [ProductInventory.create({...})]: validates, then appends the
    document. *)
Definition createProduct (db : DB) (botId name skuValue stock unitValue : JSValue)
  : StoreError + (Product * DB) :=
  match onSave (castId botId), onSave (castRequiredString name),
        onSave (castRequiredString skuValue), onSave (castStock stock),
        onSave (castTrimmed unitValue) with
  | inr b, inr n, inr s, inr d, inr u =>
      let p := {| pBotId := b; productName := n; sku := s;
                  availableStock := d; unit := u |} in
      inr (p, setProducts db (products db ++ [p]))
  | inl e, _, _, _, _ | _, inl e, _, _, _ | _, _, inl e, _, _
  | _, _, _, inl e, _ | _, _, _, _, inl e => inl e
  end.

Section Handlers.

(** The constants of the route module. *)
Variable bindings : Server.Bindings.

Variable fuzzySearch : list Product -> JSValue -> list Product.

(** [router.get('/check', ...)]; [query] is [req.query]. *)
Definition getCheck (db : DB) (query : list (string * JSValue)) : Reply CheckAnswer :=
  let botId := lookupLast "botId" query in
  let q := lookupLast "query" query in
  if negb (truthy botId) || negb (truthy q) then Refused MissingFields
  else
    match findConfig db botId with
    | inl e => Errored (CaughtStore e)
    | inr None => Refused BotNotFound
    | inr (Some botConfig) =>
        if negb (truthy (inventoryEnabled botConfig)) then Refused InventoryDisabled
        else
          match Server.ProductInventory bindings with
          | None => Errored (CaughtExn (TypeError "find"))
          | Some _ =>
              match castId botId with
              | inl e => Errored (CaughtStore e)
              | inr bot =>
                  match findProducts db bot with
                  | [] => Answered NoProductsAvailable
                  | products =>
                      match fuzzySearch products q with
                      | [] => Answered NoMatchingProducts
                      | bestMatch :: _ => Answered (Found (listing bestMatch))
                      end
                  end
              end
          end
    end.

(** [router.post('/add', ...)] *)
Definition postAdd (db : DB) (body : list (string * JSValue)) : Outcome Product * DB :=
  let botId := lookupLast "botId" body in
  let productName := lookupLast "productName" body in
  let skuValue := lookupLast "sku" body in
  let availableStock := lookupLast "availableStock" body in
  let unitValue := lookupLast "unit" body in
  if negb (truthy botId) || negb (truthy productName) || negb (truthy skuValue) ||
     isUndefined availableStock
  then (Denied Missing, db)
  else
    match castId botId, findConfig db botId with
    | inl e, _ | _, inl e => (Threw (CaughtStore e), db)
    | inr _, inr None => (Denied NoBot, db)
    | inr bot, inr (Some botConfig) =>
        (* Config.findByIdAndUpdate(botId, { inventoryEnabled: true }) *)
        let db1 :=
          if negb (truthy (inventoryEnabled botConfig))
          then setConfigs db (<[bot := {| inventoryEnabled := JBool true |}]> (configs db))
          else db in
        match Server.ProductInventory bindings with
        | None => (Threw (CaughtExn (TypeError "findOne")), db1)
        | Some _ =>
            match castTrimmed skuValue with
            | inl e => (Threw (CaughtStore e), db1)
            | inr s =>
                match find (sameSku bot s) (products db1) with
                | Some _ => (Denied SkuExists, db1)
                | None =>
                    match createProduct db1 botId productName skuValue availableStock
                                        (orElse unitValue (JStr "pcs")) with
                    | inl e => (Threw (CaughtStore e), db1)
                    | inr (inventoryItem, db2) => (Sent inventoryItem, db2)
                    end
                end
            end
        end
    end.

(** [router.patch('/update-stock', ...)] *)
Definition patchUpdateStock (db : DB) (body : list (string * JSValue))
  : Outcome Product * DB :=
  let botId := lookupLast "botId" body in
  let skuValue := lookupLast "sku" body in
  let availableStock := lookupLast "availableStock" body in
  if negb (truthy botId) || negb (truthy skuValue) || isUndefined availableStock
  then (Denied Missing, db)
  else
    match Server.ProductInventory bindings with
    | None => (Threw (CaughtExn (TypeError "findOne")), db)
    | Some _ =>
        match castId botId, castTrimmed skuValue with
        | inl e, _ | _, inl e => (Threw (CaughtStore e), db)
        | inr bot, inr s =>
            match find (sameSku bot s) (products db) with
            | None => (Denied NoProduct, db)
            | Some product =>
                (* product.availableStock = availableStock; product.save() *)
                match onSave (castStock availableStock) with
                | inl e => (Threw (CaughtStore e), db)
                | inr d =>
                    (Sent (withStock product d),
                     setProducts db (updateFirst (sameSku bot s)
                                                 (fun p => withStock p d) (products db)))
                end
            end
        end
    end.

End Handlers.

End Catalog.

(* ===================================================================== *)
(** ** Streaming through the manager *)
(* ===================================================================== *)

Module ManagerStreaming.
Import JS Provider AIClientManager.

(** What a caller passes in one of the two last positions of a client's
    [generateStreamingResponse]: an options object, its sink function, or
    nothing. *)
Inductive Argument : Type :=
| Opts (o : Options)
| Callback
| Absent.

(** The options a client reads from the value bound to its [options]
    parameter: the parameter defaults to [{}], and a function has none of
    the properties read. *)
Definition optionsOf (a : Argument) : Options :=
  match a with
  | Opts o => o
  | Callback | Absent => noOptions
  end.

(** What a stream did: the calls that reached the caller's function, and
    the exception that left a listener, if one did. *)
Record Heard : Type := { delivered : list Call; escaped : option exn }.

Definition silent : Heard := {| delivered := []; escaped := None |}.

Definition andThen (cs : list Call) (h : Heard) : Heard :=
  {| delivered := cs ++ delivered h; escaped := escaped h |}.

(** Calling the value bound to [onChunk]. *)
Definition invoke (onChunk : Argument) (c : Call) : exn + list Call :=
  match onChunk with
  | Callback => inr [c]
  | Opts _ | Absent => inl (TypeError "onChunk")
  end.

(** The ['data'] listener of the Mistral client over the lines of a chunk.
    The call for a content delta sits inside the [try] and a failure of it
    is logged; the call for [[DONE]] sits outside and a failure of it
    leaves the listener. *)
Fixpoint mistralLines (onChunk : Argument) (lines : list string) : Heard :=
  match lines with
  | [] => silent
  | line :: rest =>
      if includes "data:" line then
        let payload := trim (replaceFirst "data:" EmptyString line) in
        if String.eqb payload "[DONE]" then
          match invoke onChunk Done with
          | inl x => {| delivered := []; escaped := Some x |}
          | inr cs => andThen cs (mistralLines onChunk rest)
          end
        else match JSON.parseText payload with
             | None => mistralLines onChunk rest
             | Some parsed =>
                 match deltaContent parsed with
                 | inl _ => mistralLines onChunk rest
                 | inr c =>
                     if truthy c then
                       match invoke onChunk (Content c) with
                       | inl _ => mistralLines onChunk rest
                       | inr cs => andThen cs (mistralLines onChunk rest)
                       end
                     else mistralLines onChunk rest
                 end
             end
      else mistralLines onChunk rest
  end.

(** The chunks of a stream, in order; an exception that leaves a listener
    is uncaught, and nothing more of the stream is handled.  The ['end']
    listener only logs. *)
Fixpoint mistralStream (onChunk : Argument) (chunks : list string) : Heard :=
  match chunks with
  | [] => silent
  | chunk :: rest =>
      let h := mistralLines onChunk (chunkLines chunk) in
      match escaped h with
      | Some _ => h
      | None => andThen (delivered h) (mistralStream onChunk rest)
      end
  end.

(** [generateStreamingResponse(sessionId, messages, onChunk, options = {})]
    of the Mistral client, on the values given in its two last positions. *)
Definition mistralStreaming (messages : list Message) (onChunk options : Argument)
    (http : nat -> HttpResult (list string)) (random : nat -> Q)
  : Trace (ClientError + Heard) :=
  let t := retryLoop MistralClient._shouldRetryRequest MistralClient.delayFor
             (MistralClient.buildStreamingRequest messages (optionsOf options))
             http random maxRetries in
  {| requests := requests t;
     delays := delays t;
     result := match result t with
               | inl thrown => inl (MistralClient.classify thrown)
               | inr None => inl (MistralClient.classify (ThrownExn (TypeError "data")))
               | inr (Some chunks) => inr (mistralStream onChunk chunks)
               end |}.

(** [generateStreamingResponse(sessionId, messages, config = {}, onChunk)]
    of the manager, called with a function as [onChunk].  It ends in
    [client.generateStreamingResponse(sessionId, messages, options, onChunk)]
    for either client. *)
Definition generateStreamingResponse (m : Manager) (messages : list Message)
    (config : JSValue) (http : nat -> HttpResult (list string)) (random : nat -> Q)
  : Trace (Rejection + Heard) :=
  let config := match config with JUndefined => JObj [] | c => c end in
  match getClient m config with
  | inl x => noTrace (inl (Raised x))
  | inr client =>
      match getProp config "ai", getProp config "system_prompt" with
      | inl x, _ | _, inl x => noTrace (inl (Raised x))
      | inr ai, inr sp =>
          let options :=
            {| model := getPropOpt ai "model";
               temperature := getPropOpt ai "temperature";
               max_tokens := getPropOpt ai "max_tokens";
               system_prompt := sp;
               stream := JBool true;
               userLanguage := JUndefined;
               inventoryAccess := JUndefined |} in
          match client with
          | Registered Mistral =>
              let t := mistralStreaming messages (Opts options) Callback http random in
              {| requests := requests t; delays := delays t;
                 result := match result t with
                           | inl e => inl (ClientFailed e)
                           | inr h => inr h
                           end |}
          | Registered OpenAI =>
              let t := OpenAIClient.generateStreamingResponse messages options
                         http random in
              {| requests := requests t; delays := delays t;
                 result := inr {| delivered := result t; escaped := None |} |}
          | Inherited _ | NoEntry =>
              noTrace (inl (Raised (TypeError "generateStreamingResponse")))
          end
      end
  end.

End ManagerStreaming.

(* ===================================================================== *)
(** ** The conversation: the two message handlers of
       [routes/sessionRoutes.js] *)
(* ===================================================================== *)

Module Conversation.
Import JS Provider Inventory.

(** A [Message] document. *)
Record StoredMessage : Type := {
  mId : string;
  mSessionId : string;
  mRole : string;
  mContent : string;
  timestamp : Z
}.

(** The collections the handlers use.  A [Config] document is held by its
    data, the object its paths are read from; a [User] document by its
    role.  [inventory] is what [global.InventoryProduct] gives access to
    when the request is served: [None] as long as the model is not
    registered.  Sessions are held by their id; a request whose
    [sessionId] is no id of the store is answered as one for a session that
    does not exist (for an ill-formed id [findById] throws a cast error,
    which the error handler turns into the same status 404). *)
Record Chat : Type := {
  chatSessions : gmap string Session;
  chatConfigs : gmap string (list (string * JSValue));
  userRoles : gmap string string;
  messages : list StoredMessage;
  inventory : option (list Product)
}.

Definition setMessages (c : Chat) (ms : list StoredMessage) : Chat :=
  {| chatSessions := chatSessions c; chatConfigs := chatConfigs c;
     userRoles := userRoles c; messages := ms; inventory := inventory c |}.

(** [Message.create({ sessionId, role, content })] at the time [now]:
    [content] is a required String path with [trim]. *)
Definition createMessage (c : Chat) (fresh : string) (now : Z)
    (sessionId role : string) (content : JSValue)
  : StoreError + (StoredMessage * Chat) :=
  match Inventory.onSave (castRequiredString content) with
  | inl e => inl e
  | inr text =>
      let m := {| mId := fresh; mSessionId := sessionId; mRole := role;
                  mContent := text; timestamp := now |} in
      inr (m, setMessages c (messages c ++ [m]))
  end.

(** [.sort({ timestamp: 1 })]; documents with the same timestamp keep the
    order in which they were stored. *)
Fixpoint insertByTime (m : StoredMessage) (l : list StoredMessage)
  : list StoredMessage :=
  match l with
  | [] => [m]
  | x :: r => if (timestamp m <=? timestamp x)%Z then m :: x :: r
              else x :: insertByTime m r
  end.

Definition sortByTime (l : list StoredMessage) : list StoredMessage :=
  fold_right insertByTime [] l.

(** [Message.find({ sessionId }).sort({ timestamp: 1 }).limit(10)] *)
Definition findHistory (c : Chat) (sessionId : string) : list StoredMessage :=
  firstn 10 (sortByTime (List.filter (fun m => String.eqb (mSessionId m) sessionId)
                                     (messages c))).

(** [lines.join(sep)] *)
Fixpoint joinWith (sep : string) (l : list string) : string :=
  match l with
  | [] => EmptyString
  | [x] => x
  | x :: r => x +:+ sep +:+ joinWith sep r
  end.

Definition inventoryLine (p : Product) : string :=
  "- " +:+ productName p +:+ " (SKU: " +:+ sku p +:+ "): " +:+
  numToString (availableStock p) +:+ " " +:+ unit p +:+ " available".

Definition inventoryInstructions : string :=
  nl +:+ nl +:+ "Instructions for handling inventory queries:" +:+ nl +:+
  "1. Respond in the same language as the user (Hindi or English)" +:+ nl +:+
  "2. For inventory checks, provide accurate stock information" +:+ nl +:+
  "3. For order requests, confirm if the requested quantity is available" +:+ nl +:+
  "4. If a product is out of stock or not in the inventory, politely inform the user" +:+ nl +:+
  "5. Suggest alternatives if available when a requested product is out of stock".

(** [includeInventoryData] and [getInventoryData]:
    [global.InventoryProduct.find({}).select(..).limit(200).lean()], then
    the text built from the products; an exception gives the empty
    string. *)
Definition inventoryContext (c : Chat) : string :=
  match inventory c with
  | None => EmptyString
  | Some all =>
      match firstn 200 all with
      | [] => EmptyString
      | inventoryProducts =>
          nl +:+ "Current Product Inventory Information:" +:+ nl +:+
          joinWith nl (map inventoryLine inventoryProducts) +:+
          inventoryInstructions
      end
  end.

Definition systemNote : string :=
  nl +:+ nl +:+
  "[System Note: The following inventory information is available for reference]".

(** [history.map((msg, index) => ...)]: the inventory text goes to the last
    message of the history, if that is a user message. *)
Fixpoint mapHistory (n index : nat) (context : string) (l : list StoredMessage)
  : list Message :=
  match l with
  | [] => []
  | msg :: rest =>
      (if String.eqb (mRole msg) "user" && Nat.eqb index (n - 1) &&
          negb (String.eqb context EmptyString)
       then Msg (JStr (mRole msg)) (JStr (mContent msg +:+ systemNote +:+ context))
       else Msg (JStr (mRole msg)) (JStr (mContent msg)))
      :: mapHistory n (S index) context rest
  end.

Definition aiMessages (history : list StoredMessage) (context : string)
  : list Message :=
  mapHistory (length history) 0 context history.

(** [object.k = v] *)
Definition setProp (object : JSValue) (k : string) (v : JSValue) : JSValue :=
  match object with
  | JObj fields => JObj (fields ++ [(k, v)])
  | other => other
  end.

(** [if (language) { if (!config.ai) { config.ai = {}; }
                     config.ai.userLanguage = language; }] *)
Definition withLanguage (language : JSValue) (data : list (string * JSValue))
  : list (string * JSValue) :=
  if truthy language then
    let ai := lookupLast "ai" data in
    let ai' := if truthy ai then ai else JObj [] in
    data ++ [("ai", setProp ai' "userLanguage" language)]
  else data.

Definition friendlyPrompt : string :=
  "You are a friendly and helpful AI assistant. Always greet the user " +:+
  "appropriately when they say hello, hi, namaste, or any other greeting. " +:+
  "Respond to basic greetings and questions like " +:+ dq +:+ "how are you" +:+
  dq +:+ " in a conversational manner.".

(** [if (!config.system_prompt) { config.system_prompt = ... }] *)
Definition withPrompt (data : list (string * JSValue)) : list (string * JSValue) :=
  if truthy (lookupLast "system_prompt" data) then data
  else
    let purpose := lookupLast "purpose" data in
    data ++ [("system_prompt",
              JStr (if truthy purpose
                    then "You are an AI assistant focused on: " +:+ toString purpose +:+
                         ". Provide helpful, accurate, and relevant responses."
                    else friendlyPrompt))].

(** [{ ...config }] for a document: its own enumerable properties are the
    internal ones; the paths of the schema are accessors of the prototype
    and are not copied. *)
Definition spreadDocument (data : list (string * JSValue)) : list (string * JSValue) :=
  [("$__", JObj []); ("$isNew", JBool false); ("_doc", JObj data)].

Inductive Denial : Type :=
| NoSession        (* 404 *)
| NotOwner         (* 401 *)
| NotPublic.       (* 403 *)

Inductive Outcome (A : Type) : Type :=
| Denied (d : Denial)
| Threw (c : Caught)
| Sent (a : A).
Arguments Denied {A} _.
Arguments Threw {A} _.
Arguments Sent {A} _.

Record Answer : Type := { reply : JSValue; messageId : string }.

(** What is handed to the manager once the user message is stored: the
    messages and the configuration of the handler for signed-in users, and
    those of the public handler. *)
Definition prepared (c : Chat) (sessionId : string) (language : JSValue)
    (data : list (string * JSValue)) : list Message * JSValue :=
  (aiMessages (findHistory c sessionId) (inventoryContext c),
   JObj (withPrompt (withLanguage language data))).

Definition preparedPublic (c : Chat) (sessionId : string) (language : JSValue)
    (data : list (string * JSValue)) : list Message * JSValue :=
  (aiMessages (findHistory c sessionId) (inventoryContext c),
   JObj (spreadDocument (withPrompt (withLanguage language data)) ++
         [("inventoryAccess", JBool true)])).

Section Handlers.

(** The ids of the two messages the handler may create, the readings of
    the clock when it creates them, and what the call of the model meets. *)
Variables freshUser freshBot : string.
Variables now later : Z.
Variable http : nat -> HttpResult JSValue.
Variable random : nat -> Q.
Variable latency : decimal.

(** From the stored user message on; both handlers end this way. *)
Definition respond (c1 : Chat) (sessionId : string) (session : Session)
    (language : JSValue)
    (prepare : Chat -> string -> JSValue -> list (string * JSValue) ->
               list Message * JSValue)
  : Outcome Answer * Chat :=
  match chatConfigs c1 !! configId session with
  | None =>
      (Threw (CaughtExn (TypeError (if truthy language then "ai"
                                    else "system_prompt"))), c1)
  | Some data =>
      let '(messagesForAI, config) := prepare c1 sessionId language data in
      let call := AIClientManager.generateResponse AIClientManager.manager
                    messagesForAI config http random latency in
      match result call with
      | inl rejection => (Threw (CaughtReject rejection), c1)
      | inr aiResponse =>
          match getProp aiResponse "reply" with
          | inl x => (Threw (CaughtExn x), c1)
          | inr text =>
              match createMessage c1 freshBot later sessionId "bot" text with
              | inl e => (Threw (CaughtStore e), c1)
              | inr (botMessage, c2) =>
                  (Sent {| reply := text; messageId := mId botMessage |}, c2)
              end
          end
      end
  end.

(** [router.post('/:sessionId/messages', protect, ...)]; [requester] is
    [req.user.id]. *)
Definition postMessage (c : Chat) (requester sessionId : string)
    (body : list (string * JSValue)) : Outcome Answer * Chat :=
  let message := lookupLast "message" body in
  let language := lookupLast "language" body in
  match chatSessions c !! sessionId with
  | None => (Denied NoSession, c)
  | Some session =>
      if negb (String.eqb (sUserId session) requester) then (Denied NotOwner, c)
      else
        match createMessage c freshUser now sessionId "user" message with
        | inl e => (Threw (CaughtStore e), c)
        | inr (_, c1) => respond c1 sessionId session language prepared
        end
  end.

(** [router.post('/public/:sessionId/messages', ...)] *)
Definition postPublicMessage (c : Chat) (sessionId : string)
    (body : list (string * JSValue)) : Outcome Answer * Chat :=
  let message := lookupLast "message" body in
  let language := lookupLast "language" body in
  match chatSessions c !! sessionId with
  | None => (Denied NoSession, c)
  | Some session =>
      match userRoles c !! sUserId session with
      | Some "admin" =>
          match createMessage c freshUser now sessionId "user" message with
          | inl e => (Threw (CaughtStore e), c)
          | inr (_, c1) => respond c1 sessionId session language preparedPublic
          end
      | _ => (Denied NotPublic, c)
      end
  end.

End Handlers.

(** [router.delete('/:sessionId/messages', protect, ...)]:
    [Message.deleteMany({ sessionId })] for the owner of the session. *)
Definition deleteMessages (c : Chat) (requester sessionId : string)
  : Outcome Datatypes.unit * Chat :=
  match chatSessions c !! sessionId with
  | None => (Denied NoSession, c)
  | Some session =>
      if negb (String.eqb (sUserId session) requester) then (Denied NotOwner, c)
      else (Sent tt,
            setMessages c (List.filter
                             (fun m => negb (String.eqb (mSessionId m) sessionId))
                             (messages c)))
  end.

End Conversation.

(* ===================================================================== *)
(** ** [routes/webhookRoutes.js] *)
(* ===================================================================== *)

Module Webhook.
Import JS Provider Inventory Conversation.

Inductive Denial : Type :=
| MissingFields       (* 400 *)
| NoConfiguration     (* 404 *)
| NoSession.          (* 404 *)

Inductive Outcome (A : Type) : Type :=
| Denied (d : Denial)
| Threw (c : Caught)
| Sent (a : A).
Arguments Denied {A} _.
Arguments Threw {A} _.
Arguments Sent {A} _.

Record Answer : Type := {
  aSessionId : string;
  aReply : JSValue;
  aMessageId : string;
  aChannel : JSValue
}.

Definition setChatSessions (c : Chat) (ss : gmap string Session) : Chat :=
  {| chatSessions := ss; chatConfigs := chatConfigs c; userRoles := userRoles c;
     messages := messages c; inventory := inventory c |}.

(** The [userId] path of a session: a required String. *)
Definition castUserId (v : JSValue) : StoreError + string :=
  Inventory.castRequiredText v.

(** A message of the history as the manager receives it. *)
Definition asMessage (msg : StoredMessage) : Message :=
  Msg (JStr (mRole msg)) (JStr (mContent msg)).

(** What one call of the model meets. *)
Record World : Type := {
  http : nat -> HttpResult JSValue;
  random : nat -> Q;
  latency : decimal
}.

(** The body the intent route sends when it answers:
    [{ success: true, data: { intent: intentData, response } }]. *)
Definition intentAnswerJson (a : IntentAnswer) : JSValue :=
  JObj [("success", JBool true);
        ("data", JObj [("intent", intent a);
                       ("response", JStr (render (isHindi a) (response a)))])].

(** What the handler makes of the response of the intent route. *)
Inductive Detection : Type :=
| Raised                               (* the [try] block was left *)
| InventoryReply (message : JSValue)   (* [{ reply: inventoryResult.message }] *)
| NoIntent.                            (* go on with the model *)

(** [fetched] is the parsed body of the response of the intent route,
    [None] when [fetch] or [json()] raised. *)
Definition detect (fetched : option JSValue) : Detection :=
  match fetched with
  | None => Raised
  | Some inventoryResult =>
      match getProp inventoryResult "success" with
      | inl _ => Raised
      | inr success =>
          if truthy success &&
             negb (strictEqStr (getPropOpt inventoryResult "intent") "other")
          then InventoryReply (getPropOpt inventoryResult "message")
          else NoIntent
      end
  end.

Section Handler.

(** The ids of the documents the handler may create, the readings of the
    clock for the two messages, the response of the intent route, and what
    the first and the second call of the model meet. *)
Variables freshSession freshUser freshBot : string.
Variables now later : Z.
Variable fetched : option JSValue.
Variables first second : World.

(** [aiClientManager.generateResponse(session._id, history, config)] *)
Definition ask (w : World) (history : list StoredMessage)
    (data : list (string * JSValue)) : Caught + JSValue :=
  match result (AIClientManager.generateResponse AIClientManager.manager
                  (map asMessage history) (JObj data)
                  (http w) (random w) (latency w)) with
  | inl rejection => inl (CaughtReject rejection)
  | inr aiResponse => inr aiResponse
  end.

(** The [if (config.inventoryEnabled) { try {..} catch {..} } else {..}]
    block: the value of [aiResponse], or what is thrown. *)
Definition obtain (history : list StoredMessage) (data : list (string * JSValue))
  : Caught + JSValue :=
  if truthy (lookupLast "inventoryEnabled" data) then
    match detect fetched with
    | Raised => ask first history data
    | InventoryReply message => inr (JObj [("reply", message)])
    | NoIntent =>
        match ask first history data with
        | inr aiResponse => inr aiResponse
        | inl _ => ask second history data
        end
    end
  else ask first history data.

(** [router.post('/', protect, ...)] *)
Definition postWebhook (c : Chat) (body : list (string * JSValue))
  : Outcome Answer * Chat :=
  let configId := lookupLast "configId" body in
  let userId := lookupLast "userId" body in
  let message := lookupLast "message" body in
  let sessionId := lookupLast "sessionId" body in
  let channel := match lookupLast "channel" body with
                 | JUndefined => JStr "api"
                 | v => v
                 end in
  if negb (truthy configId) || negb (truthy userId) || negb (truthy message)
  then (Denied MissingFields, c)
  else
    match castId configId with
    | inl e => (Threw (CaughtStore e), c)
    | inr bot =>
        match chatConfigs c !! bot with
        | None => (Denied NoConfiguration, c)
        | Some data =>
            let session : Outcome string * Chat :=
              if truthy sessionId then
                match castId sessionId with
                | inl e => (Threw (CaughtStore e), c)
                | inr sid =>
                    match chatSessions c !! sid with
                    | Some _ => (Sent sid, c)
                    | None => (Denied NoSession, c)
                    end
                end
              else
                match Inventory.onSave (castUserId userId) with
                | inl e => (Threw (CaughtStore e), c)
                | inr user =>
                    (Sent freshSession,
                     setChatSessions c (<[freshSession := {| Inventory.configId := bot;
                                                             sUserId := user |}]>
                                          (chatSessions c)))
                end in
            match session with
            | (Denied d, c0) => (Denied d, c0)
            | (Threw x, c0) => (Threw x, c0)
            | (Sent sid, c0) =>
                match createMessage c0 freshUser now sid "user" message with
                | inl e => (Threw (CaughtStore e), c0)
                | inr (_, c1) =>
                    match obtain (findHistory c1 sid) data with
                    | inl x => (Threw x, c1)
                    | inr aiResponse =>
                        match getProp aiResponse "reply" with
                        | inl x => (Threw (CaughtExn x), c1)
                        | inr text =>
                            match createMessage c1 freshBot later sid "bot" text with
                            | inl e => (Threw (CaughtStore e), c1)
                            | inr (botMessage, c2) =>
                                (Sent {| aSessionId := sid; aReply := text;
                                         aMessageId := mId botMessage;
                                         aChannel := channel |}, c2)
                            end
                        end
                    end
                end
            end
        end
    end.

End Handler.

End Webhook.

(* ===================================================================== *)
(** ** [utils/promptEnhancer.js] *)
(* ===================================================================== *)

Module PromptEnhancer.
Import JS Provider.

Definition defaultEnhancementInstructions : string :=
  nl +:+
  "You are an expert prompt engineer. Your task is to enhance the given prompt to make it more detailed, specific, and effective." +:+ nl +:+
  nl +:+
  "Follow these guidelines to enhance the prompt:" +:+ nl +:+
  "1. Expand on the core concepts and ideas in the original prompt" +:+ nl +:+
  "2. Add specific instructions for tone, style, and format" +:+ nl +:+
  "3. Include clear constraints and boundaries" +:+ nl +:+
  "4. Provide examples or templates where appropriate" +:+ nl +:+
  "5. Ensure the enhanced prompt maintains the original intent" +:+ nl +:+
  "6. Make the prompt more detailed and comprehensive" +:+ nl +:+
  "7. Add context and background information" +:+ nl +:+
  "8. Specify the desired output format" +:+ nl +:+
  "9. Include any relevant domain-specific terminology" +:+ nl +:+
  nl +:+
  "Your enhanced prompt should be significantly more detailed and effective than the original while preserving its core purpose." +:+ nl.

Definition engineerPrompt : string :=
  "You are an expert prompt engineer specializing in enhancing prompts to make them more detailed and effective.".

(** The properties [{ ...v }] copies: the own properties of an object, the
    indices of an array or of a string, nothing of any other value. *)
Fixpoint indexed (i : nat) (items : list JSValue) : list (string * JSValue) :=
  match items with
  | [] => []
  | x :: r => (pretty i, x) :: indexed (S i) r
  end.

Fixpoint letters (s : string) : list JSValue :=
  match s with
  | EmptyString => []
  | String c r => JStr (String c EmptyString) :: letters r
  end.

Definition spread (v : JSValue) : list (string * JSValue) :=
  match v with
  | JObj fields => fields
  | JArr items => indexed 0 items
  | JStr s => indexed 0 (letters s)
  | _ => []
  end.

(** How a call of [enhancePrompt] fails. *)
Inductive Failure : Type :=
| PromptRequired                             (* 'Original prompt is required' *)
| Exception (x : exn)
| Rejected (r : AIClientManager.Rejection).

(** [v.trim()] *)
Definition callTrim (v : JSValue) : exn + string :=
  match v with
  | JStr s => inr (trim s)
  | _ => inl (TypeError "trim")
  end.

(** [enhancePrompt(originalPrompt, config = {})] *)
Definition enhancePrompt (originalPrompt config : JSValue)
    (http : nat -> HttpResult JSValue) (random : nat -> Q) (latency : decimal)
  : Trace (Failure + string) :=
  let config := match config with JUndefined => JObj [] | c => c end in
  if negb (truthy originalPrompt) then AIClientManager.noTrace (inl PromptRequired)
  else
    match callTrim originalPrompt with
    | inl x => AIClientManager.noTrace (inl (Exception x))
    | inr EmptyString => AIClientManager.noTrace (inl PromptRequired)
    | inr _ =>
        let messages :=
          [Msg (JStr "user")
               (JStr (defaultEnhancementInstructions +:+ nl +:+ nl +:+
                      "Original Prompt: " +:+ toString originalPrompt +:+ nl +:+ nl +:+
                      "Enhanced Prompt:"))] in
        match getProp config "ai" with
        | inl x => AIClientManager.noTrace (inl (Exception x))
        | inr ai =>
            let enhancementConfig :=
              JObj (spread config ++
                    [("ai", JObj (spread ai ++ [("temperature", JNum (Dec 8 (-1)));
                                                ("max_tokens", JNum (ofZ 2000))]));
                     ("system_prompt", JStr engineerPrompt)]) in
            let call := AIClientManager.generateResponse AIClientManager.manager
                          messages enhancementConfig http random latency in
            {| requests := requests call;
               delays := delays call;
               result := match result call with
                         | inl rejection => inl (Rejected rejection)
                         | inr response =>
                             match getProp response "reply" with
                             | inl x => inl (Exception x)
                             | inr reply =>
                                 match callTrim reply with
                                 | inl x => inl (Exception x)
                                 | inr text => inr text
                                 end
                             end
                         end |}
        end
    end.

End PromptEnhancer.

(* ===================================================================== *)
(** ** The fragment of JavaScript on examples *)
(* ===================================================================== *)

Module LanguageExamples.
Import JS.

Example trim_both_ends : trim "   data: x  " = "data: x".
Proof. reflexivity. Qed.

Example split_keeps_empty_lines : splitLines ("a" +:+ nl +:+ nl +:+ "b" +:+ nl) = ["a"; ""; "b"; ""].
Proof. reflexivity. Qed.

Example replace_first_only :
  replaceFirst "data:" EmptyString "data: data: x" = " data: x".
Proof. reflexivity. Qed.

Example number_to_string :
  map numberToString [Dec 1500 (-2); Dec (-5) 0; Dec 1 21; Dec 12 (-8); Dec 123 (-2)]
  = ["15"; "-5"; "1e+21"; "1.2e-7"; "1.23"].
Proof. reflexivity. Qed.

Example string_to_number :
  map stringToNumber [" 12.50 "; "0x1F"; ""; "-Infinity"; "1e3"; "."; "abc"]
  = [Fin (Dec 125 (-1)); Fin (ofZ 31); Fin (ofZ 0); NegInf; Fin (ofZ 1000); NaN; NaN].
Proof. vm_compute. reflexivity. Qed.

Example string_to_number_rounds :
  map stringToNumber ["0.1000000000000000055511151231257827"; "9007199254740993";
                      "1e309"; "2e-324"; "5e-324"]
  = [Fin (Dec 1 (-1)); Fin (ofZ 9007199254740992); PosInf; Fin (ofZ 0);
     Fin (Dec 5 (-324))].
Proof. vm_compute. reflexivity. Qed.

Example subtraction_of_doubles :
  map (fun ab => numToString (numSub (Fin (fst ab)) (Fin (snd ab))))
      [(Dec 11 (-1), ofZ 1); (Dec 33 (-1), Dec 11 (-1));
       (Dec 21999999999999997 (-16), Dec 11 (-1)); (ofZ 10, ofZ 3);
       (Dec 1 20, ofZ 1)]
  = ["0.10000000000000009"; "2.1999999999999997"; "1.0999999999999996"; "7";
     "100000000000000000000"].
Proof. vm_compute. reflexivity. Qed.

Example subtraction_of_infinities :
  numSub PosInf PosInf = NaN /\ numSub PosInf (Fin (ofZ 1)) = PosInf.
Proof. split; vm_compute; reflexivity. Qed.

Example array_to_string :
  toString (JArr [JNum (ofZ 1); JNull; JStr "a"; JArr [JNum (ofZ 2); JNum (ofZ 3)]])
  = "1,,a,2,3".
Proof. reflexivity. Qed.

Example comparison_coerces :
  map (geValue (Fin (ofZ 5)))
      [JStr "5"; JNum (Dec 51 (-1)); JArr [JNum (ofZ 3)]; JUndefined; JNull;
       JStr "Infinity"]
  = [true; false; true; false; true; false].
Proof. vm_compute. reflexivity. Qed.

Example parse_object :
  JSON.parseText ("{" +:+ dq +:+ "a" +:+ dq +:+ ": [1, -2.5e3, true, null, {}], " +:+
                  dq +:+ "a" +:+ dq +:+ ":" +:+ dq +:+ "x\n" +:+ dq +:+ "}")
  = Some (JObj [("a", JArr [JNum (ofZ 1); JNum (ofZ (-2500)); JBool true; JNull; JObj []]);
                ("a", JStr ("x" +:+ nl))]).
Proof. vm_compute. reflexivity. Qed.

(** An escaped surrogate pair is one code point: U+1F600 in four bytes. *)
Example parse_surrogate_pair :
  JSON.parseText (dq +:+ "\uD83D\uDE00" +:+ dq)
  = Some (JStr (String (ascii_of_nat 240) (String (ascii_of_nat 159)
                 (String (ascii_of_nat 152) (String (ascii_of_nat 128) EmptyString))))).
Proof. vm_compute. reflexivity. Qed.

Example parse_rejects :
  map JSON.parseText ["undefined"; "01"; "[1,]"; "{,}"; ""; "[1 2]"; "-"; "1."; "[DONE]"; "nul"]
  = [None; None; None; None; None; None; None; None; None; None].
Proof. vm_compute. reflexivity. Qed.

Example later_key_wins :
  getProp (JObj [("a", JNum (ofZ 1)); ("a", JNum (ofZ 2))]) "a" = inr (JNum (ofZ 2)).
Proof. reflexivity. Qed.

Example devanagari_detected :
  containsDevanagari "मुझे 2 मोबाइल फोन चाहिए" = true /\
  containsDevanagari "I want to order 3 printers" = false.
Proof. split; reflexivity. Qed.

End LanguageExamples.

(* ===================================================================== *)
(** ** The numbers denote rationals *)
(* ===================================================================== *)

Module NumberProperties.
Import JS.
Local Open Scope Q_scope.

(** The rational a decimal stands for. *)
Definition toQ (d : decimal) : Q := inject_Z (mant d) * 10 ^ expo d.

Lemma scaled_toQ (d : decimal) (e : Z) :
  (e <= expo d)%Z -> inject_Z (scaled d e) * 10 ^ e == toQ d.
Proof.
  intros He. unfold scaled, toQ.
  rewrite inject_Z_mult, Zpower_Qpower by lia.
  replace (expo d) with ((expo d - e) + e)%Z at 2 by lia.
  rewrite Qpower_plus by discriminate.
  change (inject_Z 10) with 10. ring.
Qed.

Lemma cmp_le (a b : decimal) : cmp a b <> Gt <-> toQ a <= toQ b.
Proof.
  unfold cmp. set (e := Z.min (expo a) (expo b)).
  assert (Ha : (e <= expo a)%Z) by (subst e; lia).
  assert (Hb : (e <= expo b)%Z) by (subst e; lia).
  rewrite <- (scaled_toQ a e Ha), <- (scaled_toQ b e Hb).
  rewrite Qmult_le_r by (apply Qpower_0_lt; reflexivity).
  rewrite <- Zle_Qle. apply Z.compare_le_iff.
Qed.

(** [leb] and [ltb] decide the order of the rationals. *)
Lemma leb_le (a b : decimal) : leb a b = true <-> toQ a <= toQ b.
Proof.
  rewrite <- cmp_le. unfold leb.
  destruct (cmp a b); split; intros H; try discriminate; try reflexivity.
  exfalso. apply H. reflexivity.
Qed.

Lemma cmp_lt (a b : decimal) : cmp a b = Lt <-> toQ a < toQ b.
Proof.
  unfold cmp. set (e := Z.min (expo a) (expo b)).
  assert (Ha : (e <= expo a)%Z) by (subst e; lia).
  assert (Hb : (e <= expo b)%Z) by (subst e; lia).
  rewrite <- (scaled_toQ a e Ha), <- (scaled_toQ b e Hb).
  rewrite Qmult_lt_r by (apply Qpower_0_lt; reflexivity).
  rewrite <- Zlt_Qlt. apply Z.compare_lt_iff.
Qed.

Lemma ltb_lt (a b : decimal) : ltb a b = true <-> toQ a < toQ b.
Proof.
  rewrite <- cmp_lt. unfold ltb.
  destruct (cmp a b); split; intros H; try discriminate; reflexivity.
Qed.

Lemma toQ_ofZ (z : Z) : toQ (ofZ z) == inject_Z z.
Proof. unfold toQ, ofZ. simpl. ring. Qed.

Lemma isPositive_lt (d : decimal) : isPositive d = true <-> 0 < toQ d.
Proof.
  unfold isPositive, toQ. rewrite Z.ltb_lt, Zlt_Qlt.
  rewrite <- (Qmult_lt_r 0 (inject_Z (mant d)) (10 ^ expo d))
    by (apply Qpower_0_lt; reflexivity).
  rewrite Qmult_0_l. reflexivity.
Qed.

(** The order of the numbers: that of the rationals between the two
    infinities, with [NaN] aside. *)
Definition numLe (a b : number) : Prop :=
  match a, b with
  | NaN, _ | _, NaN => False
  | Fin x, Fin y => toQ x <= toQ y
  | NegInf, _ | _, PosInf => True
  | _, _ => False
  end.

Definition numLt (a b : number) : Prop :=
  match a, b with
  | NaN, _ | _, NaN => False
  | Fin x, Fin y => toQ x < toQ y
  | NegInf, NegInf | PosInf, PosInf => False
  | NegInf, _ | _, PosInf => True
  | _, _ => False
  end.

Lemma numLeb_le (a b : number) : numLeb a b = true <-> numLe a b.
Proof.
  destruct a as [x | | |], b as [y | | |]; cbn; try tauto;
    try (split; [discriminate | contradiction]).
  fold (leb x y). apply leb_le.
Qed.

Lemma numLtb_lt (a b : number) : numLtb a b = true <-> numLt a b.
Proof.
  destruct a as [x | | |], b as [y | | |]; cbn; try tauto;
    try (split; [discriminate | contradiction]).
  fold (ltb x y). apply ltb_lt.
Qed.

(** [a < b] excludes [b <= a]. *)
Lemma numLt_not_le (a b : number) : numLt a b -> ~ numLe b a.
Proof.
  destruct a as [x | | |], b as [y | | |]; cbn; try tauto.
  intros Hlt Hle. exact (Qlt_not_le _ _ Hlt Hle).
Qed.

Lemma numLtb_not_leb (a b : number) : numLtb a b = true -> numLeb b a = false.
Proof.
  intros Hlt. apply numLtb_lt in Hlt.
  destruct (numLeb b a) eqn:Hle; [| reflexivity].
  apply numLeb_le in Hle. exfalso. exact (numLt_not_le _ _ Hlt Hle).
Qed.

(** Zero is below what is positive, and only that. *)
Lemma numLt_zero (a : number) : numLt zero a <-> a = PosInf \/ exists d, a = Fin d /\ 0 < toQ d.
Proof.
  destruct a as [d | | |]; cbn.
  - rewrite toQ_ofZ. split.
    + intros H. right. eauto.
    + intros [H | (d' & [= <-] & H)]; [discriminate | exact H].
  - split; auto.
  - split; [contradiction | intros [H | (d & H & _)]; discriminate].
  - split; [contradiction | intros [H | (d & H & _)]; discriminate].
Qed.

End NumberProperties.

(* ===================================================================== *)
(** ** Properties of the retry policy *)
(* ===================================================================== *)

Module RetryProperties.
Import JS Provider.
Local Open Scope Q_scope.

Definition fatalStatus (st : Z) : Prop := st = 401%Z \/ st = 400%Z \/ st = 404%Z.

Lemma mistral_fatal_no_retry (e : HttpError) (r : ErrorResponse) :
  response e = Some r -> fatalStatus (status r) ->
  MistralClient._shouldRetryRequest e = inr false.
Proof.
  intros He Hst. unfold MistralClient._shouldRetryRequest,
    MistralClient.statusIs, MistralClient.modelMissing. rewrite He.
  destruct Hst as [-> | [-> | ->]]; reflexivity.
Qed.

(** On these statuses the OpenAI client makes its test of the message and
    answers [false], unless the test raises. *)
Lemma openai_fatal_no_retry (e : HttpError) (r : ErrorResponse) :
  response e = Some r -> fatalStatus (status r) ->
  OpenAIClient._shouldRetryRequest e
  = match OpenAIClient.namesModel r with
    | inl x => inl x
    | inr _ => inr false
    end.
Proof.
  intros He Hst. unfold OpenAIClient._shouldRetryRequest. rewrite He.
  destruct Hst as [-> | [-> | ->]]; reflexivity.
Qed.

(** The test of the message is made on a response with status 404 only. *)
Lemma namesModel_other_status (r : ErrorResponse) :
  status r <> 404%Z -> OpenAIClient.namesModel r = inr false.
Proof.
  intros Hst. unfold OpenAIClient.namesModel.
  destruct (Z.eqb_spec (status r) 404); [contradiction | reflexivity].
Qed.

(** It answers when the body is an object whose [error] is an object with
    a string as [message]. *)
Lemma namesModel_text (r : ErrorResponse) (fields errorFields : list (string * JSValue))
    (text : string) :
  data r = JObj fields -> lookupLast "error" fields = JObj errorFields ->
  lookupLast "message" errorFields = JStr text ->
  exists b, OpenAIClient.namesModel r = inr b.
Proof.
  intros Hd He Hm. unfold OpenAIClient.namesModel. rewrite Hd.
  cbn [truthy negb getProp]. rewrite He. cbn [truthy negb getProp]. rewrite Hm.
  cbn [callIncludes]. repeat case_match; eauto.
Qed.

(** A first post that fails without a retry ends the loop after one
    request and no delay. *)
Lemma retryLoop_stops {A} (shouldRetry : HttpError -> exn + bool) delayFor req
    (http : nat -> HttpResult A) random (e : HttpError) :
  http 0%nat = HttpFail e -> shouldRetry e = inr false ->
  retryLoop shouldRetry delayFor req http random maxRetries =
  {| requests := [req]; delays := []; result := inl (ThrownHttp e) |}.
Proof.
  intros Hhttp Hno. unfold maxRetries. simpl. rewrite Hhttp, Hno. reflexivity.
Qed.

(** The delay the policy prescribes before retry number [n], for the value
    [r] of [Math.random()]. *)
Definition policyDelay (n : nat) (r : Q) : Q :=
  Qmin (baseDelay n + r * 1000) 10000.

Definition unitInterval (random : nat -> Q) : Prop :=
  forall k, 0 <= random k /\ random k < 1.

(** The loop posts one, two or three times, and sleeps once between two
    consecutive posts. *)
Lemma retryLoop_shape {A} (shouldRetry : HttpError -> exn + bool) delayFor req
    (http : nat -> HttpResult A) random :
  let t := retryLoop shouldRetry delayFor req http random maxRetries in
  (requests t = [req] /\ delays t = []) \/
  (requests t = [req; req] /\ delays t = [delayFor 1%nat (random 0%nat)]) \/
  (requests t = [req; req; req] /\
   delays t = [delayFor 1%nat (random 0%nat); delayFor 2%nat (random 1%nat)]).
Proof.
  unfold maxRetries. simpl.
  destruct (http 0%nat) as [p0 | e0]; [auto |].
  destruct (shouldRetry e0) as [x0 | [|]]; [auto | | auto].
  destruct (http 1%nat) as [p1 | e1]; [auto |].
  destruct (shouldRetry e1) as [x1 | [|]]; [auto | | auto].
  destruct (http 2%nat) as [p2 | e2]; [auto |].
  destruct (shouldRetry e2) as [x2 | [|]]; auto.
Qed.

Lemma baseDelay_1 : baseDelay 1 == 2000.
Proof. reflexivity. Qed.

Lemma baseDelay_2 : baseDelay 2 == 4000.
Proof. reflexivity. Qed.

Lemma policyDelay_bounds (n : nat) (r : Q) :
  (n = 1 \/ n = 2)%nat -> 0 <= r -> r < 1 ->
  baseDelay n <= policyDelay n r /\ policyDelay n r <= 10000.
Proof.
  intros Hn H0 H1. unfold policyDelay.
  assert (Hb : baseDelay n <= 4000).
  { destruct Hn as [-> | ->]; [rewrite baseDelay_1 | rewrite baseDelay_2]; lra. }
  split.
  - apply Q.min_glb; lra.
  - apply Q.le_min_r.
Qed.

Lemma openai_delay_is_policy (n : nat) (r : Q) :
  OpenAIClient.delayFor n r == policyDelay n r.
Proof. reflexivity. Qed.

(** The Mistral client leaves the cap out; in the two delays the loop can
    sleep it would not apply. *)
Lemma mistral_delay_is_policy (n : nat) (r : Q) :
  (n = 1 \/ n = 2)%nat -> 0 <= r -> r < 1 ->
  MistralClient.delayFor n r == policyDelay n r.
Proof.
  intros Hn H0 H1. unfold MistralClient.delayFor, policyDelay.
  symmetry. apply Q.min_l.
  destruct Hn as [-> | ->]; [rewrite baseDelay_1 | rewrite baseDelay_2]; lra.
Qed.

(** The transient classes of the retry policy: a response with status 429,
    500 or 502, or no response and the network code [ECONNRESET]. *)
Inductive transient (e : HttpError) : Prop :=
| transient_status r :
    response e = Some r ->
    (status r = 429 \/ status r = 500 \/ status r = 502)%Z -> transient e
| transient_reset :
    response e = None -> code e = Some "ECONNRESET" -> transient e.

Lemma openai_transient_retry (e : HttpError) :
  transient e -> OpenAIClient._shouldRetryRequest e = inr true.
Proof.
  intros [r Hr Hst | Hr Hc]; unfold OpenAIClient._shouldRetryRequest; rewrite Hr.
  - destruct Hst as [-> | [-> | ->]]; reflexivity.
  - rewrite Hc. reflexivity.
Qed.

(** The body of an error response says nothing about a missing model: it
    is falsy, or its [error] property is falsy, or that property is a
    string or an array without the marker. *)
Definition plainBody (d : JSValue) : Prop :=
  truthy d = false \/
  (exists err, getProp d "error" = inr err /\
               (truthy err = false \/ callIncludes err "model not found" = inr false)).

Lemma mistral_status_retry (e : HttpError) (r : ErrorResponse) :
  response e = Some r ->
  (status r = 429 \/ status r = 500 \/ status r = 502)%Z ->
  plainBody (data r) ->
  MistralClient._shouldRetryRequest e = inr true.
Proof.
  intros Hr Hst Hbody.
  assert (Hm : MistralClient.modelMissing e = inr false).
  { unfold MistralClient.modelMissing. rewrite Hr.
    replace (status r =? 404)%Z with false
      by (destruct Hst as [-> | [-> | ->]]; reflexivity).
    destruct Hbody as [Hf | (err & Hget & Herr)].
    - rewrite Hf. reflexivity.
    - destruct (truthy (data r)); [| reflexivity]. simpl. rewrite Hget.
      destruct Herr as [Hf | Hinc].
      + rewrite Hf. reflexivity.
      + destruct (truthy err); [exact Hinc | reflexivity]. }
  unfold MistralClient._shouldRetryRequest, MistralClient.statusIs.
  rewrite Hm, Hr.
  destruct Hst as [-> | [-> | ->]]; reflexivity.
Qed.

(** Three failures in a row, each one retried: three posts, two delays, and
    the last error comes out. *)
Lemma retryLoop_exhausts {A} (shouldRetry : HttpError -> exn + bool) delayFor req
    (http : nat -> HttpResult A) random (e0 e1 e2 : HttpError) :
  http 0%nat = HttpFail e0 -> http 1%nat = HttpFail e1 -> http 2%nat = HttpFail e2 ->
  shouldRetry e0 = inr true -> shouldRetry e1 = inr true -> shouldRetry e2 = inr true ->
  retryLoop shouldRetry delayFor req http random maxRetries =
  {| requests := [req; req; req];
     delays := [delayFor 1%nat (random 0%nat); delayFor 2%nat (random 1%nat)];
     result := inl (ThrownHttp e2) |}.
Proof.
  intros H0 H1 H2 R0 R1 R2. unfold maxRetries. simpl.
  rewrite H0, R0. simpl. rewrite H1, R1. simpl. rewrite H2, R2. reflexivity.
Qed.

(** A first post that succeeds ends the loop. *)
Lemma retryLoop_succeeds {A} (shouldRetry : HttpError -> exn + bool) delayFor req
    (http : nat -> HttpResult A) random (payload : A) :
  http 0%nat = HttpOk payload ->
  retryLoop shouldRetry delayFor req http random maxRetries =
  {| requests := [req]; delays := []; result := inr (Some payload) |}.
Proof.
  intros Hhttp. unfold maxRetries. simpl. rewrite Hhttp. reflexivity.
Qed.

(** A first failure on which [_shouldRetryRequest] itself raises ends the
    loop after one post. *)
Lemma retryLoop_raises {A} (shouldRetry : HttpError -> exn + bool) delayFor req
    (http : nat -> HttpResult A) random (e : HttpError) (x : exn) :
  http 0%nat = HttpFail e -> shouldRetry e = inl x ->
  retryLoop shouldRetry delayFor req http random maxRetries =
  {| requests := [req]; delays := []; result := inl (ThrownExn x) |}.
Proof.
  intros Hhttp Hx. unfold maxRetries. simpl. rewrite Hhttp, Hx. reflexivity.
Qed.

(** Without a response, the third test of the Mistral client reads
    [error.response.data] and raises. *)
Lemma mistral_no_response_raises (e : HttpError) :
  response e = None ->
  MistralClient._shouldRetryRequest e = inl (TypeError "data").
Proof.
  intros Hr. unfold MistralClient._shouldRetryRequest, MistralClient.statusIs,
    MistralClient.modelMissing. rewrite Hr. reflexivity.
Qed.

(** Whatever the network answers, a call of [generateResponse] of either
    client posts at most three times, sleeps once between two posts, and
    the n-th delay is the policy's:
    [min(2^n * 1000 + random * 1000, 10000)], between [2^n * 1000] and
    [10000] milliseconds. *)
Lemma retry_policy_bounds (messages : list Message) (o : Options)
    (http : nat -> HttpResult JSValue) (random : nat -> Q) (latency : decimal) :
  unitInterval random ->
  forall ds,
    ds = delays (MistralClient.generateResponse messages o http random latency) \/
    ds = delays (OpenAIClient.generateResponse messages o http random) ->
    (length ds <= 2)%nat /\
    forall i d, nth_error ds i = Some d ->
      d == policyDelay (S i) (random i) /\
      baseDelay (S i) <= d /\ d <= 10000.
Proof.
  intros Hrand ds Hds.
  assert (Hshape : exists delayFor,
    (forall n r, (n = 1 \/ n = 2)%nat -> 0 <= r -> r < 1 ->
                 delayFor n r == policyDelay n r) /\
    (ds = [] \/ ds = [delayFor 1%nat (random 0%nat)] \/
     ds = [delayFor 1%nat (random 0%nat); delayFor 2%nat (random 1%nat)])).
  { destruct Hds as [-> | ->].
    - exists MistralClient.delayFor. split; [apply mistral_delay_is_policy |].
      unfold MistralClient.generateResponse. cbn [delays].
      destruct (retryLoop_shape MistralClient._shouldRetryRequest
                  MistralClient.delayFor (MistralClient.buildRequest messages o)
                  http random) as [[_ ->] | [[_ ->] | [_ ->]]]; auto.
    - exists OpenAIClient.delayFor.
      split; [intros; apply openai_delay_is_policy |].
      unfold OpenAIClient.generateResponse. cbn [delays].
      destruct (retryLoop_shape OpenAIClient._shouldRetryRequest
                  OpenAIClient.delayFor (OpenAIClient.buildRequest messages o)
                  http random) as [[_ ->] | [[_ ->] | [_ ->]]]; auto. }
  destruct Hshape as (delayFor & Hpol & Hcases).
  assert (Hone : forall n, (n = 1 \/ n = 2)%nat ->
            delayFor n (random (pred n)) == policyDelay n (random (pred n)) /\
            baseDelay n <= delayFor n (random (pred n)) /\
            delayFor n (random (pred n)) <= 10000).
  { intros n Hn. destruct (Hrand (pred n)) as [H0 H1].
    pose proof (Hpol n _ Hn H0 H1) as Heq.
    pose proof (policyDelay_bounds n _ Hn H0 H1) as [Hlo Hhi].
    rewrite Heq. auto with qarith. }
  destruct Hcases as [-> | [-> | ->]]; (split; [simpl; lia |]); intros i d Hnth.
  - destruct i; discriminate.
  - destruct i as [| [|]]; try discriminate.
    injection Hnth as <-. apply (Hone 1%nat). auto.
  - destruct i as [| [| [|]]]; try discriminate; injection Hnth as <-.
    + apply (Hone 1%nat). auto.
    + apply (Hone 2%nat). auto.
Qed.

(** A transient failure that persists is retried by the OpenAI client until
    the third post. *)
Lemma openai_retries_transient (messages : list Message) (o : Options)
    (http : nat -> HttpResult JSValue) (random : nat -> Q) (e : HttpError) :
  transient e -> (forall k, http k = HttpFail e) ->
  let t := OpenAIClient.generateResponse messages o http random in
  attempts t = 3%nat /\ length (delays t) = 2%nat /\
  result t = inl (OpenAIClient.classify (ThrownHttp e)).
Proof.
  intros Ht Hhttp. pose proof (openai_transient_retry e Ht) as Hr.
  unfold OpenAIClient.generateResponse, attempts. cbn [requests delays result].
  rewrite (retryLoop_exhausts _ _ _ http random e e e); auto.
Qed.

(** So is, by the Mistral client, a persistent response with status 429, 500
    or 502 whose body is plain. *)
Lemma mistral_retries_status (messages : list Message) (o : Options)
    (http : nat -> HttpResult JSValue) (random : nat -> Q) (latency : decimal)
    (e : HttpError) (r : ErrorResponse) :
  response e = Some r ->
  (status r = 429 \/ status r = 500 \/ status r = 502)%Z ->
  plainBody (data r) ->
  (forall k, http k = HttpFail e) ->
  let t := MistralClient.generateResponse messages o http random latency in
  attempts t = 3%nat /\ length (delays t) = 2%nat /\
  result t = inl (MistralClient.classify (ThrownHttp e)).
Proof.
  intros Hr Hst Hbody Hhttp.
  pose proof (mistral_status_retry e r Hr Hst Hbody) as Hretry.
  unfold MistralClient.generateResponse, attempts. cbn [requests delays result].
  rewrite (retryLoop_exhausts _ _ _ http random e e e); auto.
Qed.

(** An axios error for a connection reset: no response, the request object
    present, the network code set. *)
Definition connectionReset : HttpError :=
  {| response := None; request := true; code := Some "ECONNRESET";
     message := "read ECONNRESET" |}.

(** C2 (the Mistral client on a network-level error).  When every post
    fails with [ECONNRESET], [generateResponse] of the Mistral client posts
    once, sleeps no delay and fails with the [TypeError] its own
    [_shouldRetryRequest] raised on [error.response.data]; the OpenAI client
    on the same network posts three times. *)
Theorem mistral_connection_reset_single_attempt :
  let http := fun _ : nat => @HttpFail JSValue connectionReset in
  let random := fun _ : nat => 0 in
  let t := MistralClient.generateResponse [] noOptions http random (ofZ 0) in
  transient connectionReset /\
  attempts t = 1%nat /\ delays t = [] /\
  result t = inl (Failed (ThrownExn (TypeError "data"))) /\
  attempts (OpenAIClient.generateResponse [] noOptions http random) = 3%nat.
Proof.
  repeat split.
  - apply transient_reset; reflexivity.
Qed.

(** C3.  When the first post fails with status 401, 400 or 404 (whatever the
    body of a 404 says), [generateResponse] of either client posts exactly
    once, sleeps no delay and raises.  What the Mistral client raises is
    the classified error.  So is what the OpenAI client raises when the
    status is not 404, or when the body of the 404 carries a message that is
    a string; on a 404 whose message makes the test of the client raise, it
    fails, after the same single post, with the error of that test. *)
Theorem fatal_errors_single_attempt (messages : list Message) (o : Options)
    (http : nat -> HttpResult JSValue) (random : nat -> Q) (latency : decimal)
    (e : HttpError) (r : ErrorResponse) :
  http 0%nat = HttpFail e -> response e = Some r -> fatalStatus (status r) ->
  let tm := MistralClient.generateResponse messages o http random latency in
  let topen := OpenAIClient.generateResponse messages o http random in
  (attempts tm = 1%nat /\ delays tm = [] /\
   result tm = inl (MistralClient.classify (ThrownHttp e))) /\
  (attempts topen = 1%nat /\ delays topen = [] /\
   (exists raised, result topen = inl raised) /\
   (status r <> 404%Z ->
    result topen = inl (OpenAIClient.classify (ThrownHttp e))) /\
   (forall fields errorFields text,
      data r = JObj fields -> lookupLast "error" fields = JObj errorFields ->
      lookupLast "message" errorFields = JStr text ->
      result topen = inl (OpenAIClient.classify (ThrownHttp e))) /\
   (forall x, OpenAIClient.namesModel r = inl x ->
      result topen = inl (Failed (ThrownExn x)))).
Proof.
  intros Hhttp Hr Hst.
  unfold MistralClient.generateResponse, OpenAIClient.generateResponse, attempts.
  cbn [requests delays result].
  rewrite (retryLoop_stops _ _ _ http random e Hhttp
             (mistral_fatal_no_retry e r Hr Hst)).
  split; [simpl; auto |].
  pose proof (openai_fatal_no_retry e r Hr Hst) as Hopen.
  assert (Hloop :
    retryLoop OpenAIClient._shouldRetryRequest OpenAIClient.delayFor
      (OpenAIClient.buildRequest messages o) http random maxRetries
    = {| requests := [OpenAIClient.buildRequest messages o]; delays := [];
         result := inl (match OpenAIClient.namesModel r with
                        | inl x => ThrownExn x
                        | inr _ => ThrownHttp e
                        end) |}).
  { destruct (OpenAIClient.namesModel r) as [x | b].
    - exact (retryLoop_raises _ _ _ http random e x Hhttp Hopen).
    - exact (retryLoop_stops _ _ _ http random e Hhttp Hopen). }
  rewrite Hloop. cbn [requests delays result length].
  split; [reflexivity |]. split; [reflexivity |]. split; [eauto |].
  split; [| split].
  - intros Hne. rewrite (namesModel_other_status r Hne). reflexivity.
  - intros fields errorFields text Hd He Hm.
    destruct (namesModel_text r fields errorFields text Hd He Hm) as [b ->].
    reflexivity.
  - intros x ->. reflexivity.
Qed.

Definition unauthorized : HttpError :=
  {| response := Some {| status := 401; data := JNull |}; request := true;
     code := Some "ERR_BAD_REQUEST";
     message := "Request failed with status code 401" |}.

Definition missingModelBody : JSValue :=
  JObj [("error", JObj [("message", JStr "The model does not exist");
                        ("type", JStr "invalid_request_error")])].

Definition missingModel : HttpError :=
  {| response := Some {| status := 404; data := missingModelBody |};
     request := true; code := Some "ERR_BAD_REQUEST";
     message := "Request failed with status code 404" |}.

Lemma fatal_errors_single_attempt_witness :
  attempts (MistralClient.generateResponse [] noOptions
              (fun _ => HttpFail unauthorized) (fun _ => 0) (ofZ 0)) = 1%nat /\
  result (OpenAIClient.generateResponse [] noOptions
            (fun _ => HttpFail unauthorized) (fun _ => 0)) =
  inl AuthenticationFailed /\
  result (OpenAIClient.generateResponse [] noOptions
            (fun _ => HttpFail missingModel) (fun _ => 0)) =
  inl (Failed (ThrownHttp missingModel)).
Proof.
  pose proof (fatal_errors_single_attempt [] noOptions
                (fun _ => HttpFail unauthorized) (fun _ => 0) (ofZ 0)
                unauthorized {| status := 401; data := JNull |}
                eq_refl eq_refl (or_introl eq_refl))
    as [[Hm _] (_ & _ & _ & Ho & _)].
  pose proof (fatal_errors_single_attempt [] noOptions
                (fun _ => HttpFail missingModel) (fun _ => 0) (ofZ 0)
                missingModel {| status := 404; data := missingModelBody |}
                eq_refl eq_refl (or_intror (or_intror eq_refl)))
    as [_ (_ & _ & _ & _ & Hmodel & _)].
  split; [exact Hm |]. split.
  - apply Ho. discriminate.
  - exact (Hmodel _ _ _ eq_refl eq_refl eq_refl).
Defined.

End RetryProperties.

(* ===================================================================== *)
(** ** Properties of the outbound message list *)
(* ===================================================================== *)

Module MessageProperties.
Import JS Provider.

(** Every request of a retry loop is the one request the client built. *)
Lemma retryLoop_requests {A} (shouldRetry : HttpError -> exn + bool) delayFor req
    (http : nat -> HttpResult A) random :
  requests (retryLoop shouldRetry delayFor req http random maxRetries) <> [] /\
  Forall (fun r => r = req)
         (requests (retryLoop shouldRetry delayFor req http random maxRetries)).
Proof.
  destruct (RetryProperties.retryLoop_shape shouldRetry delayFor req http random)
    as [[-> _] | [[-> _] | [-> _]]]; split; try discriminate;
    repeat constructor.
Qed.

(** The system prompt without the inventory instruction: the configured
    prompt, else the language-aware one, else the generic one. *)
Definition basePrompt (o : Options) : JSValue :=
  if truthy (system_prompt o) then system_prompt o
  else if truthy (userLanguage o) then JStr languagePrompt
  else JStr defaultPrompt.

(** The list the specification describes: one system message, taken from
    the configured prompt if present, else the language-aware default, else
    the inventory-aware default (the first that applies), then the mapped
    history. *)
Definition specSystemPrompt (o : Options) : JSValue :=
  if truthy (system_prompt o) then system_prompt o
  else if truthy (userLanguage o) then JStr languagePrompt
  else JStr (defaultPrompt +:+ inventoryInstruction).

Definition specOutbound (messages : list Message) (o : Options) : list Message :=
  Msg (JStr "system") (specSystemPrompt o) :: map mapMessage messages.

(** The history, mapped: [bot] becomes [assistant], every other role
    becomes [user], the content is kept, the order too. *)
Lemma mapped_history (messages : list Message) :
  length (map mapMessage messages) = length messages /\
  forall i m, nth_error messages i = Some m ->
    exists m', nth_error (map mapMessage messages) i = Some m' /\
      content m' = content m /\
      (role m = JStr "bot" -> role m' = JStr "assistant") /\
      (role m <> JStr "bot" -> role m' = JStr "user").
Proof.
  split; [apply length_map |].
  intros i m Hm. exists (mapMessage m). split.
  - rewrite nth_error_map, Hm. reflexivity.
  - split; [reflexivity |]. split.
    + intros Hr. unfold mapMessage. rewrite Hr. reflexivity.
    + intros Hr. unfold mapMessage, strictEqStr. simpl.
      destruct (role m) as [| | | | s | |]; try reflexivity.
      destruct (String.eqb_spec s "bot") as [-> | Hne]; [congruence | reflexivity].
Qed.

Definition configured : Options :=
  {| model := JUndefined; temperature := JUndefined; max_tokens := JUndefined;
     system_prompt := JStr "Answer briefly."; userLanguage := JUndefined;
     inventoryAccess := JBool true; stream := JUndefined |}.

(** C7, as stated, fails: with a configured prompt and the inventory access
    the manager always sets, the system message of [generateResponse] is not
    the configured prompt but that prompt followed by the inventory
    instruction. *)
Lemma configured_prompt_is_extended :
  ~ (forall (messages : list Message) (o : Options)
            (http : nat -> HttpResult JSValue) (random : nat -> Q) (latency : decimal),
       Forall (fun r => rMessages r = specOutbound messages o)
              (requests (MistralClient.generateResponse messages o http random latency))).
Proof.
  intros H.
  specialize (H [] configured (fun _ => HttpOk JNull) (fun _ => 0%Q) (ofZ 0)).
  inversion H as [| r rs Hr _ Heq]. vm_compute in Hr. discriminate Hr.
Qed.

(** C7, amended.  Every request [generateResponse] of either client posts
    (there is at least one) carries exactly one system message followed by
    the mapped history.  The system message holds the base prompt (the
    configured one if present, else the language-aware default, else the
    generic default) and, when inventory access is set, the inventory
    instruction appended to it. *)
Theorem generate_outbound_messages (messages : list Message) (o : Options)
    (http : nat -> HttpResult JSValue) (random : nat -> Q) (latency : decimal) :
  let sent r :=
    exists prompt,
      rMessages r = Msg (JStr "system") prompt :: map mapMessage messages /\
      (truthy (inventoryAccess o) = false -> prompt = basePrompt o) /\
      (truthy (inventoryAccess o) = true ->
       prompt = JStr (toString (basePrompt o) +:+ inventoryInstruction)) in
  let tm := MistralClient.generateResponse messages o http random latency in
  let topen := OpenAIClient.generateResponse messages o http random in
  (requests tm <> [] /\ Forall sent (requests tm)) /\
  (requests topen <> [] /\ Forall sent (requests topen)).
Proof.
  intros sent tm topen.
  assert (Hm : sent (MistralClient.buildRequest messages o)).
  { exists (systemPrompt o). split; [reflexivity |].
    unfold systemPrompt, basePrompt.
    destruct (truthy (inventoryAccess o)); split; congruence. }
  assert (Ho : sent (OpenAIClient.buildRequest messages o)).
  { exists (systemPrompt o). split; [reflexivity |].
    unfold systemPrompt, basePrompt.
    destruct (truthy (inventoryAccess o)); split; congruence. }
  split.
  - destruct (retryLoop_requests MistralClient._shouldRetryRequest
                MistralClient.delayFor (MistralClient.buildRequest messages o)
                http random) as [Hne Hall].
    split; [exact Hne |].
    refine (List.Forall_impl _ _ Hall). intros r ->. exact Hm.
  - destruct (retryLoop_requests OpenAIClient._shouldRetryRequest
                OpenAIClient.delayFor (OpenAIClient.buildRequest messages o)
                http random) as [Hne Hall].
    split; [exact Hne |].
    refine (List.Forall_impl _ _ Hall). intros r ->. exact Ho.
Qed.

(** The streaming methods send the mapped history alone: no system
    message is built, whatever the options say. *)
Lemma streaming_sends_history_only (messages : list Message) (o : Options) :
  rMessages (MistralClient.buildStreamingRequest messages o) = map mapMessage messages /\
  rMessages (OpenAIClient.buildStreamingRequest messages o) = map mapMessage messages.
Proof. split; reflexivity. Qed.

End MessageProperties.

(* ===================================================================== *)
(** ** Properties of the streaming listeners *)
(* ===================================================================== *)

Module StreamProperties.
Import JS Provider.

(** *** Lines and chunks *)

Fixpoint hasNewline (s : string) : bool :=
  match s with
  | EmptyString => false
  | String c s' => Nat.eqb (byte c) 10 || hasNewline s'
  end.

Definition nonblank (line : string) : bool :=
  negb (String.eqb (trim line) EmptyString).

(** The text of a chunk that delivers the given lines, each one ended by a
    line feed. *)
Fixpoint joinLines (lines : list string) : string :=
  match lines with
  | [] => EmptyString
  | l :: ls => l +:+ nl +:+ joinLines ls
  end.

Lemma splitLines_line (l rest : string) :
  hasNewline l = false ->
  splitLines (l +:+ nl +:+ rest) = l :: splitLines rest.
Proof.
  induction l as [| c l IH]; intros Hl.
  - reflexivity.
  - simpl in Hl. apply orb_false_iff in Hl as [Hc Hl].
    change (String c l +:+ nl +:+ rest) with (String c (l +:+ nl +:+ rest)).
    cbn [splitLines]. rewrite Hc, (IH Hl). reflexivity.
Qed.

Lemma chunkLines_joinLines (lines : list string) :
  Forall (fun l => hasNewline l = false) lines ->
  chunkLines (joinLines lines) = List.filter nonblank lines.
Proof.
  unfold chunkLines. induction 1 as [| l ls Hl _ IH].
  - reflexivity.
  - cbn [joinLines]. rewrite (splitLines_line _ _ Hl). cbn [List.filter].
    rewrite IH. reflexivity.
Qed.

(** *** Delta lines *)

(** A data line that carries a JSON payload with a truthy content delta
    [c], and does not spell the terminator. *)
Inductive deltaLineOf (c : JSValue) (line : string) : Prop :=
| delta_line (payload : string) (parsed : JSValue) :
    line = "data: " +:+ payload ->
    includes "[DONE]" payload = false ->
    JSON.parseText (trim payload) = Some parsed ->
    deltaContent parsed = inr c ->
    truthy c = true ->
    deltaLineOf c line.

Lemma trim_after_space (p : string) : trim (" " +:+ p) = trim p.
Proof. reflexivity. Qed.

Lemma mistral_onLine_delta (c : JSValue) (line : string) :
  deltaLineOf c line -> MistralClient.onLine line = [Content c].
Proof.
  intros [payload parsed -> _ Hparse Hc Ht].
  unfold MistralClient.onLine.
  change (includes "data:" ("data: " +:+ payload)) with true.
  change (replaceFirst "data:" EmptyString ("data: " +:+ payload))
    with (" " +:+ payload).
  cbv iota. rewrite trim_after_space.
  destruct (String.eqb_spec (trim payload) "[DONE]") as [Heq | _].
  - rewrite Heq in Hparse. discriminate Hparse.
  - rewrite Hparse, Hc, Ht. reflexivity.
Qed.

Lemma includes_after_data (payload : string) :
  includes "[DONE]" ("data: " +:+ payload) = includes "[DONE]" payload.
Proof. reflexivity. Qed.

Lemma stripPrefix_data (payload : string) :
  stripPrefix "data: " ("data: " +:+ payload) = payload.
Proof. destruct payload; reflexivity. Qed.

Lemma openai_onLines_delta (c : JSValue) (line : string) (rest : list string) :
  deltaLineOf c line ->
  OpenAIClient.onLines (line :: rest) = Content c :: OpenAIClient.onLines rest.
Proof.
  intros [payload parsed -> Hnot Hparse Hc Ht].
  cbn [OpenAIClient.onLines]. rewrite includes_after_data, Hnot.
  rewrite stripPrefix_data, Hparse, Hc, Ht. reflexivity.
Qed.

(** The lines of a stream of three deltas and the terminator, blank lines
    anywhere between them. *)
Definition threeThenDone (l1 l2 l3 : string) (lines : list string) : Prop :=
  Forall (fun l => hasNewline l = false) lines /\
  List.filter nonblank lines = [l1; l2; l3; "data: [DONE]"].

(** On a chunk of three delta lines and the terminator, the ['data']
    listener of either client calls the sink three times with content and
    then once with the completion signal. *)
Lemma data_listener_three_then_done (l1 l2 l3 : string) (c1 c2 c3 : JSValue)
    (lines : list string) :
  threeThenDone l1 l2 l3 lines ->
  deltaLineOf c1 l1 -> deltaLineOf c2 l2 -> deltaLineOf c3 l3 ->
  MistralClient.onData (joinLines lines) = [Content c1; Content c2; Content c3; Done] /\
  OpenAIClient.onData (joinLines lines) = [Content c1; Content c2; Content c3; Done].
Proof.
  intros [Hnl Hlines] H1 H2 H3.
  unfold MistralClient.onData, OpenAIClient.onData.
  rewrite (chunkLines_joinLines lines Hnl), Hlines. split.
  - cbn [flat_map]. rewrite (mistral_onLine_delta c1 l1 H1),
      (mistral_onLine_delta c2 l2 H2), (mistral_onLine_delta c3 l3 H3).
    reflexivity.
  - rewrite (openai_onLines_delta c1 l1 _ H1), (openai_onLines_delta c2 l2 _ H2),
      (openai_onLines_delta c3 l3 _ H3). reflexivity.
Qed.

(** The whole stream, delivered in one chunk: the Mistral client passes the
    four calls on; the OpenAI client adds a second completion signal when
    the stream ends. *)
Lemma stream_three_then_done (l1 l2 l3 : string) (c1 c2 c3 : JSValue)
    (lines : list string) (messages : list Message) (o : Options)
    (http : nat -> HttpResult (list string)) (random : nat -> Q) :
  threeThenDone l1 l2 l3 lines ->
  deltaLineOf c1 l1 -> deltaLineOf c2 l2 -> deltaLineOf c3 l3 ->
  http 0%nat = HttpOk [joinLines lines] ->
  result (MistralClient.generateStreamingResponse messages o http random)
  = inr [Content c1; Content c2; Content c3; Done] /\
  result (OpenAIClient.generateStreamingResponse messages o http random)
  = [Content c1; Content c2; Content c3; Done; Done].
Proof.
  intros Hlines H1 H2 H3 Hhttp.
  destruct (data_listener_three_then_done l1 l2 l3 c1 c2 c3 lines Hlines H1 H2 H3)
    as [Hm Ho].
  unfold MistralClient.generateStreamingResponse,
    OpenAIClient.generateStreamingResponse.
  rewrite !(RetryProperties.retryLoop_succeeds _ _ _ http random _ Hhttp).
  cbn [result flat_map]. rewrite Hm, Ho. split; reflexivity.
Qed.

(** A server-sent line [data: {"choices":[{"delta":{"content":"<text>"}}]}]. *)
Definition deltaPayload (text : string) : string :=
  "{" +:+ dq +:+ "choices" +:+ dq +:+ ":[{" +:+ dq +:+ "delta" +:+ dq +:+ ":{" +:+
  dq +:+ "content" +:+ dq +:+ ":" +:+ dq +:+ text +:+ dq +:+ "}}]}".

Definition deltaLine (text : string) : string := "data: " +:+ deltaPayload text.

(** Three delta lines and the terminator, blank lines between the events. *)
Definition threeDeltas : string :=
  deltaLine "Hel" +:+ nl +:+ nl +:+ deltaLine "lo" +:+ nl +:+ nl +:+
  deltaLine "!" +:+ nl +:+ nl +:+ "data: [DONE]" +:+ nl +:+ nl.

Lemma threeDeltas_lines :
  threeDeltas =
  joinLines [deltaLine "Hel"; EmptyString; deltaLine "lo"; EmptyString;
             deltaLine "!"; EmptyString; "data: [DONE]"; EmptyString].
Proof. reflexivity. Qed.

Lemma deltaLine_carries (text : string) (c : JSValue) :
  includes "[DONE]" (deltaPayload text) = false ->
  JSON.parseText (trim (deltaPayload text))
  = Some (JObj [("choices", JArr [JObj [("delta", JObj [("content", c)])]])]) ->
  truthy c = true ->
  deltaLineOf c (deltaLine text).
Proof.
  intros Hnot Hparse Ht.
  apply (delta_line c (deltaLine text) (deltaPayload text) _ eq_refl Hnot Hparse);
    [reflexivity | exact Ht].
Qed.

Lemma deltaLine_sample (text : string) :
  includes "[DONE]" (deltaPayload text) = false ->
  JSON.parseText (trim (deltaPayload text))
  = Some (JObj [("choices", JArr [JObj [("delta", JObj [("content", JStr text)])]])]) ->
  text <> EmptyString ->
  deltaLineOf (JStr text) (deltaLine text).
Proof.
  intros Hnot Hparse Hne. apply deltaLine_carries; [exact Hnot | exact Hparse |].
  simpl. destruct (String.eqb_spec text EmptyString); [contradiction | reflexivity].
Qed.

Lemma stream_three_then_done_sample :
  result (OpenAIClient.generateStreamingResponse [] noOptions
            (fun _ => HttpOk [threeDeltas]) (fun _ => 0%Q))
  = [Content (JStr "Hel"); Content (JStr "lo"); Content (JStr "!"); Done; Done].
Proof.
  assert (H1 : deltaLineOf (JStr "Hel") (deltaLine "Hel"))
    by (apply deltaLine_sample; [vm_compute; reflexivity .. | discriminate]).
  assert (H2 : deltaLineOf (JStr "lo") (deltaLine "lo"))
    by (apply deltaLine_sample; [vm_compute; reflexivity .. | discriminate]).
  assert (H3 : deltaLineOf (JStr "!") (deltaLine "!"))
    by (apply deltaLine_sample; [vm_compute; reflexivity .. | discriminate]).
  assert (Hlines : threeThenDone (deltaLine "Hel") (deltaLine "lo") (deltaLine "!")
            [deltaLine "Hel"; EmptyString; deltaLine "lo"; EmptyString;
             deltaLine "!"; EmptyString; "data: [DONE]"; EmptyString])
    by (split; [repeat constructor | vm_compute; reflexivity]).
  exact (proj2 (stream_three_then_done _ _ _ _ _ _ _ [] noOptions
                  (fun _ => HttpOk [threeDeltas]) (fun _ => 0%Q)
                  Hlines H1 H2 H3 (f_equal (fun c => HttpOk [c]) threeDeltas_lines))).
Qed.

(** C9 (the OpenAI client).  On a stream that delivers three delta lines
    and the [[DONE]] line and then ends, the Mistral client calls the sink
    three times with content and once with the completion signal; the
    OpenAI client signals completion twice, once from the ['data'] listener
    on the [[DONE]] line and once more from the ['end'] listener. *)
Theorem openai_signals_done_twice :
  result (MistralClient.generateStreamingResponse [] noOptions
            (fun _ => HttpOk [threeDeltas]) (fun _ => 0%Q)) =
    inr [Content (JStr "Hel"); Content (JStr "lo"); Content (JStr "!"); Done] /\
  OpenAIClient.onData threeDeltas =
    [Content (JStr "Hel"); Content (JStr "lo"); Content (JStr "!"); Done] /\
  result (OpenAIClient.generateStreamingResponse [] noOptions
            (fun _ => HttpOk [threeDeltas]) (fun _ => 0%Q)) =
    [Content (JStr "Hel"); Content (JStr "lo"); Content (JStr "!"); Done; Done].
Proof. vm_compute. repeat split. Qed.

End StreamProperties.

(* ===================================================================== *)
(** ** Properties of the provider selection *)
(* ===================================================================== *)

Module SelectionProperties.
Import JS AIClientManager.

(** A configuration whose [ai.provider] is [p]. *)
Definition naming (p : JSValue) : JSValue :=
  JObj [("ai", JObj [("provider", p)])].

(** The registry of the exported manager has two names of its own. *)
Lemma manager_clients (name : string) :
  clients manager !! name
  = if String.eqb name "mistral" then Some Mistral
    else if String.eqb name "openai" then Some OpenAI else None.
Proof.
  unfold manager. cbn [clients].
  destruct (String.eqb_spec name "mistral") as [-> | Hm];
    [apply lookup_insert_eq |].
  rewrite lookup_insert_ne by congruence.
  destruct (String.eqb_spec name "openai") as [-> | Ho];
    [apply lookup_insert_eq |].
  rewrite lookup_insert_ne by congruence. apply lookup_empty.
Qed.

Lemma getClient_naming (name : string) :
  name <> EmptyString ->
  getClient manager (naming (JStr name))
  = inr (match lookupClient manager (toLowerCase name) with
         | NoEntry => Registered Mistral
         | found => found
         end).
Proof.
  intros Hname. unfold getClient, naming, providerOf.
  cbn [truthy negb getPropOpt getProp lookupLast fold_left fst snd].
  change (String.eqb "ai" "ai") with true. cbv iota.
  cbn [truthy negb getPropOpt getProp lookupLast fold_left fst snd].
  change (String.eqb "provider" "provider") with true. cbv iota.
  cbn [truthy]. destruct (String.eqb_spec name EmptyString) as [? | _];
    [contradiction |].
  cbn [negb]. destruct (lookupClient manager (toLowerCase name)); reflexivity.
Qed.

(** C10 (a name the registry inherits, and a provider that is no
    string).  The registry is a plain object, so that under [constructor]
    and [__proto__], in any letter case, it yields what it inherits from
    [Object.prototype]: for a configuration that names such a provider,
    which is not registered, [getClient] returns that value and not the
    default client, and a call through the manager is rejected with a
    [TypeError] before any request is made.  A provider that is truthy and
    no string makes [getClient] itself raise.  Every other configuration
    is served as the claim says: the default client when no provider is
    named or the name is neither registered nor inherited, the registered
    client otherwise. *)
Theorem inherited_name_is_not_the_default :
  (forall name,
     toLowerCase name = "constructor" \/ toLowerCase name = "__proto__" ->
     clients manager !! toLowerCase name = None /\
     getClient manager (naming (JStr name)) = inr (Inherited (toLowerCase name)) /\
     getClient manager (naming (JStr name)) <> inr (Registered Mistral) /\
     forall messages http random latency,
       generateResponse manager messages (naming (JStr name)) http random latency
       = noTrace (inl (Raised (TypeError "generateResponse")))) /\
  (forall p,
     truthy p = true -> (forall name, p <> JStr name) ->
     getClient manager (naming p) = inl (TypeError "toLowerCase")) /\
  (forall p, truthy p = false ->
     getClient manager (naming p) = inr (Registered Mistral)) /\
  getClient manager JUndefined = inr (Registered Mistral) /\
  getClient manager (JObj []) = inr (Registered Mistral) /\
  (forall name,
     name <> EmptyString ->
     (toLowerCase name = "mistral" ->
      getClient manager (naming (JStr name)) = inr (Registered Mistral)) /\
     (toLowerCase name = "openai" ->
      getClient manager (naming (JStr name)) = inr (Registered OpenAI)) /\
     (clients manager !! toLowerCase name = None ->
      existsb (String.eqb (toLowerCase name)) inheritedNames = false ->
      getClient manager (naming (JStr name)) = inr (Registered Mistral))).
Proof.
  split; [| split; [| split; [| split; [| split]]]].
  - intros name Hlow.
    assert (Hname : name <> EmptyString)
      by (intros ->; destruct Hlow as [H | H]; discriminate H).
    assert (Hentry : clients manager !! toLowerCase name = None /\
                     lookupClient manager (toLowerCase name)
                     = Inherited (toLowerCase name)).
    { unfold lookupClient. rewrite manager_clients.
      destruct Hlow as [-> | ->]; split; reflexivity. }
    destruct Hentry as [Hnone Hlookup].
    assert (Hget : getClient manager (naming (JStr name))
                   = inr (Inherited (toLowerCase name)))
      by (rewrite (getClient_naming name Hname), Hlookup; reflexivity).
    split; [exact Hnone |]. split; [exact Hget |].
    split; [rewrite Hget; discriminate |].
    intros messages http random latency.
    unfold generateResponse, naming in *. cbv beta iota zeta.
    rewrite Hget. reflexivity.
  - intros p Hp Hstr. unfold getClient, naming, providerOf.
    cbn [truthy negb getPropOpt getProp lookupLast fold_left fst snd].
    change (String.eqb "ai" "ai") with true. cbv iota.
    cbn [truthy negb getPropOpt getProp lookupLast fold_left fst snd].
    change (String.eqb "provider" "provider") with true. cbv iota.
    rewrite Hp. cbn [negb].
    destruct p; try reflexivity; try discriminate Hp.
    exfalso. exact (Hstr _ eq_refl).
  - intros p Hp. unfold getClient, naming, providerOf.
    cbn [truthy negb getPropOpt getProp lookupLast fold_left fst snd].
    change (String.eqb "ai" "ai") with true. cbv iota.
    cbn [truthy negb getPropOpt getProp lookupLast fold_left fst snd].
    change (String.eqb "provider" "provider") with true. cbv iota.
    rewrite Hp. reflexivity.
  - reflexivity.
  - reflexivity.
  - intros name Hname. rewrite (getClient_naming name Hname).
    unfold lookupClient. rewrite manager_clients.
    split; [intros ->; reflexivity |]. split; [intros ->; reflexivity |].
    intros Hnone Hinh.
    destruct (String.eqb (toLowerCase name) "mistral"); [discriminate Hnone |].
    destruct (String.eqb (toLowerCase name) "openai"); [discriminate Hnone |].
    rewrite Hinh. reflexivity.
Qed.

Lemma inherited_name_is_not_the_default_witness :
  getClient manager (naming (JStr "Constructor")) = inr (Inherited "constructor") /\
  getClient manager (naming (JNum (ofZ 1))) = inl (TypeError "toLowerCase") /\
  getClient manager (naming (JStr "claude")) = inr (Registered Mistral) /\
  getClient manager (naming (JStr "OpenAI")) = inr (Registered OpenAI).
Proof.
  destruct inherited_name_is_not_the_default
    as (Hinherited & Hother & _ & _ & _ & Hnamed).
  split; [| split; [| split]].
  - destruct (Hinherited "Constructor" (or_introl eq_refl)) as (_ & Hget & _).
    exact Hget.
  - apply Hother; [reflexivity | discriminate].
  - destruct (Hnamed "claude" ltac:(discriminate)) as (_ & _ & Hfallback).
    apply Hfallback; reflexivity.
  - destruct (Hnamed "OpenAI" ltac:(discriminate)) as (_ & Hopenai & _).
    apply Hopenai. reflexivity.
Defined.

End SelectionProperties.

(* ===================================================================== *)
(** ** Properties of the order operations *)
(* ===================================================================== *)

Module OrderProperties.
Import JS Provider Inventory NumberProperties.

(** *** The comparison of numbers *)

Lemma leb_ofZ (a b : Z) : leb (ofZ a) (ofZ b) = (a <=? b)%Z.
Proof.
  unfold leb, cmp, scaled, ofZ. simpl. rewrite !Z.mul_1_r.
  unfold Z.leb. destruct (a ?= b)%Z; reflexivity.
Qed.

Lemma ltb_ofZ (a b : Z) : ltb (ofZ a) (ofZ b) = (a <? b)%Z.
Proof.
  unfold ltb, cmp, scaled, ofZ. simpl. rewrite !Z.mul_1_r.
  unfold Z.ltb. destruct (a ?= b)%Z; reflexivity.
Qed.

(** [a < b] excludes [b <= a]. *)
Lemma ltb_not_leb (a b : decimal) : ltb a b = true -> leb b a = false.
Proof.
  unfold ltb, leb, cmp. rewrite (Z.min_comm (expo b) (expo a)).
  rewrite (Z.compare_antisym (scaled a _) (scaled b _)).
  destruct (scaled a _ ?= scaled b _)%Z; simpl; congruence.
Qed.

(** *** The store *)

Lemma onSave_inr {A} (r : StoreError + A) (a : A) : onSave r = inr a -> r = inr a.
Proof. destruct r; [discriminate | exact id]. Qed.


(** A quantity the schema accepts is the number the comparison sees. *)
Lemma castQty_toNumber (v : JSValue) (n : number) :
  castQty v = inr n -> toNumber v = n /\ numLeb (Fin (ofZ 1)) n = true.
Proof.
  unfold castQty.
  destruct v as [| | b | d | s | l | f]; try discriminate.
  - destruct (toNumber (JBool b)) as [q | | |] eqn:Hn; try discriminate;
      match goal with |- context [numLeb ?a ?b] => destruct (numLeb a b) eqn:Hq end;
      try discriminate; intros [= <-]; auto.
  - cbn [toNumber].
    destruct (numLeb (Fin (ofZ 1)) (Fin d)) eqn:Hq; [| discriminate].
    intros [= <-]. auto.
  - destruct s as [| c s']; [discriminate |].
    destruct (toNumber (JStr (String c s'))) as [q | | |] eqn:Hn; try discriminate;
      match goal with |- context [numLeb ?a ?b] => destruct (numLeb a b) eqn:Hq end;
      try discriminate; intros [= <-]; auto.
Qed.

Lemma geValue_cast (a : number) (v : JSValue) (n : number) :
  geValue a v = true -> castQty v = inr n -> numLeb n a = true.
Proof.
  intros Hge Hcast. apply castQty_toNumber in Hcast as [Hn _].
  unfold geValue in Hge. rewrite Hn in Hge. exact Hge.
Qed.

(** What [create] stores is what the schema makes of the values given. *)
Lemma createOrder_inv (db : DB) (fresh : string)
    (botId name qty query userId : JSValue) (sessionId : StoreError + JSValue)
    (st : Status) (o : Order) (db' : DB) :
  createOrder db fresh botId name qty query userId sessionId st = inr (o, db') ->
  orders db' = orders db ++ [o] /\ products db' = products db /\
  oId o = fresh /\ oStatus o = st /\ castId botId = inr (oBotId o) /\
  castQty qty = inr (requestedQty o).
Proof.
  unfold createOrder.
  destruct (onSave (castId botId)) as [e1 | b] eqn:H1,
           (onSave (castRequiredString name)) as [e2 | n] eqn:H2,
           (onSave (castQty qty)) as [e3 | q] eqn:H3,
           (onSave (castRequiredText query)) as [e4 | u] eqn:H4,
           (onSave (castOptionalString userId)) as [e5 | user] eqn:H5,
           (onSave sessionId) as [e6 | session] eqn:H6; try discriminate.
  intros [= <- <-]. cbn.
  apply onSave_inr in H1, H3. auto 10.
Qed.

(** The paths of the order the two routes do not compute with. *)
Lemma createOrder_fields (db : DB) (fresh : string)
    (botId name qty query userId : JSValue) (sessionId : StoreError + JSValue)
    (st : Status) (o : Order) (db' : DB) :
  createOrder db fresh botId name qty query userId sessionId st = inr (o, db') ->
  db' = setOrders db (orders db ++ [o]) /\
  castRequiredString name = inr (oProductName o) /\
  castRequiredText query = inr (userQuery o) /\
  castOptionalString userId = inr (oUserId o) /\
  sessionId = inr (oSessionId o) /\ notes o = JUndefined.
Proof.
  unfold createOrder.
  destruct (onSave (castId botId)) as [e1 | b] eqn:H1,
           (onSave (castRequiredString name)) as [e2 | n] eqn:H2,
           (onSave (castQty qty)) as [e3 | q] eqn:H3,
           (onSave (castRequiredText query)) as [e4 | u] eqn:H4,
           (onSave (castOptionalString userId)) as [e5 | user] eqn:H5,
           (onSave sessionId) as [e6 | session] eqn:H6; try discriminate.
  intros [= <- <-]. cbn.
  apply onSave_inr in H2, H4, H5, H6. auto 10.
Qed.


(** A stock that is saved is the stock given, and it is not negative. *)
Lemma validStock_inr (n stock : number) :
  validStock n = inr stock -> stock = n /\ numLeb zero n = true.
Proof.
  unfold validStock.
  destruct n; try discriminate;
    (destruct (numLeb zero _) eqn:H; [intros [= <-]; auto | discriminate]).
Qed.

(** Saving the record just created replaces it, and nothing else appears. *)
Lemma saveOrder_replaces (db : DB) (l : list Order) (o0 o' x : Order) :
  orders db = l ++ [o0] -> oId o' = oId o0 ->
  In x (orders (saveOrder db o')) -> x = o' \/ In x l.
Proof.
  intros Hl Hid. unfold saveOrder. simpl. rewrite Hl, map_app.
  intros Hx. apply in_app_or in Hx as [Hx | Hx].
  - apply in_map_iff in Hx as (y & Hy & Hin).
    destruct (String.eqb (oId y) (oId o')); subst; auto.
  - simpl in Hx. rewrite <- Hid, String.eqb_refl in Hx.
    destruct Hx as [<- | []]. auto.
Qed.

(** Between zero and a number that is above it there is no zero. *)
Lemma above_positive (a b : number) :
  numLt zero a -> numLt a b -> numLt zero b.
Proof.
  destruct a as [x | | |], b as [y | | |]; cbn; try tauto.
  intros H0 H1. exact (Qlt_trans _ _ _ H0 H1).
Qed.

(** A value that converts to a number above a positive number is truthy. *)
Lemma above_positive_truthy (a : number) (v : JSValue) :
  numLt zero a -> numLt a (toNumber v) -> truthy v = true.
Proof.
  intros Ha Hlt. pose proof (above_positive _ _ Ha Hlt) as Hq.
  destruct v as [| | [|] | d | s | l | f]; try reflexivity.
  - exact (False_ind _ Hq).
  - exfalso. vm_compute in Hq. discriminate Hq.
  - exfalso. vm_compute in Hq. discriminate Hq.
  - cbn [toNumber] in Hq. apply numLt_zero in Hq as [Hq | (d' & [= <-] & Hq)];
      [discriminate Hq |].
    apply isPositive_lt in Hq. unfold isPositive in Hq. apply Z.ltb_lt in Hq.
    cbn [truthy]. unfold isZero.
    destruct (Z.eqb_spec (mant d) 0); [lia | reflexivity].
  - destruct s; [| reflexivity].
    exfalso. vm_compute in Hq. discriminate Hq.
Qed.

Lemma find_updateFirst {A} (test : A -> bool) (f : A -> A) (l : list A) (x : A) :
  find test l = Some x ->
  exists l1 l2, l = l1 ++ x :: l2 /\ updateFirst test f l = l1 ++ f x :: l2 /\
                test x = true /\ Forall (fun y => test y = false) l1.
Proof.
  induction l as [| y l IH]; simpl; [discriminate |].
  destruct (test y) eqn:Hy.
  - intros [= <-]. exists [], l. auto.
  - intros Hfind. destruct (IH Hfind) as (l1 & l2 & -> & -> & Hx & Hall).
    exists (y :: l1), l2. auto.
Qed.

(** *** The two order operations *)

(** A stand-in for the fuzzy matcher in examples: the products whose name
    is the query, letter case apart. *)
Definition sampleSearch (products : list Product) (query : JSValue) : list Product :=
  List.filter (fun p => String.eqb (toLowerCase (productName p))
                                   (toLowerCase (toString query))) products.

Definition printer : Product :=
  {| pBotId := "bot1"; productName := "Printer"; sku := "PR-1";
     availableStock := Fin (ofZ 10); unit := "pcs" |}.

Definition phone : Product :=
  {| pBotId := "bot1"; productName := "Mobile Phone"; sku := "MP-1";
     availableStock := Fin (ofZ 1); unit := "pcs" |}.

Definition shop : DB :=
  {| configs := <["bot1" := {| inventoryEnabled := JBool true |}]> ∅;
     sessions := <["s1" := {| configId := "bot1"; sUserId := "u1" |}]> ∅;
     products := [printer; phone];
     orders := [] |}.

Definition orderBody (name : string) (qty : Z) : list (string * JSValue) :=
  [("botId", JStr "bot1"); ("productName", JStr name);
   ("requestedQty", JNum (ofZ qty)); ("userQuery", JStr "order, please");
   ("userId", JStr "u1")].

Definition orderIntent (name : string) (qty : Z) : JSValue :=
  JObj [("intent", JStr "order_intent"); ("productName", JStr name);
        ("quantity", JNum (ofZ qty))].

Section Operations.

Variable fuzzySearch : list Product -> JSValue -> list Product.

(** The catalog item an order operation matches: the first result of the
    search over the products of the bot. *)
Definition matched (db : DB) (bot : string) (name : JSValue) : option Product :=
  head (fuzzySearch (findProducts db bot) name).

Lemma postOrder_inv (db : DB) (fresh : string) (body : list (string * JSValue))
    (o : Order) (db' : DB) :
  postOrder fuzzySearch db fresh body = (Answered o, db') ->
  exists o0 db1,
    createOrder db fresh (lookupLast "botId" body)
      (match matched db (oBotId o) (lookupLast "productName" body) with
       | Some p => JStr (productName p)
       | None => lookupLast "productName" body
       end)
      (lookupLast "requestedQty" body) (lookupLast "userQuery" body)
      (lookupLast "userId" body) (castOptionalId (lookupLast "sessionId" body))
      pending
    = inr (o0, db1) /\
    ((exists p, matched db (oBotId o) (lookupLast "productName" body) = Some p /\
                geValue (availableStock p) (lookupLast "requestedQty" body) = true /\
                o = withStatus o0 confirmed /\ db' = saveOrder db1 o) \/
     ((forall p, matched db (oBotId o) (lookupLast "productName" body) = Some p ->
                 geValue (availableStock p) (lookupLast "requestedQty" body) = false) /\
      o = o0 /\ db' = db1)).
Proof.
  unfold postOrder, matched.
  destruct (_ || _); [discriminate |].
  destruct (castId (lookupLast "botId" body)) as [e | bot] eqn:Hbot;
    [destruct (findConfig db (lookupLast "botId" body)); discriminate |].
  destruct (findConfig db (lookupLast "botId" body)) as [e | [cfg |]];
    try discriminate.
  destruct (negb (truthy (inventoryEnabled cfg))); [discriminate |].
  destruct (createOrder _ _ _ _ _ _ _ _ _) as [e | [o0 db1]] eqn:Hcreate;
    [discriminate |].
  pose proof (createOrder_inv _ _ _ _ _ _ _ _ _ _ _ Hcreate)
    as (_ & _ & _ & _ & Hid & _).
  rewrite Hbot in Hid. injection Hid as Hid.
  destruct (head (fuzzySearch (findProducts db bot) (lookupLast "productName" body)))
    as [p |] eqn:Hhead.
  - destruct (geValue (availableStock p) (lookupLast "requestedQty" body)) eqn:Hge;
      intros [= <- <-]; simpl oBotId; rewrite <- Hid, Hhead;
      exists o0, db1; (split; [exact Hcreate |]).
    + left. exists p. auto.
    + right. split; [| auto]. intros q [= <-]. exact Hge.
  - intros [= <- <-]. rewrite <- Hid, Hhead.
    exists o0, db1. split; [exact Hcreate |]. right. split; [| auto].
    intros q Hq. discriminate Hq.
Qed.

(** The intent route changes the store only in the order branch, by one
    [create] with status [confirmed], after the stock test succeeded. *)
Lemma processIntent_inv (db : DB) (fresh : string) (botId message userId : JSValue)
    (sid : string) (intentData : JSValue) (r : Reply Template) (db' : DB) :
  processIntent fuzzySearch db fresh botId message userId sid intentData = (r, db') ->
  db' = db \/
  exists o p bot,
    castId botId = inr bot /\
    matched db bot (getPropOpt intentData "productName") = Some p /\
    geValue (availableStock p) (getPropOpt intentData "quantity") = true /\
    createOrder db fresh botId (JStr (productName p))
      (getPropOpt intentData "quantity") message userId (inr (JStr sid)) confirmed
    = inr (o, db') /\
    r = Answered (OrderConfirmed (getPropOpt intentData "quantity") p).
Proof.
  unfold processIntent, matched. intros H.
  repeat case_match; simplify_eq; auto.
  right. eexists _, _, _. repeat split; eauto.
  match goal with
  | Hf : findProducts _ _ = _, Hs : fuzzySearch _ _ = _ |- _ => rewrite Hf, Hs
  end. reflexivity.
Qed.

(** C1.  Both order operations confirm an order only on sufficient stock.
    The record the order route answers with is [confirmed] or [pending],
    and [confirmed] only if the search matched a catalog item whose
    [availableStock] is at least the requested quantity, as the route
    compares them and as the record stores it; the route stores nothing
    else.  The intent route stores at most one record, with status
    [confirmed], and only after the same test succeeded. *)
Theorem order_confirmed_only_with_stock :
  (forall db fresh body o db',
     postOrder fuzzySearch db fresh body = (Answered o, db') ->
     (oStatus o = confirmed \/ oStatus o = pending) /\
     (oStatus o = confirmed ->
      exists p,
        matched db (oBotId o) (lookupLast "productName" body) = Some p /\
        geValue (availableStock p) (lookupLast "requestedQty" body) = true /\
        numLe (requestedQty o) (availableStock p)) /\
     (forall x, In x (orders db') -> x = o \/ In x (orders db))) /\
  (forall db fresh botId message userId sid intentData r db',
     processIntent fuzzySearch db fresh botId message userId sid intentData
     = (r, db') ->
     orders db' = orders db \/
     exists o p bot,
       orders db' = orders db ++ [o] /\ oStatus o = confirmed /\
       castId botId = inr bot /\
       matched db bot (getPropOpt intentData "productName") = Some p /\
       geValue (availableStock p) (getPropOpt intentData "quantity") = true /\
       numLe (requestedQty o) (availableStock p)).
Proof.
  split.
  - intros db fresh body o db' Hrun.
    destruct (postOrder_inv _ _ _ _ _ Hrun) as (o0 & db1 & Hcreate & Hcase).
    pose proof (createOrder_inv _ _ _ _ _ _ _ _ _ _ _ Hcreate)
      as (Horders & _ & _ & Hst & _ & Hqty).
    destruct Hcase as [(p & Hm & Hge & -> & ->) | (Hno & -> & ->)].
    + split; [left; reflexivity |]. split.
      * intros _. exists p. repeat split; auto.
        apply numLeb_le, (geValue_cast _ _ _ Hge Hqty).
      * intros x Hx.
        apply (saveOrder_replaces db1 (orders db) o0 (withStatus o0 confirmed) x
                 Horders eq_refl) in Hx. exact Hx.
    + split; [right; exact Hst |]. split.
      * rewrite Hst. discriminate.
      * intros x Hx. rewrite Horders in Hx.
        apply in_app_or in Hx as [Hx | [<- | []]]; auto.
  - intros db fresh botId message userId sid intentData r db' Hrun.
    destruct (processIntent_inv _ _ _ _ _ _ _ _ _ Hrun)
      as [-> | (o & p & bot & Hbot & Hm & Hge & Hcreate & _)]; [auto |].
    pose proof (createOrder_inv _ _ _ _ _ _ _ _ _ _ _ Hcreate)
      as (Horders & _ & _ & Hst & _ & Hqty).
    right. exists o, p, bot. repeat split; auto.
    apply numLeb_le, (geValue_cast _ _ _ Hge Hqty).
Qed.

(** C5.  In the order branch of the intent route, when the matched catalog
    item has a stock above zero and below the requested quantity, the
    answer is the "only N available" template, rendered with the stock,
    and the store is unchanged: no order record is created. *)
Theorem partial_stock_creates_no_order (db : DB) (fresh : string)
    (botId message userId : JSValue) (sid bot : string) (intentData : JSValue)
    (p : Product) :
  getProp intentData "intent" = inr (JStr "order_intent") ->
  truthy (getPropOpt intentData "productName") = true ->
  castId botId = inr bot ->
  findProducts db bot <> [] ->
  matched db bot (getPropOpt intentData "productName") = Some p ->
  numLt zero (availableStock p) ->
  numLt (availableStock p) (toNumber (getPropOpt intentData "quantity")) ->
  processIntent fuzzySearch db fresh botId message userId sid intentData
  = (Answered (OnlyAvailable p), db) /\
  render false (OnlyAvailable p)
  = "I'm sorry, only " +:+ numToString (availableStock p) +:+ " " +:+ unit p +:+
    " of " +:+ productName p +:+
    " are available. Would you like to order a smaller quantity?".
Proof.
  intros Hintent Hname Hbot Hcat Hmatch Hpos Hlt.
  split; [| reflexivity].
  pose proof (above_positive_truthy _ _ Hpos Hlt) as Hqty.
  apply (proj2 (numLtb_lt _ _)) in Hpos.
  assert (Hge : geValue (availableStock p) (getPropOpt intentData "quantity") = false).
  { unfold geValue. apply numLtb_not_leb, numLtb_lt, Hlt. }
  unfold processIntent, matched in *.
  rewrite Hintent, Hbot, Hname, Hqty.
  change (strictEqStr (JStr "order_intent") "inventory_check") with false.
  change (strictEqStr (JStr "order_intent") "order_intent") with true.
  cbn [andb].
  destruct (findProducts db bot) as [| p0 ps] eqn:Hps; [congruence |].
  destruct (fuzzySearch (p0 :: ps) (getPropOpt intentData "productName"))
    as [| p1 rest]; [discriminate |].
  injection Hmatch as ->. rewrite Hge, Hpos. reflexivity.
Qed.

(** The product an order-status update looks up: same bot, same name. *)
Definition orderedProduct (o : Order) (p : Product) : bool :=
  String.eqb (pBotId p) (oBotId o) && String.eqb (productName p) (oProductName o).

(** [p'] is [p] with the quantity [q] taken off its stock: its stock is
    the difference of the two doubles. *)
Definition lowered (p : Product) (q : number) (p' : Product) : Prop :=
  pBotId p' = pBotId p /\ productName p' = productName p /\ sku p' = sku p /\
  unit p' = unit p /\ availableStock p' = numSub (availableStock p) q.

(** The claim that a confirmed order lowers the stock, for the order
    route: the product it matched is stored with the requested quantity
    taken off. *)
Definition decrementsOnConfirmation : Prop :=
  forall db fresh body o db' p,
    postOrder fuzzySearch db fresh body = (Answered o, db') ->
    oStatus o = confirmed ->
    matched db (oBotId o) (lookupLast "productName" body) = Some p ->
    exists p', In p' (products db') /\ lowered p (requestedQty o) p'.

(** C6, amended.  The order route and the intent route leave every
    catalog item as it is, whatever the status of the order they record
    and however they end.  The order-status update never removes an item,
    and it changes the catalog in one case only: the new status is
    [confirmed], the first item of the order's bot and product name has at
    least the requested quantity, and the item is saved with the
    difference of the two doubles as its stock, the other items staying as
    they are.  Whenever the update answers for a confirmed order whose
    item has the quantity, the stock has been lowered that way. *)
Theorem stock_changes_only_on_status_update :
  (forall db fresh body r db',
     postOrder fuzzySearch db fresh body = (r, db') -> products db' = products db) /\
  (forall db fresh botId message userId sid intentData r db',
     processIntent fuzzySearch db fresh botId message userId sid intentData
     = (r, db') -> products db' = products db) /\
  (forall db id body r db',
     patchOrder db id body = (r, db') ->
     length (products db') = length (products db) /\
     (products db' = products db \/
      exists o l1 p p' l2,
        r = Answered o /\ oStatus o = confirmed /\
        products db = l1 ++ p :: l2 /\
        Forall (fun x => orderedProduct o x = false) l1 /\
        orderedProduct o p = true /\
        numLe (requestedQty o) (availableStock p) /\
        lowered p (requestedQty o) p' /\
        products db' = l1 ++ p' :: l2)) /\
  (forall db id body o db' p,
     patchOrder db id body = (Answered o, db') ->
     oStatus o = confirmed ->
     find (orderedProduct o) (products db) = Some p ->
     numLe (requestedQty o) (availableStock p) ->
     exists l1 p' l2,
       products db = l1 ++ p :: l2 /\
       lowered p (requestedQty o) p' /\
       products db' = l1 ++ p' :: l2).
Proof.
  assert (Hpatch : forall db id body r db',
    patchOrder db id body = (r, db') ->
    products db' = products db \/
    exists o p,
      r = Answered o /\ oStatus o = confirmed /\
      find (orderedProduct o) (products db) = Some p /\
      numLeb (requestedQty o) (availableStock p) = true /\
      products db'
      = updateFirst (orderedProduct o)
          (fun x => withStock x (numSub (availableStock p) (requestedQty o)))
          (products db)).
  { intros db id body r db'. unfold patchOrder.
    destruct (isStatusName (lookupLast "status" body)) as [st |];
      [| intros [= <- <-]; auto].
    destruct (find _ (orders db)) as [found |]; [| intros [= <- <-]; auto].
    destruct (if truthy (lookupLast "notes" body) then _ else _) as [e | n];
      [intros [= <- <-]; auto |].
    set (o1 := withNotes (withStatus found st) n).
    change (products (saveOrder db o1)) with (products db).
    change (fun p : Product =>
              String.eqb (pBotId p) (oBotId o1) &&
              String.eqb (productName p) (oProductName o1))
      with (orderedProduct o1).
    destruct st; try (intros [= <- <-]; auto).
    destruct (find (orderedProduct o1) (products db)) as [p |] eqn:Hfind;
      [| intros [= <- <-]; auto].
    destruct (numLeb (requestedQty o1) (availableStock p)) eqn:Hle;
      [| intros [= <- <-]; auto].
    destruct (onSave (validStock _)) as [e | stock] eqn:Hsave;
      [intros [= <- <-]; auto |].
    intros [= <- <-]. right. exists o1, p.
    apply onSave_inr in Hsave.
    apply validStock_inr in Hsave as [-> _]. auto 10. }
  split; [| split; [| split]].
  - intros db fresh body r db'. unfold postOrder. intros H.
    repeat case_match; simplify_eq; try reflexivity;
      match goal with
      | Hc : createOrder _ _ _ _ _ _ _ _ _ = inr _ |- _ =>
          apply createOrder_inv in Hc as (_ & Hp & _); exact Hp
      end.
  - intros db fresh botId message userId sid intentData r db' Hrun.
    destruct (processIntent_inv _ _ _ _ _ _ _ _ _ Hrun)
      as [-> | (o & p & bot & _ & _ & _ & Hcreate & _)]; [reflexivity |].
    apply createOrder_inv in Hcreate as (_ & Hp & _). exact Hp.
  - intros db id body r db' Hrun.
    destruct (Hpatch _ _ _ _ _ Hrun) as [-> | (o & p & -> & Hst & Hfind & Hle & ->)];
      [auto |].
    destruct (find_updateFirst _
                (fun x => withStock x (numSub (availableStock p) (requestedQty o)))
                _ _ Hfind) as (l1 & l2 & Hl & Hupd & Hp & Hall).
    rewrite Hupd, Hl, !length_app. split; [reflexivity |]. right.
    exists o, l1, p, (withStock p (numSub (availableStock p) (requestedQty o))), l2.
    repeat (split; [first [reflexivity | assumption] |]).
    split; [apply numLeb_le, Hle |]. split; [| reflexivity].
    unfold lowered. cbn. auto.
  - intros db id body o db' p Hrun Hst Hfind Hle.
    apply numLeb_le in Hle.
    destruct (find_updateFirst _
                (fun x => withStock x (numSub (availableStock p) (requestedQty o)))
                _ _ Hfind) as (l1 & l2 & Hl & Hupd & _ & _).
    exists l1, (withStock p (numSub (availableStock p) (requestedQty o))), l2.
    split; [exact Hl |]. split; [unfold lowered; cbn; auto |].
    rewrite <- Hupd. revert Hrun. unfold patchOrder.
    destruct (isStatusName (lookupLast "status" body)) as [st |]; [| discriminate].
    destruct (find _ (orders db)) as [found |]; [| discriminate].
    destruct (if truthy (lookupLast "notes" body) then _ else _) as [e | n];
      [discriminate |].
    set (o1 := withNotes (withStatus found st) n).
    change (products (saveOrder db o1)) with (products db).
    change (fun p : Product =>
              String.eqb (pBotId p) (oBotId o1) &&
              String.eqb (productName p) (oProductName o1))
      with (orderedProduct o1).
    destruct st;
      try (intros [= <- <-]; subst o1; cbn in Hst; discriminate Hst).
    destruct (find (orderedProduct o1) (products db)) as [p1 |] eqn:Hfind1.
    + destruct (numLeb (requestedQty o1) (availableStock p1)) eqn:Hle1.
      * destruct (onSave (validStock _)) as [e | stock] eqn:Hsave; [discriminate |].
        intros [= <- <-]. rewrite Hfind in Hfind1. injection Hfind1 as <-.
        apply onSave_inr in Hsave.
        apply validStock_inr in Hsave as [-> _]. reflexivity.
      * intros [= <- <-]. rewrite Hfind in Hfind1. injection Hfind1 as <-.
        congruence.
    + intros [= <- <-]. rewrite Hfind in Hfind1. discriminate Hfind1.
Qed.

(** *** Intent resolution *)

(** The object a provider client returns has the properties [reply],
    [model], [usage] (and [latency]): reading [content] from it gives
    [undefined]. *)
Lemma reply_has_no_content (messages : list Message) (config : JSValue)
    (http : nat -> HttpResult JSValue) (random : nat -> Q) (latency : decimal)
    (v : JSValue) :
  result (AIClientManager.generateResponse AIClientManager.manager messages
            config http random latency) = inr v ->
  getProp v "content" = inr JUndefined.
Proof.
  assert (Hm : forall resp,
            MistralClient.replyObject resp latency = inr v ->
            getProp v "content" = inr JUndefined).
  { intros resp. unfold MistralClient.replyObject.
    repeat case_match; try discriminate. intros [= <-]. reflexivity. }
  assert (Ho : forall resp,
            OpenAIClient.replyObject resp = inr v ->
            getProp v "content" = inr JUndefined).
  { intros resp. unfold OpenAIClient.replyObject.
    repeat case_match; try discriminate. intros [= <-]. reflexivity. }
  unfold AIClientManager.generateResponse, AIClientManager.noTrace. cbv zeta.
  destruct (AIClientManager.getClient _ _) as [x | client];
    [cbn [result]; discriminate |].
  destruct (getProp _ "ai") as [x | ai]; [cbn [result]; discriminate |].
  destruct (getProp _ "system_prompt") as [y | sp];
    [cbn [result]; discriminate |].
  destruct client as [[|] | name |];
    [| | cbn [result]; discriminate | cbn [result]; discriminate].
  - unfold MistralClient.generateResponse. cbn [result].
    destruct (result (retryLoop _ _ _ _ _ _)) as [t | resp]; [discriminate |].
    destruct (MistralClient.replyObject resp latency) as [x | obj] eqn:Hr;
      [discriminate |].
    intros [= <-]. apply (Hm resp Hr).
  - unfold OpenAIClient.generateResponse. cbn [result].
    destruct (result (retryLoop _ _ _ _ _ _)) as [t | resp]; [discriminate |].
    destruct (OpenAIClient.replyObject resp) as [x | obj] eqn:Hr;
      [discriminate |].
    intros [= <-]. apply (Ho resp Hr).
Qed.

Lemma parse_undefined_fails : JSON.parse JUndefined = inl SyntaxError.
Proof. reflexivity. Qed.

(** With the default intent the chain ends in its last branch. *)
Lemma default_intent_asks_to_help (db : DB) (fresh : string)
    (botId message userId : JSValue) (sid : string) :
  processIntent fuzzySearch db fresh botId message userId sid defaultIntent
  = (Answered Help, db).
Proof. reflexivity. Qed.

(** C4.  Whenever the intent route answers, the intent it resolved is the
    default [{intent: 'other', productName: null, quantity: null}], the
    answer is the generic help template, and no order was recorded: the
    route parses [intentAnalysis.content], a property the reply objects of
    the clients do not have, so the parse raises on every reply and the
    stock-check and order branches are never entered. *)
Theorem intent_route_always_other (db : DB) (freshSession freshOrder : string)
    (body : list (string * JSValue)) (http : nat -> HttpResult JSValue)
    (random : nat -> Q) (latency : decimal) (a : IntentAnswer) (db' : DB) :
  postIntent fuzzySearch db freshSession freshOrder body http random latency
  = (Answered a, db') ->
  intent a = defaultIntent /\ response a = Help /\
  orders db' = orders db /\ products db' = products db.
Proof.
  unfold postIntent. intros H.
  repeat case_match; simplify_eq;
    match goal with
    | Hc : result _ = inr ?ia |- _ =>
        apply reply_has_no_content in Hc;
        assert (Hd : resolveIntent ia = defaultIntent)
          by (unfold resolveIntent; rewrite Hc; reflexivity)
    end;
    match goal with
    | Hp : processIntent _ _ _ _ _ _ _ _ = _ |- _ =>
        rewrite Hd, default_intent_asks_to_help in Hp; simplify_eq
    end;
    simpl; auto.
Qed.

(** C8.  When the text handed to [JSON.parse] does not parse, or cannot
    even be read, the resolver yields the default intent; it has no
    exceptional result, and the route goes on to answer with the help
    template, leaving the store as it was. *)
Theorem unparseable_reply_gives_default (intentAnalysis : JSValue) :
  (forall text, getProp intentAnalysis "content" = inr text ->
                JSON.parseText (toString text) = None) ->
  resolveIntent intentAnalysis = defaultIntent /\
  forall db fresh botId message userId sid,
    processIntent fuzzySearch db fresh botId message userId sid
                  (resolveIntent intentAnalysis) = (Answered Help, db).
Proof.
  intros Hfail.
  assert (Hdefault : resolveIntent intentAnalysis = defaultIntent).
  { unfold resolveIntent, JSON.parse.
    destruct (getProp intentAnalysis "content") as [x | text]; [reflexivity |].
    rewrite (Hfail text eq_refl). reflexivity. }
  split; [exact Hdefault |]. intros. rewrite Hdefault.
  apply default_intent_asks_to_help.
Qed.

End Operations.

(** *** The operations on a sample store *)

Definition placed : Order :=
  {| oId := "o1"; oBotId := "bot1"; oProductName := "Printer";
     requestedQty := Fin (ofZ 3); userQuery := "order, please";
     oUserId := JStr "u1"; oSessionId := JUndefined; oStatus := confirmed;
     notes := JUndefined |}.

Lemma postOrder_sample :
  postOrder sampleSearch shop "o1" (orderBody "printer" 3)
  = (Answered placed,
     snd (postOrder sampleSearch shop "o1" (orderBody "printer" 3))).
Proof. apply injective_projections; [vm_compute; reflexivity | reflexivity]. Qed.

Lemma processIntent_sample :
  processIntent sampleSearch shop "o1" (JStr "bot1") (JStr "I want to order 3 printers")
    (JStr "u1") "s1" (orderIntent "printer" 3)
  = (Answered (OrderConfirmed (JNum (ofZ 3)) printer),
     snd (processIntent sampleSearch shop "o1" (JStr "bot1")
            (JStr "I want to order 3 printers") (JStr "u1") "s1"
            (orderIntent "printer" 3))).
Proof. apply injective_projections; [vm_compute; reflexivity | reflexivity]. Qed.

Lemma order_confirmed_only_with_stock_witness :
  (exists p,
     matched sampleSearch shop (oBotId placed)
             (lookupLast "productName" (orderBody "printer" 3)) = Some p /\
     geValue (availableStock p)
             (lookupLast "requestedQty" (orderBody "printer" 3)) = true /\
     numLe (requestedQty placed) (availableStock p)) /\
  (orders (snd (processIntent sampleSearch shop "o1" (JStr "bot1")
                  (JStr "I want to order 3 printers") (JStr "u1") "s1"
                  (orderIntent "printer" 3))) = orders shop \/
   exists o p bot,
     orders (snd (processIntent sampleSearch shop "o1" (JStr "bot1")
                    (JStr "I want to order 3 printers") (JStr "u1") "s1"
                    (orderIntent "printer" 3))) = orders shop ++ [o] /\
     oStatus o = confirmed /\ castId (JStr "bot1") = inr bot /\
     matched sampleSearch shop bot
             (getPropOpt (orderIntent "printer" 3) "productName") = Some p /\
     geValue (availableStock p)
             (getPropOpt (orderIntent "printer" 3) "quantity") = true /\
     numLe (requestedQty o) (availableStock p)).
Proof.
  destruct (order_confirmed_only_with_stock sampleSearch) as [Horder Hintent].
  split.
  - destruct (Horder shop "o1" (orderBody "printer" 3) placed _ postOrder_sample)
      as (_ & Hconfirmed & _).
    exact (Hconfirmed eq_refl).
  - exact (Hintent _ _ _ _ _ _ _ _ _ processIntent_sample).
Defined.

Lemma partial_stock_creates_no_order_witness :
  processIntent sampleSearch shop "o1" (JStr "bot1")
    (JStr "I want 2 mobile phones") (JStr "u1") "s1" (orderIntent "mobile phone" 2)
  = (Answered (OnlyAvailable phone), shop) /\
  render false (OnlyAvailable phone)
  = "I'm sorry, only 1 pcs of Mobile Phone are available. Would you like to order a smaller quantity?".
Proof.
  apply (partial_stock_creates_no_order sampleSearch shop "o1" (JStr "bot1")
           (JStr "I want 2 mobile phones") (JStr "u1") "s1" "bot1"
           (orderIntent "mobile phone" 2) phone);
    try reflexivity.
  discriminate.
Defined.

(** C6, as stated, fails: the order route confirms an order of 3 printers
    out of 10 and leaves the printer with a stock of 10. *)
Lemma confirmed_order_keeps_stock :
  ~ decrementsOnConfirmation sampleSearch /\
  fst (postOrder sampleSearch shop "o1" (orderBody "printer" 3)) = Answered placed /\
  oStatus placed = confirmed /\
  products (snd (postOrder sampleSearch shop "o1" (orderBody "printer" 3)))
  = [printer; phone].
Proof.
  assert (Hproducts :
            products (snd (postOrder sampleSearch shop "o1" (orderBody "printer" 3)))
            = [printer; phone]) by (vm_compute; reflexivity).
  split; [| repeat split; try exact Hproducts; vm_compute; reflexivity].
  intros Hclaim.
  destruct (Hclaim shop "o1" (orderBody "printer" 3) placed _ printer
              postOrder_sample eq_refl eq_refl) as (p' & Hin & Hlow).
  rewrite Hproducts in Hin.
  destruct Hlow as (_ & _ & Hsku & _ & Hstock).
  destruct Hin as [<- | [<- | []]].
  - vm_compute in Hstock. discriminate Hstock.
  - discriminate Hsku.
Qed.

(** An order for a stock that is no integer: 1.1 of 3.3. *)
Definition cable : Product :=
  {| pBotId := "bot1"; productName := "Cable"; sku := "CB-1";
     availableStock := Fin (Dec 33 (-1)); unit := "m" |}.

Definition metres : Order :=
  {| oId := "o2"; oBotId := "bot1"; oProductName := "Cable";
     requestedQty := Fin (Dec 11 (-1)); userQuery := "1.1 m of cable";
     oUserId := JUndefined; oSessionId := JUndefined; oStatus := pending;
     notes := JUndefined |}.

Lemma stock_changes_only_on_status_update_witness :
  (exists l1 p' l2,
     products (setOrders shop [withStatus placed pending]) = l1 ++ printer :: l2 /\
     lowered printer (requestedQty placed) p' /\
     products (snd (patchOrder (setOrders shop [withStatus placed pending]) "o1"
                      [("status", JStr "confirmed")]))
     = l1 ++ p' :: l2) /\
  products (snd (postOrder sampleSearch shop "o1" (orderBody "printer" 3)))
  = products shop /\
  map (fun p => numToString (availableStock p))
      (products (snd (patchOrder (setOrders shop [withStatus placed pending]) "o1"
                       [("status", JStr "confirmed")])))
  = ["7"; "1"] /\
  map (fun p => numToString (availableStock p))
      (products (snd (patchOrder (setProducts (setOrders shop [metres]) [cable]) "o2"
                       [("status", JStr "confirmed")])))
  = ["2.1999999999999997"].
Proof.
  destruct (stock_changes_only_on_status_update sampleSearch)
    as (Horder & _ & _ & Hpatch).
  split; [| split; [| split]].
  - apply (Hpatch (setOrders shop [withStatus placed pending]) "o1"
             [("status", JStr "confirmed")] placed
             (snd (patchOrder (setOrders shop [withStatus placed pending]) "o1"
                     [("status", JStr "confirmed")])) printer).
    + apply injective_projections; [vm_compute; reflexivity | reflexivity].
    + reflexivity.
    + reflexivity.
    + vm_compute. discriminate.
  - apply (Horder shop "o1" (orderBody "printer" 3) _ _
             (surjective_pairing _)).
  - vm_compute. reflexivity.
  - vm_compute. reflexivity.
Defined.

(** A completion whose text is a well-formed order intent. *)
Definition intentText : string :=
  "{" +:+ dq +:+ "intent" +:+ dq +:+ ":" +:+ dq +:+ "order_intent" +:+ dq +:+ "," +:+
  dq +:+ "productName" +:+ dq +:+ ":" +:+ dq +:+ "printer" +:+ dq +:+ "," +:+
  dq +:+ "quantity" +:+ dq +:+ ":3}".

Definition completion : JSValue :=
  JObj [("choices", JArr [JObj [("message",
            JObj [("role", JStr "assistant"); ("content", JStr intentText)])]]);
        ("model", JStr "mistral-small"); ("usage", JNull)].

Definition intentBody : list (string * JSValue) :=
  [("botId", JStr "bot1"); ("message", JStr "I want to order 3 printers");
   ("userId", JStr "u1"); ("sessionId", JStr "s1")].

Lemma postIntent_sample :
  postIntent sampleSearch shop "s2" "o1" intentBody
    (fun _ => HttpOk completion) (fun _ => 0%Q) (ofZ 840)
  = (Answered {| intent := defaultIntent; isHindi := false; response := Help |},
     snd (postIntent sampleSearch shop "s2" "o1" intentBody
            (fun _ => HttpOk completion) (fun _ => 0%Q) (ofZ 840))).
Proof. apply injective_projections; [vm_compute; reflexivity | reflexivity]. Qed.

Lemma intent_route_always_other_witness :
  JSON.parseText intentText = Some (orderIntent "printer" 3) /\
  orders (snd (postIntent sampleSearch shop "s2" "o1" intentBody
                 (fun _ => HttpOk completion) (fun _ => 0%Q) (ofZ 840)))
  = orders shop.
Proof.
  split; [vm_compute; reflexivity |].
  destruct (intent_route_always_other sampleSearch shop "s2" "o1" intentBody
              (fun _ => HttpOk completion) (fun _ => 0%Q) (ofZ 840) _ _
              postIntent_sample) as (_ & _ & Horders & _).
  exact Horders.
Defined.

Lemma unparseable_reply_gives_default_witness :
  resolveIntent (JObj [("content", JStr "The user wants a laptop.")])
  = defaultIntent.
Proof.
  apply (unparseable_reply_gives_default sampleSearch).
  intros text Htext. injection Htext as <-. vm_compute. reflexivity.
Defined.

End OrderProperties.

(* ===================================================================== *)
(** ** Further properties of the provider clients *)
(* ===================================================================== *)

Module ClientProperties.
Import JS Provider RetryProperties.
Local Open Scope Q_scope.

(** *** The retry loop *)

(** An error of the network leaves the loop only after the client's test
    returned an answer for it. *)
Lemma retryLoop_thrown {A} (shouldRetry : HttpError -> exn + bool) delayFor req
    (http : nat -> HttpResult A) random (e : HttpError) :
  result (retryLoop shouldRetry delayFor req http random maxRetries)
  = inl (ThrownHttp e) ->
  exists b, shouldRetry e = inr b.
Proof.
  unfold maxRetries. simpl.
  destruct (http 0%nat) as [p0 | e0]; [discriminate |].
  destruct (shouldRetry e0) as [x0 | [|]] eqn:H0;
    [discriminate | | intros [= <-]; eauto].
  simpl. destruct (http 1%nat) as [p1 | e1]; [discriminate |].
  destruct (shouldRetry e1) as [x1 | [|]] eqn:H1;
    [discriminate | | intros [= <-]; eauto].
  simpl. destruct (http 2%nat) as [p2 | e2]; [discriminate |].
  destruct (shouldRetry e2) as [x2 | [|]] eqn:H2;
    [discriminate | |]; intros [= <-]; eauto.
Qed.

(** The loop never ends through its condition: it returns a payload or
    throws. *)
Lemma retryLoop_some {A} (shouldRetry : HttpError -> exn + bool) delayFor req
    (http : nat -> HttpResult A) random :
  result (retryLoop shouldRetry delayFor req http random maxRetries) <> inr None.
Proof.
  unfold maxRetries. simpl.
  destruct (http 0%nat) as [p0 | e0]; [discriminate |].
  destruct (shouldRetry e0) as [x0 | [|]]; [discriminate | | discriminate].
  simpl. destruct (http 1%nat) as [p1 | e1]; [discriminate |].
  destruct (shouldRetry e1) as [x1 | [|]]; [discriminate | | discriminate].
  simpl. destruct (http 2%nat) as [p2 | e2]; [discriminate |].
  destruct (shouldRetry e2) as [x2 | [|]]; discriminate.
Qed.

(** A failure that is retried, then a success: two posts, one delay. *)
Lemma retryLoop_recovers {A} (shouldRetry : HttpError -> exn + bool) delayFor req
    (http : nat -> HttpResult A) random (e : HttpError) (payload : A) :
  http 0%nat = HttpFail e -> shouldRetry e = inr true ->
  http 1%nat = HttpOk payload ->
  retryLoop shouldRetry delayFor req http random maxRetries =
  {| requests := [req; req]; delays := [delayFor 1%nat (random 0%nat)];
     result := inr (Some payload) |}.
Proof.
  intros H0 R0 H1. unfold maxRetries. simpl. rewrite H0, R0. simpl.
  rewrite H1. reflexivity.
Qed.

(** The budget of one call: between one and three posts of one and the
    same request, one delay between two consecutive posts, the n-th delay
    being the policy's, between [2^n] seconds and ten seconds. *)
Definition withinBudget {A} (random : nat -> Q) (t : Trace A) : Prop :=
  (1 <= attempts t <= 3)%nat /\
  attempts t = S (length (delays t)) /\
  (forall r1 r2, In r1 (requests t) -> In r2 (requests t) -> r1 = r2) /\
  forall i d, nth_error (delays t) i = Some d ->
    d == policyDelay (S i) (random i) /\ baseDelay (S i) <= d /\ d <= 10000.

Lemma retryLoop_budget {A} (shouldRetry : HttpError -> exn + bool) delayFor req
    (http : nat -> HttpResult A) random :
  (forall n r, (n = 1 \/ n = 2)%nat -> 0 <= r -> r < 1 ->
               delayFor n r == policyDelay n r) ->
  unitInterval random ->
  withinBudget random (retryLoop shouldRetry delayFor req http random maxRetries).
Proof.
  intros Hpol Hrand.
  assert (Hone : forall n, (n = 1 \/ n = 2)%nat ->
            delayFor n (random (pred n)) == policyDelay n (random (pred n)) /\
            baseDelay n <= delayFor n (random (pred n)) /\
            delayFor n (random (pred n)) <= 10000).
  { intros n Hn. destruct (Hrand (pred n)) as [H0 H1].
    pose proof (Hpol n _ Hn H0 H1) as Heq.
    pose proof (policyDelay_bounds n _ Hn H0 H1) as [Hlo Hhi].
    rewrite Heq. auto with qarith. }
  unfold withinBudget, attempts.
  destruct (retryLoop_shape shouldRetry delayFor req http random)
    as [[-> ->] | [[-> ->] | [-> ->]]]; simpl;
    (split; [lia |]); (split; [reflexivity |]); split.
  - intros r1 r2 [<- | []] [<- | []]. reflexivity.
  - intros i d Hnth. destruct i; discriminate.
  - intros r1 r2 [<- | [<- | []]] [<- | [<- | []]]; reflexivity.
  - intros i d Hnth. destruct i as [| [|]]; try discriminate.
    injection Hnth as <-. apply (Hone 1%nat). auto.
  - intros r1 r2 [<- | [<- | [<- | []]]] [<- | [<- | [<- | []]]]; reflexivity.
  - intros i d Hnth. destruct i as [| [| [|]]]; try discriminate;
      injection Hnth as <-.
    + apply (Hone 1%nat). auto.
    + apply (Hone 2%nat). auto.
Qed.

(** X1.  Whatever the network answers and whatever the options are, each of
    the four generating methods (plain and streaming, of either client)
    posts between one and three times, always the same request, sleeps
    exactly once between two consecutive posts, and the n-th delay is
    [min(2^n * 1000 + random * 1000, 10000)] milliseconds, hence between
    [2^n] seconds and ten seconds. *)
Theorem retry_budget (messages : list Message) (o : Options)
    (http : nat -> HttpResult JSValue) (stream : nat -> HttpResult (list string))
    (random : nat -> Q) (latency : decimal) :
  unitInterval random ->
  withinBudget random (MistralClient.generateResponse messages o http random latency) /\
  withinBudget random (OpenAIClient.generateResponse messages o http random) /\
  withinBudget random (MistralClient.generateStreamingResponse messages o stream random) /\
  withinBudget random (OpenAIClient.generateStreamingResponse messages o stream random).
Proof.
  intros Hrand.
  pose proof (fun A req (h : nat -> HttpResult A) =>
                retryLoop_budget MistralClient._shouldRetryRequest
                  MistralClient.delayFor req h random mistral_delay_is_policy Hrand)
    as Hm.
  pose proof (fun A req (h : nat -> HttpResult A) =>
                retryLoop_budget OpenAIClient._shouldRetryRequest
                  OpenAIClient.delayFor req h random
                  (fun n r _ _ _ => openai_delay_is_policy n r) Hrand)
    as Ho.
  split; [apply Hm |]. split; [apply Ho |]. split; [apply Hm | apply Ho].
Qed.

(** A server that is overloaded, and one that refuses the request. *)
Definition overloaded : HttpError :=
  {| response := Some {| status := 503; data := JNull |}; request := true;
     code := Some "ERR_BAD_RESPONSE";
     message := "Request failed with status code 503" |}.

Definition forbidden : HttpError :=
  {| response := Some {| status := 403; data := JNull |}; request := true;
     code := Some "ERR_BAD_REQUEST";
     message := "Request failed with status code 403" |}.

Definition half : nat -> Q := fun _ => 1 # 2.

Lemma half_unitInterval : unitInterval half.
Proof. intros k. split; [discriminate | reflexivity]. Qed.

Lemma retry_budget_witness :
  withinBudget half
    (MistralClient.generateResponse [] noOptions (fun _ => HttpFail overloaded)
       half (ofZ 0)) /\
  withinBudget half
    (OpenAIClient.generateStreamingResponse [] noOptions
       (fun _ => HttpFail overloaded) half).
Proof.
  destruct (retry_budget [] noOptions (fun _ => HttpFail overloaded)
              (fun _ => HttpFail overloaded) half (ofZ 0) half_unitInterval)
    as (Hm & _ & _ & Ho).
  split; [exact Hm | exact Ho].
Defined.

(** *** Which errors are retried *)

(** The errors the OpenAI client retries: a response with status 429 or at
    least 500, or no response and one of three network codes or a message
    that mentions a timeout. *)
Definition openaiRetryable (e : HttpError) : Prop :=
  match response e with
  | Some r => (status r = 429 \/ 500 <= status r)%Z
  | None => code e = Some "ECONNRESET" \/ code e = Some "ETIMEDOUT" \/
            code e = Some "ECONNABORTED" \/ includes "timeout" (message e) = true
  end.

Lemma openai_shouldRetry_retryable (e : HttpError) :
  openaiRetryable e -> OpenAIClient._shouldRetryRequest e = inr true.
Proof.
  unfold openaiRetryable, OpenAIClient._shouldRetryRequest.
  destruct (response e) as [r |].
  - intros Hst.
    destruct (Z.eqb_spec (status r) 400), (Z.eqb_spec (status r) 401),
      (Z.eqb_spec (status r) 404); simpl; try (exfalso; lia).
    destruct (Z.eqb_spec (status r) 429), (Z.leb_spec 500 (status r)); simpl;
      try reflexivity. exfalso. lia.
  - intros [-> | [-> | [-> | Hm]]]; try reflexivity.
    rewrite Hm, orb_true_r. reflexivity.
Qed.

(** On an error it does not retry the OpenAI client answers [false], or
    the test it makes of the message of a 404 raises. *)
Lemma openai_shouldRetry_other (e : HttpError) :
  ~ openaiRetryable e ->
  OpenAIClient._shouldRetryRequest e = inr false \/
  exists r x, response e = Some r /\ status r = 404%Z /\
              OpenAIClient.namesModel r = inl x /\
              OpenAIClient._shouldRetryRequest e = inl x.
Proof.
  unfold openaiRetryable, OpenAIClient._shouldRetryRequest.
  destruct (response e) as [r |].
  - intros Hst.
    destruct (_ || _) eqn:Hfatal.
    + destruct (OpenAIClient.namesModel r) as [x | b] eqn:Hn; [| auto].
      right. exists r, x. repeat split; auto.
      destruct (Z.eqb_spec (status r) 404) as [H | H]; [exact H |].
      rewrite (RetryProperties.namesModel_other_status r H) in Hn. discriminate Hn.
    + left.
      destruct (Z.eqb_spec (status r) 429), (Z.leb_spec 500 (status r)); simpl;
        try reflexivity; exfalso; apply Hst; auto.
  - intros Hno. left. destruct (code e) as [c |].
    + destruct (String.eqb_spec c "ECONNRESET") as [-> | _];
        [exfalso; apply Hno; auto |].
      destruct (String.eqb_spec c "ETIMEDOUT") as [-> | _];
        [exfalso; apply Hno; auto |].
      destruct (String.eqb_spec c "ECONNABORTED") as [-> | _];
        [exfalso; apply Hno; auto |].
      simpl. destruct (includes "timeout" (message e)) eqn:Hm; [| reflexivity].
      exfalso. apply Hno. auto.
    + simpl. destruct (includes "timeout" (message e)) eqn:Hm; [| reflexivity].
      exfalso. apply Hno. auto.
Qed.

(** The test of the message raises on one kind of body only: the status is
    404 and the [message] of the [error] of the body is truthy and neither a
    string nor an array. *)
Lemma namesModel_raises (r : ErrorResponse) (x : exn) :
  OpenAIClient.namesModel r = inl x ->
  status r = 404%Z /\
  exists error message,
    getProp (data r) "error" = inr error /\ getProp error "message" = inr message /\
    truthy message = true /\
    (forall text, message <> JStr text) /\ (forall items, message <> JArr items).
Proof.
  unfold OpenAIClient.namesModel.
  destruct (Z.eqb_spec (status r) 404) as [Hst | _]; [| discriminate].
  cbn [negb]. destruct (truthy (data r)) eqn:Hd; [| discriminate]. cbn [negb].
  destruct (getProp (data r) "error") as [y | error] eqn:He.
  { exfalso. destruct (data r); discriminate. }
  destruct (truthy error) eqn:Hte; [| discriminate]. cbn [negb].
  destruct (getProp error "message") as [y | message] eqn:Hm.
  { exfalso. destruct error; discriminate. }
  destruct (truthy message) eqn:Htm; [| discriminate]. cbn [negb].
  intros Hinc. split; [exact Hst |]. exists error, message.
  repeat split; auto; intros ? ->; discriminate Hinc.
Qed.

(** The retry test of the OpenAI client raises only where its test of the
    message does. *)
Lemma openai_shouldRetry_raises (e : HttpError) (x : exn) :
  OpenAIClient._shouldRetryRequest e = inl x ->
  exists r, response e = Some r /\ OpenAIClient.namesModel r = inl x.
Proof.
  unfold OpenAIClient._shouldRetryRequest.
  destruct (response e) as [r |].
  - destruct (_ || _); [| discriminate].
    destruct (OpenAIClient.namesModel r) as [y | b] eqn:Hn; [| discriminate].
    intros [= <-]. eauto.
  - destruct (_ || _); discriminate.
Qed.

(** X2.  When every post fails with the same error, the OpenAI client
    (plain and streaming) posts three times if the error is a response with
    status 429 or at least 500, or has no response and carries one of the
    codes [ECONNRESET], [ETIMEDOUT], [ECONNABORTED] or a message that
    mentions a timeout; it posts once for every other error.  Either way
    the plain method raises and the streaming method reports once on the
    sink: the classified error, except when the retry test itself raised,
    which it does on a response with status 404 whose error message is
    truthy and neither a string nor an array; then what is raised and
    reported is the failure of that test. *)
Theorem openai_retries_exactly_transient (messages : list Message) (o : Options)
    (random : nat -> Q) (e : HttpError) :
  let t := OpenAIClient.generateResponse messages o (fun _ => HttpFail e) random in
  let s := OpenAIClient.generateStreamingResponse messages o
             (fun _ => HttpFail e) random in
  let thrown := match OpenAIClient._shouldRetryRequest e with
                | inl x => ThrownExn x
                | inr _ => ThrownHttp e
                end in
  (openaiRetryable e -> attempts t = 3%nat /\ attempts s = 3%nat) /\
  (~ openaiRetryable e -> attempts t = 1%nat /\ attempts s = 1%nat) /\
  result t = inl (OpenAIClient.classify thrown) /\
  result s = [Problem (OpenAIClient.classifyStreaming thrown)] /\
  (forall x, OpenAIClient._shouldRetryRequest e = inl x ->
     exists r error message,
       response e = Some r /\ status r = 404%Z /\
       getProp (data r) "error" = inr error /\
       getProp error "message" = inr message /\ truthy message = true /\
       (forall text, message <> JStr text) /\ (forall items, message <> JArr items)) /\
  ((forall r, response e = Some r -> status r <> 404%Z) ->
   thrown = ThrownHttp e).
Proof.
  intros t s thrown. subst t s thrown.
  unfold OpenAIClient.generateResponse, OpenAIClient.generateStreamingResponse,
    attempts. cbn [requests delays result].
  split; [| split; [| split; [| split; [| split]]]].
  - intros He. apply openai_shouldRetry_retryable in He.
    rewrite !(retryLoop_exhausts _ _ _ (fun _ => HttpFail e) random e e e); auto.
  - intros He. apply openai_shouldRetry_other in He as [He | (r & x & _ & _ & _ & He)].
    + rewrite !(retryLoop_stops _ _ _ (fun _ => HttpFail e) random e); auto.
    + rewrite !(RetryProperties.retryLoop_raises _ _ _ (fun _ => HttpFail e) random
                  e x eq_refl He); auto.
  - destruct (OpenAIClient._shouldRetryRequest e) as [x | [|]] eqn:He.
    + rewrite (RetryProperties.retryLoop_raises _ _ _ (fun _ => HttpFail e) random
                 e x eq_refl He). reflexivity.
    + rewrite (retryLoop_exhausts _ _ _ (fun _ => HttpFail e) random e e e); auto.
    + rewrite (retryLoop_stops _ _ _ (fun _ => HttpFail e) random e); auto.
  - destruct (OpenAIClient._shouldRetryRequest e) as [x | [|]] eqn:He.
    + rewrite (RetryProperties.retryLoop_raises _ _ _ (fun _ => HttpFail e) random
                 e x eq_refl He). reflexivity.
    + rewrite (retryLoop_exhausts _ _ _ (fun _ => HttpFail e) random e e e); auto.
    + rewrite (retryLoop_stops _ _ _ (fun _ => HttpFail e) random e); auto.
  - intros x Hx. destruct (openai_shouldRetry_raises e x Hx) as (r & Hr & Hn).
    destruct (namesModel_raises r x Hn) as (Hst & error & message & H).
    exists r, error, message. tauto.
  - intros Hno. destruct (OpenAIClient._shouldRetryRequest e) as [x |] eqn:He;
      [| reflexivity].
    exfalso. destruct (openai_shouldRetry_raises e x He) as (r & Hr & Hn).
    apply namesModel_raises in Hn as [Hst _]. exact (Hno r Hr Hst).
Qed.

(** A 404 whose body carries a code where a text is expected. *)
Definition oddNotFound : HttpError :=
  {| response := Some {| status := 404;
                         data := JObj [("error", JObj [("message", JNum (ofZ 404))])] |};
     request := true; code := Some "ERR_BAD_REQUEST";
     message := "Request failed with status code 404" |}.

Lemma openai_retries_exactly_transient_witness :
  attempts (OpenAIClient.generateResponse [] noOptions
              (fun _ => HttpFail overloaded) half) = 3%nat /\
  attempts (OpenAIClient.generateResponse [] noOptions
              (fun _ => HttpFail forbidden) half) = 1%nat /\
  attempts (OpenAIClient.generateResponse [] noOptions
              (fun _ => HttpFail oddNotFound) half) = 1%nat /\
  result (OpenAIClient.generateResponse [] noOptions
            (fun _ => HttpFail oddNotFound) half)
  = inl (Failed (ThrownExn (TypeError "includes"))).
Proof.
  split; [| split; [| split]].
  - destruct (openai_retries_exactly_transient [] noOptions half overloaded)
      as (Hyes & _).
    apply Hyes. right. discriminate.
  - destruct (openai_retries_exactly_transient [] noOptions half forbidden)
      as (_ & Hno & _).
    apply Hno. intros [H | H]; [discriminate H | apply H; reflexivity].
  - destruct (openai_retries_exactly_transient [] noOptions half oddNotFound)
      as (_ & Hno & _).
    apply Hno. intros [H | H]; [discriminate H | apply H; reflexivity].
  - destruct (openai_retries_exactly_transient [] noOptions half oddNotFound)
      as (_ & _ & Hres & _).
    exact Hres.
Defined.

(** The Mistral client answers its retry question only for errors that
    carry a response. *)
Lemma mistral_shouldRetry_answers (e : HttpError) (b : bool) :
  MistralClient._shouldRetryRequest e = inr b -> exists r, response e = Some r.
Proof.
  intros Hb. destruct (response e) as [r |] eqn:Hr; [eauto |].
  rewrite (mistral_no_response_raises e Hr) in Hb. discriminate Hb.
Qed.

Lemma mistral_classify_response (e : HttpError) (r : ErrorResponse) :
  response e = Some r -> MistralClient.classify (ThrownHttp e) <> NoResponse.
Proof.
  intros Hr. unfold MistralClient.classify. rewrite Hr.
  destruct (status r =? 401)%Z; [discriminate |].
  destruct (status r =? 429)%Z; [discriminate |].
  destruct (500 <=? status r)%Z; discriminate.
Qed.

(** X3.  The Mistral client never retries an error that has no response
    (a reset connection, a timeout, a failed name lookup): when the first
    post fails that way, the plain and the streaming method post once, sleep
    no delay and fail with the [TypeError] raised inside
    [_shouldRetryRequest].  As a consequence neither method ever raises the
    error "No response from Mistral API", whatever the network does. *)
Theorem mistral_fails_without_response (messages : list Message) (o : Options)
    (http : nat -> HttpResult JSValue) (stream : nat -> HttpResult (list string))
    (random : nat -> Q) (latency : decimal) :
  let t := MistralClient.generateResponse messages o http random latency in
  let s := MistralClient.generateStreamingResponse messages o stream random in
  (forall e, response e = None -> http 0%nat = HttpFail e ->
     attempts t = 1%nat /\ delays t = [] /\
     result t = inl (Failed (ThrownExn (TypeError "data")))) /\
  (forall e, response e = None -> stream 0%nat = HttpFail e ->
     attempts s = 1%nat /\ delays s = [] /\
     result s = inl (Failed (ThrownExn (TypeError "data")))) /\
  result t <> inl NoResponse /\ result s <> inl NoResponse.
Proof.
  intros t s. subst t s.
  unfold MistralClient.generateResponse, MistralClient.generateStreamingResponse,
    attempts. cbn [requests delays result].
  split; [| split; [| split]].
  - intros e Hr Hhttp.
    rewrite (retryLoop_raises _ _ _ http random e _ Hhttp
               (mistral_no_response_raises e Hr)). auto.
  - intros e Hr Hhttp.
    rewrite (retryLoop_raises _ _ _ stream random e _ Hhttp
               (mistral_no_response_raises e Hr)). auto.
  - destruct (result (retryLoop _ _ _ http _ _)) as [[e | x] | resp] eqn:Hres.
    + apply retryLoop_thrown in Hres as [b Hb].
      apply mistral_shouldRetry_answers in Hb as [r Hr].
      intros [= H]. exact (mistral_classify_response e r Hr H).
    + discriminate.
    + destruct (MistralClient.replyObject resp latency); discriminate.
  - destruct (result (retryLoop _ _ _ stream _ _)) as [[e | x] | [chunks |]] eqn:Hres.
    + apply retryLoop_thrown in Hres as [b Hb].
      apply mistral_shouldRetry_answers in Hb as [r Hr].
      intros [= H]. exact (mistral_classify_response e r Hr H).
    + discriminate.
    + discriminate.
    + discriminate.
Qed.

(** A name lookup that fails: no response, the request object present. *)
Definition lookupFailed : HttpError :=
  {| response := None; request := true; code := Some "ENOTFOUND";
     message := "getaddrinfo ENOTFOUND api.mistral.ai" |}.

Lemma mistral_fails_without_response_witness :
  attempts (MistralClient.generateStreamingResponse [] noOptions
              (fun _ => HttpFail lookupFailed) half) = 1%nat /\
  result (MistralClient.generateResponse [] noOptions
            (fun _ => HttpFail lookupFailed) half (ofZ 0))
  = inl (Failed (ThrownExn (TypeError "data"))).
Proof.
  destruct (mistral_fails_without_response [] noOptions
              (fun _ => HttpFail lookupFailed) (fun _ => HttpFail lookupFailed)
              half (ofZ 0)) as (Hplain & Hstream & _).
  split.
  - apply (Hstream lookupFailed); reflexivity.
  - apply (Hplain lookupFailed); reflexivity.
Defined.

(** The body of an error response names a missing model: it is truthy and
    its [error] property is a string or an array with the marker. *)
Definition namesMissingModel (d : JSValue) : Prop :=
  truthy d = true /\
  exists err, getProp d "error" = inr err /\ truthy err = true /\
              callIncludes err "model not found" = inr true.

Lemma mistral_shouldRetry_default (e : HttpError) (r : ErrorResponse) :
  response e = Some r ->
  status r <> 400%Z -> status r <> 401%Z -> status r <> 404%Z ->
  (plainBody (data r) -> MistralClient._shouldRetryRequest e = inr true) /\
  (namesMissingModel (data r) -> MistralClient._shouldRetryRequest e = inr false).
Proof.
  intros Hr H400 H401 H404.
  assert (Hrest : (if MistralClient.statusIs e (Z.eqb 429) then inr true
                   else if MistralClient.statusIs e (Z.leb 500) then inr true
                   else match code e with
                        | Some c =>
                            if existsb (String.eqb c) MistralClient.networkCodes
                            then inr true else inr true
                        | None => inr true
                        end) = (inr true : exn + bool)).
  { destruct (MistralClient.statusIs e (Z.eqb 429)); [reflexivity |].
    destruct (MistralClient.statusIs e (Z.leb 500)); [reflexivity |].
    destruct (code e) as [c |]; [destruct (existsb _ _) |]; reflexivity. }
  unfold MistralClient._shouldRetryRequest.
  replace (MistralClient.statusIs e (Z.eqb 401)) with false
    by (unfold MistralClient.statusIs; rewrite Hr; symmetry; apply Z.eqb_neq; lia).
  replace (MistralClient.statusIs e (Z.eqb 400)) with false
    by (unfold MistralClient.statusIs; rewrite Hr; symmetry; apply Z.eqb_neq; lia).
  unfold MistralClient.modelMissing. rewrite Hr.
  replace (status r =? 404)%Z with false by (symmetry; apply Z.eqb_neq; lia).
  split.
  - intros [Hf | (err & Hget & Herr)].
    + rewrite Hf. cbn [negb]. exact Hrest.
    + destruct (truthy (data r)); cbn [negb]; [| exact Hrest].
      rewrite Hget. destruct Herr as [Hf | Hinc].
      * rewrite Hf. cbn [negb]. exact Hrest.
      * destruct (truthy err); cbn [negb]; [rewrite Hinc |]; exact Hrest.
  - intros (Ht & err & Hget & Herr & Hinc).
    rewrite Ht. cbn [negb]. rewrite Hget, Herr. cbn [negb]. rewrite Hinc.
    reflexivity.
Qed.

(** X4.  When every post fails with the same response, whose status is
    none of 400, 401 and 404, the Mistral client retries by default: it
    posts three times if the body says nothing about a missing model,
    whatever the status (403 and 422 as well as 429 and 503).  If the body
    carries the marker [model not found], it posts once, also for a status
    of 429 or 500.  Either way it raises the classified error. *)
Theorem mistral_retries_by_default (messages : list Message) (o : Options)
    (random : nat -> Q) (latency : decimal) (e : HttpError) (r : ErrorResponse) :
  response e = Some r ->
  status r <> 400%Z -> status r <> 401%Z -> status r <> 404%Z ->
  let t := MistralClient.generateResponse messages o (fun _ => HttpFail e)
             random latency in
  (plainBody (data r) ->
   attempts t = 3%nat /\ length (delays t) = 2%nat /\
   result t = inl (MistralClient.classify (ThrownHttp e))) /\
  (namesMissingModel (data r) ->
   attempts t = 1%nat /\ delays t = [] /\
   result t = inl (MistralClient.classify (ThrownHttp e))).
Proof.
  intros Hr H400 H401 H404 t. subst t.
  destruct (mistral_shouldRetry_default e r Hr H400 H401 H404) as [Hplain Hmark].
  unfold MistralClient.generateResponse, attempts. cbn [requests delays result].
  split.
  - intros Hb. specialize (Hplain Hb).
    rewrite (retryLoop_exhausts _ _ _ (fun _ => HttpFail e) random e e e); auto.
  - intros Hb. specialize (Hmark Hb).
    rewrite (retryLoop_stops _ _ _ (fun _ => HttpFail e) random e); auto.
Qed.

(** A server error whose body names a missing model. *)
Definition unknownModel : HttpError :=
  {| response := Some {| status := 500;
                         data := JObj [("error", JStr "model not found: mistral-huge")] |};
     request := true; code := Some "ERR_BAD_RESPONSE";
     message := "Request failed with status code 500" |}.

Lemma mistral_retries_by_default_witness :
  attempts (MistralClient.generateResponse [] noOptions
              (fun _ => HttpFail forbidden) half (ofZ 0)) = 3%nat /\
  attempts (MistralClient.generateResponse [] noOptions
              (fun _ => HttpFail unknownModel) half (ofZ 0)) = 1%nat.
Proof.
  split.
  - destruct (mistral_retries_by_default [] noOptions half (ofZ 0) forbidden
                {| status := 403; data := JNull |} eq_refl)
      as [Hplain _]; try discriminate.
    apply Hplain. left. reflexivity.
  - destruct (mistral_retries_by_default [] noOptions half (ofZ 0) unknownModel
                {| status := 500;
                   data := JObj [("error", JStr "model not found: mistral-huge")] |}
                eq_refl)
      as [_ Hmark]; try discriminate.
    apply Hmark. split; [reflexivity |].
    exists (JStr "model not found: mistral-huge"). repeat split.
Defined.

(** *** What a call returns *)

(** A completion body that carries a reply: an object whose [choices] is an
    array, the first element of which has a [message] with the [content]
    [reply]. *)
Definition carriesReply (d reply : JSValue) : Prop :=
  exists fields first more msg,
    d = JObj fields /\ lookupLast "choices" fields = JArr (first :: more) /\
    getProp first "message" = inr msg /\ getProp msg "content" = inr reply.

Lemma mistral_replyObject_carries (d reply : JSValue) (latency : decimal) :
  carriesReply d reply ->
  MistralClient.replyObject (Some d) latency
  = inr (JObj [("reply", reply); ("model", getPropOpt d "model");
               ("usage", getPropOpt d "usage"); ("latency", JNum latency)]).
Proof.
  intros (fields & first & more & msg & -> & Hc & Hm & Hr).
  unfold MistralClient.replyObject. cbn [getProp]. rewrite Hc.
  cbn [getIndex nth]. rewrite Hm, Hr. reflexivity.
Qed.

Lemma openai_replyObject_carries (d reply : JSValue) :
  carriesReply d reply ->
  OpenAIClient.replyObject (Some d)
  = inr (JObj [("reply", reply); ("model", getPropOpt d "model");
               ("usage", getPropOpt d "usage")]).
Proof.
  intros (fields & first & more & msg & -> & Hc & Hm & Hr).
  unfold OpenAIClient.replyObject. cbn [getProp]. rewrite Hc.
  cbn [getIndex nth]. rewrite Hm, Hr. reflexivity.
Qed.

(** X5.  When the first post fails with an error the client's own test
    accepts for a retry and the second post succeeds with a completion that
    carries a reply, [generateResponse] of either client posts twice,
    sleeps the first delay of its policy once, and returns the object made
    of the [content] of the first choice and of the [model] and [usage] of
    the body (and, for the Mistral client, the latency). *)
Theorem recovers_on_second_attempt (messages : list Message) (o : Options)
    (http : nat -> HttpResult JSValue) (random : nat -> Q) (latency : decimal)
    (e : HttpError) (d reply : JSValue) :
  http 0%nat = HttpFail e -> http 1%nat = HttpOk d -> carriesReply d reply ->
  let tm := MistralClient.generateResponse messages o http random latency in
  let topen := OpenAIClient.generateResponse messages o http random in
  (MistralClient._shouldRetryRequest e = inr true ->
   attempts tm = 2%nat /\
   delays tm = [MistralClient.delayFor 1%nat (random 0%nat)] /\
   result tm = inr (JObj [("reply", reply); ("model", getPropOpt d "model");
                          ("usage", getPropOpt d "usage");
                          ("latency", JNum latency)])) /\
  (OpenAIClient._shouldRetryRequest e = inr true ->
   attempts topen = 2%nat /\
   delays topen = [OpenAIClient.delayFor 1%nat (random 0%nat)] /\
   result topen = inr (JObj [("reply", reply); ("model", getPropOpt d "model");
                             ("usage", getPropOpt d "usage")])).
Proof.
  intros H0 H1 Hd tm topen. subst tm topen.
  unfold MistralClient.generateResponse, OpenAIClient.generateResponse, attempts.
  cbn [requests delays result]. split; intros Hretry.
  - rewrite (retryLoop_recovers _ _ _ http random e d H0 Hretry H1).
    cbn [requests delays result].
    rewrite (mistral_replyObject_carries d reply latency Hd). auto.
  - rewrite (retryLoop_recovers _ _ _ http random e d H0 Hretry H1).
    cbn [requests delays result].
    rewrite (openai_replyObject_carries d reply Hd). auto.
Qed.

(** A completion with two choices. *)
Definition answer : JSValue :=
  JObj [("id", JStr "cmpl-1");
        ("choices",
         JArr [JObj [("index", JNum (ofZ 0));
                     ("message", JObj [("role", JStr "assistant");
                                       ("content", JStr "Hello!")])];
               JObj [("index", JNum (ofZ 1));
                     ("message", JObj [("role", JStr "assistant");
                                       ("content", JStr "Hi there.")])]]);
        ("model", JStr "gpt-4");
        ("usage", JObj [("total_tokens", JNum (ofZ 12))])].

(** The network that is overloaded once and then answers. *)
Definition onceOverloaded (n : nat) : HttpResult JSValue :=
  match n with
  | O => HttpFail overloaded
  | S _ => HttpOk answer
  end.

Lemma recovers_on_second_attempt_witness :
  result (MistralClient.generateResponse [] noOptions onceOverloaded half (ofZ 2300))
  = inr (JObj [("reply", JStr "Hello!"); ("model", JStr "gpt-4");
               ("usage", JObj [("total_tokens", JNum (ofZ 12))]);
               ("latency", JNum (ofZ 2300))]) /\
  delays (OpenAIClient.generateResponse [] noOptions onceOverloaded half)
  = [OpenAIClient.delayFor 1%nat (1 # 2)].
Proof.
  assert (Hd : carriesReply answer (JStr "Hello!")).
  { unfold answer. eexists _, _, _, _. repeat split. }
  destruct (recovers_on_second_attempt [] noOptions onceOverloaded half (ofZ 2300)
              overloaded answer (JStr "Hello!") eq_refl eq_refl Hd) as [Hm Ho].
  split.
  - destruct (Hm eq_refl) as (_ & _ & Hres). exact Hres.
  - destruct (Ho eq_refl) as (_ & Hdel & _). exact Hdel.
Defined.

(** A body without a first choice: an empty body, or one whose [choices] is
    absent, [null] or an empty array. *)
Definition lacksChoice (d : JSValue) : Prop :=
  d = JUndefined \/ d = JNull \/
  exists v, getProp d "choices" = inr v /\
            (v = JUndefined \/ v = JNull \/ v = JArr []).

Lemma lacksChoice_raises (d : JSValue) :
  lacksChoice d ->
  (forall latency, exists k, MistralClient.replyObject (Some d) latency
                             = inl (TypeError k)) /\
  exists k, OpenAIClient.replyObject (Some d) = inl (TypeError k).
Proof.
  unfold MistralClient.replyObject, OpenAIClient.replyObject.
  intros [-> | [-> | (v & -> & [-> | [-> | ->]])]]; split; intros; eexists;
    reflexivity.
Qed.

(** X6.  A post that succeeds is never repeated, even when its body cannot
    be read: if the first post succeeds with a body that has no first
    choice, [generateResponse] of either client posts once, sleeps no
    delay, and fails with the generic error that wraps the [TypeError] of
    the property access (it is not classified as a server error). *)
Theorem unreadable_success_fails_once (messages : list Message) (o : Options)
    (http : nat -> HttpResult JSValue) (random : nat -> Q) (latency : decimal)
    (d : JSValue) :
  http 0%nat = HttpOk d -> lacksChoice d ->
  let tm := MistralClient.generateResponse messages o http random latency in
  let topen := OpenAIClient.generateResponse messages o http random in
  (attempts tm = 1%nat /\ delays tm = [] /\
   exists k, result tm = inl (Failed (ThrownExn (TypeError k)))) /\
  (attempts topen = 1%nat /\ delays topen = [] /\
   exists k, result topen = inl (Failed (ThrownExn (TypeError k)))).
Proof.
  intros H0 Hd tm topen. subst tm topen.
  destruct (lacksChoice_raises d Hd) as [Hm [ko Ho]].
  destruct (Hm latency) as [km Hkm].
  unfold MistralClient.generateResponse, OpenAIClient.generateResponse, attempts.
  cbn [requests delays result].
  rewrite !(retryLoop_succeeds _ _ _ http random d H0).
  cbn [requests delays result]. rewrite Hkm, Ho.
  split; (split; [reflexivity |]); (split; [reflexivity |]); eexists; reflexivity.
Qed.

Lemma unreadable_success_fails_once_witness :
  (exists k,
     result (OpenAIClient.generateResponse [] noOptions
               (fun _ => HttpOk (JObj [("choices", JArr [])])) half)
     = inl (Failed (ThrownExn (TypeError k)))) /\
  attempts (MistralClient.generateResponse [] noOptions
              (fun _ => HttpOk (JStr "<html>Bad gateway</html>")) half (ofZ 0))
  = 1%nat.
Proof.
  split.
  - destruct (unreadable_success_fails_once [] noOptions
                (fun _ => HttpOk (JObj [("choices", JArr [])])) half (ofZ 0)
                (JObj [("choices", JArr [])]) eq_refl) as [_ (_ & _ & Hk)].
    + right. right. exists (JArr []). split; [reflexivity | auto].
    + exact Hk.
  - destruct (unreadable_success_fails_once [] noOptions
                (fun _ => HttpOk (JStr "<html>Bad gateway</html>")) half (ofZ 0)
                (JStr "<html>Bad gateway</html>") eq_refl) as [(Hm & _) _].
    + right. right. exists JUndefined. split; [reflexivity | auto].
    + exact Hm.
Defined.

(** *** The streaming requests *)

Lemma mapMessage_role (m : Message) :
  role (mapMessage m) = JStr "assistant" \/ role (mapMessage m) = JStr "user".
Proof.
  unfold mapMessage. cbn [role]. destruct (strictEqStr (role m) "bot"); auto.
Qed.

(** X7.  The streaming methods of both clients depend on the options only
    through [model], [temperature] and [max_tokens]: two calls whose options
    agree on these three behave alike, whatever [system_prompt],
    [userLanguage], [inventoryAccess] and [stream] say.  Every request they
    post asks for a stream and carries one message per message of the
    history, none of which has the role [system]. *)
Theorem streaming_ignores_prompt_options (messages : list Message) (o o' : Options)
    (stream : nat -> HttpResult (list string)) (random : nat -> Q) :
  model o = model o' -> temperature o = temperature o' ->
  max_tokens o = max_tokens o' ->
  let sent (r : Request) :=
    rStream r = JBool true /\ rStreamed r = true /\
    length (rMessages r) = length messages /\
    Forall (fun m => role m = JStr "assistant" \/ role m = JStr "user")
           (rMessages r) in
  (MistralClient.generateStreamingResponse messages o stream random
   = MistralClient.generateStreamingResponse messages o' stream random /\
   Forall sent (requests (MistralClient.generateStreamingResponse messages o
                            stream random))) /\
  (OpenAIClient.generateStreamingResponse messages o stream random
   = OpenAIClient.generateStreamingResponse messages o' stream random /\
   Forall sent (requests (OpenAIClient.generateStreamingResponse messages o
                            stream random))).
Proof.
  intros Hm Ht Hk sent.
  assert (Hroles : Forall (fun m => role m = JStr "assistant" \/ role m = JStr "user")
                          (map mapMessage messages)).
  { induction messages as [| m ms IH]; constructor;
      [apply mapMessage_role | exact IH]. }
  split.
  - split.
    + unfold MistralClient.generateStreamingResponse,
        MistralClient.buildStreamingRequest. rewrite Hm, Ht, Hk. reflexivity.
    + unfold MistralClient.generateStreamingResponse. cbn [requests].
      destruct (MessageProperties.retryLoop_requests
                  MistralClient._shouldRetryRequest MistralClient.delayFor
                  (MistralClient.buildStreamingRequest messages o) stream random)
        as [_ Hall].
      refine (List.Forall_impl _ _ Hall). intros r ->. unfold sent.
      cbn [rStream rStreamed rMessages MistralClient.buildStreamingRequest].
      rewrite length_map. auto.
  - split.
    + unfold OpenAIClient.generateStreamingResponse,
        OpenAIClient.buildStreamingRequest. rewrite Hm, Ht, Hk. reflexivity.
    + unfold OpenAIClient.generateStreamingResponse. cbn [requests].
      destruct (MessageProperties.retryLoop_requests
                  OpenAIClient._shouldRetryRequest OpenAIClient.delayFor
                  (OpenAIClient.buildStreamingRequest messages o) stream random)
        as [_ Hall].
      refine (List.Forall_impl _ _ Hall). intros r ->. unfold sent.
      cbn [rStream rStreamed rMessages OpenAIClient.buildStreamingRequest].
      rewrite length_map. auto.
Qed.

(** Options with a prompt, a language and the inventory access set. *)
Definition prompted : Options :=
  {| model := JUndefined; temperature := JUndefined; max_tokens := JUndefined;
     system_prompt := JStr "Answer in French."; userLanguage := JStr "fr";
     inventoryAccess := JBool true; stream := JBool false |}.

Lemma streaming_ignores_prompt_options_witness :
  MistralClient.generateStreamingResponse
    [Msg (JStr "system") (JStr "Be kind."); Msg (JStr "user") (JStr "Hi")]
    prompted (fun _ => HttpFail forbidden) half
  = MistralClient.generateStreamingResponse
      [Msg (JStr "system") (JStr "Be kind."); Msg (JStr "user") (JStr "Hi")]
      noOptions (fun _ => HttpFail forbidden) half.
Proof.
  destruct (streaming_ignores_prompt_options
              [Msg (JStr "system") (JStr "Be kind."); Msg (JStr "user") (JStr "Hi")]
              prompted noOptions (fun _ => HttpFail forbidden) half
              eq_refl eq_refl eq_refl) as [[Heq _] _].
  exact Heq.
Defined.

End ClientProperties.

(* ===================================================================== *)
(** ** Further properties of the streaming listeners *)
(* ===================================================================== *)

Module ListenerProperties.
Import JS Provider StreamProperties.

Definition terminator : string := "data: [DONE]".

(** The sink calls of the listeners are content calls and completion
    signals. *)
Definition plain (c : Call) : Prop :=
  match c with
  | Problem _ => False
  | _ => True
  end.

Lemma mistral_onLine_plain (line : string) : Forall plain (MistralClient.onLine line).
Proof.
  unfold MistralClient.onLine. repeat case_match; repeat constructor.
Qed.

Lemma mistral_onData_plain (chunk : string) : Forall plain (MistralClient.onData chunk).
Proof.
  unfold MistralClient.onData.
  induction (chunkLines chunk) as [| l ls IH]; [constructor |].
  cbn [flat_map]. apply Forall_app. split; [apply mistral_onLine_plain | exact IH].
Qed.

Lemma openai_onLines_plain (lines : list string) : Forall plain (OpenAIClient.onLines lines).
Proof.
  induction lines as [| l ls IH]; [constructor |].
  cbn [OpenAIClient.onLines]. repeat case_match; repeat constructor; exact IH.
Qed.

Lemma flat_map_plain (f : string -> list Call) (chunks : list string) :
  (forall c, Forall plain (f c)) -> Forall plain (flat_map f chunks).
Proof.
  intros Hf. induction chunks as [| c cs IH]; [constructor |].
  cbn [flat_map]. apply Forall_app. split; [apply Hf | exact IH].
Qed.

(** The OpenAI listener stops at the first line that holds the
    terminator. *)
Lemma openai_onLines_done (before after : list string) (line : string) :
  Forall (fun l => includes "[DONE]" l = false) before ->
  includes "[DONE]" line = true ->
  OpenAIClient.onLines (before ++ line :: after)
  = OpenAIClient.onLines before ++ [Done].
Proof.
  intros Hbefore Hline. induction Hbefore as [| l ls Hl _ IH].
  - cbn [app OpenAIClient.onLines]. rewrite Hline. reflexivity.
  - cbn [app OpenAIClient.onLines]. rewrite Hl, IH.
    repeat case_match; reflexivity.
Qed.

Lemma filter_nonblank_keeps (P : string -> Prop) (lines : list string) :
  Forall P lines -> Forall P (List.filter nonblank lines).
Proof.
  induction 1 as [| l ls Hl _ IH]; [constructor |].
  cbn [List.filter]. destruct (nonblank l); [constructor |]; assumption.
Qed.

(** X8.  Within one chunk the two ['data'] listeners treat the lines after
    the [[DONE]] line differently.  The listener of the Mistral client
    works line by line: what it calls for a chunk is what it calls for the
    lines before the terminator, the completion signal, and what it calls
    for the lines after it.  The listener of the OpenAI client returns at
    the terminator: the lines after it are dropped. *)
Theorem listeners_after_done (before after : list string) :
  Forall (fun l => hasNewline l = false) (before ++ after) ->
  Forall (fun l => includes "[DONE]" l = false) before ->
  MistralClient.onData (joinLines (before ++ terminator :: after))
  = MistralClient.onData (joinLines before) ++
    Done :: MistralClient.onData (joinLines after) /\
  OpenAIClient.onData (joinLines (before ++ terminator :: after))
  = OpenAIClient.onData (joinLines before) ++ [Done].
Proof.
  intros Hnl Hbefore. apply Forall_app in Hnl as [Hb Ha].
  assert (Hall : Forall (fun l => hasNewline l = false)
                        (before ++ terminator :: after)).
  { apply Forall_app. split; [exact Hb |]. constructor; [reflexivity | exact Ha]. }
  unfold MistralClient.onData, OpenAIClient.onData.
  rewrite (chunkLines_joinLines _ Hall), (chunkLines_joinLines _ Hb),
    (chunkLines_joinLines _ Ha).
  rewrite List.filter_app. cbn [List.filter].
  change (nonblank terminator) with true. cbv iota. split.
  - rewrite flat_map_app. cbn [flat_map]. reflexivity.
  - apply openai_onLines_done; [| reflexivity].
    apply filter_nonblank_keeps, Hbefore.
Qed.

Lemma listeners_after_done_witness :
  MistralClient.onData (joinLines [deltaLine "Hel"; terminator; deltaLine "lo"])
  = MistralClient.onData (joinLines [deltaLine "Hel"]) ++
    Done :: MistralClient.onData (joinLines [deltaLine "lo"]) /\
  OpenAIClient.onData (joinLines [deltaLine "Hel"; terminator; deltaLine "lo"])
  = OpenAIClient.onData (joinLines [deltaLine "Hel"]) ++ [Done].
Proof.
  apply (listeners_after_done [deltaLine "Hel"] [deltaLine "lo"]).
  - repeat constructor.
  - repeat constructor.
Defined.

(** X9.  The two clients report a failed stream differently, and never
    both ways.  The streaming method of the OpenAI client never rejects:
    it either calls the sink exactly once, with an error, or calls it with
    content and completion signals only, the last call being a completion
    signal.  The streaming method of the Mistral client either rejects
    without any call on the sink, or calls it with content and completion
    signals only. *)
Theorem streaming_failures_are_exclusive (messages : list Message) (o : Options)
    (stream : nat -> HttpResult (list string)) (random : nat -> Q) :
  ((exists e, result (OpenAIClient.generateStreamingResponse messages o stream random)
              = [Problem e]) \/
   (exists calls,
      result (OpenAIClient.generateStreamingResponse messages o stream random)
      = calls ++ [Done] /\ Forall plain calls)) /\
  ((exists e, result (MistralClient.generateStreamingResponse messages o stream random)
              = inl e) \/
   (exists calls,
      result (MistralClient.generateStreamingResponse messages o stream random)
      = inr calls /\ Forall plain calls)).
Proof.
  unfold OpenAIClient.generateStreamingResponse,
    MistralClient.generateStreamingResponse. cbn [result]. split.
  - pose proof (ClientProperties.retryLoop_some OpenAIClient._shouldRetryRequest
                  OpenAIClient.delayFor
                  (OpenAIClient.buildStreamingRequest messages o) stream random)
      as Hsome.
    destruct (result (retryLoop _ _ _ stream _ _)) as [thrown | [chunks |]].
    + left. eauto.
    + right. exists (flat_map OpenAIClient.onData chunks). split; [reflexivity |].
      apply flat_map_plain. intros c. apply openai_onLines_plain.
    + contradiction.
  - destruct (result (retryLoop _ _ _ stream _ _)) as [thrown | [chunks |]].
    + left. eauto.
    + right. exists (flat_map MistralClient.onData chunks ++ MistralClient.onEnd).
      split; [reflexivity |]. unfold MistralClient.onEnd. rewrite app_nil_r.
      apply flat_map_plain. intros c. apply mistral_onData_plain.
    + left. eauto.
Qed.

End ListenerProperties.

(* ===================================================================== *)
(** ** Properties of the calls made through the manager *)
(* ===================================================================== *)

Module ManagerProperties.
Import JS Provider AIClientManager ManagerStreaming.

(** [config.ai?.k] *)
Definition aiSetting (config : JSValue) (k : string) : JSValue :=
  getPropOpt (getPropOpt config "ai") k.

(** The system prompt of a call through the manager: the configured
    prompt, else the generic one, followed by the inventory instruction. *)
Definition managerPrompt (config : JSValue) : JSValue :=
  JStr (toString (orElse (getPropOpt config "system_prompt") (JStr defaultPrompt))
        +:+ inventoryInstruction).

(** The request of a call through the manager, for the default model
    [fallback] of the client selected. *)
Definition managerRequest (messages : list Message) (config : JSValue)
    (fallback : string) : Request :=
  {| rModel := orElse (aiSetting config "model") (JStr fallback);
     rMessages := Msg (JStr "system") (managerPrompt config) :: map mapMessage messages;
     rTemperature := orElse (aiSetting config "temperature") (JNum (Dec 7 (-1)));
     rMaxTokens := orElse (aiSetting config "max_tokens") (JNum (ofZ 1000));
     rStream := JBool false;
     rStreamed := false |}.

Lemma manager_request_shape (messages : list Message) (config : JSValue)
    (http : nat -> HttpResult JSValue) (random : nat -> Q) (latency : decimal) :
  Forall (fun r => r = managerRequest messages config "mistral-small" \/
                   r = managerRequest messages config "gpt-3.5-turbo")
         (requests (generateResponse manager messages config http random latency)).
Proof.
  unfold generateResponse.
  set (config' := match config with JUndefined => JObj [] | c => c end).
  assert (Hget : forall k v, getProp config' k = inr v -> getPropOpt config k = v).
  { intros k v. subst config'. unfold getPropOpt.
    destruct config; cbn; try discriminate; intros [= <-]; reflexivity. }
  destruct (getClient manager config') as [x | client]; [constructor |].
  destruct (getProp config' "ai") as [x | ai] eqn:Hai; [constructor |].
  destruct (getProp config' "system_prompt") as [x | sp] eqn:Hsp; [constructor |].
  apply Hget in Hai, Hsp.
  destruct client as [[|] | name |]; [| | constructor | constructor]; cbn [requests].
  - unfold MistralClient.generateResponse. cbn [requests].
    destruct (MessageProperties.retryLoop_requests MistralClient._shouldRetryRequest
                MistralClient.delayFor
                (MistralClient.buildRequest messages
                   {| model := getPropOpt ai "model";
                      temperature := getPropOpt ai "temperature";
                      max_tokens := getPropOpt ai "max_tokens";
                      system_prompt := sp; userLanguage := JUndefined;
                      inventoryAccess := JBool true; stream := JUndefined |})
                http random) as [_ Hall].
    refine (List.Forall_impl _ _ Hall). intros r ->. left.
    unfold managerRequest, managerPrompt, aiSetting. rewrite Hai, Hsp.
    reflexivity.
  - unfold OpenAIClient.generateResponse. cbn [requests].
    destruct (MessageProperties.retryLoop_requests OpenAIClient._shouldRetryRequest
                OpenAIClient.delayFor
                (OpenAIClient.buildRequest messages
                   {| model := getPropOpt ai "model";
                      temperature := getPropOpt ai "temperature";
                      max_tokens := getPropOpt ai "max_tokens";
                      system_prompt := sp; userLanguage := JUndefined;
                      inventoryAccess := JBool true; stream := JUndefined |})
                http random) as [_ Hall].
    refine (List.Forall_impl _ _ Hall). intros r ->. right.
    unfold managerRequest, managerPrompt, aiSetting. rewrite Hai, Hsp.
    reflexivity.
Qed.

(** X10.  Every request posted by a call of the manager's
    [generateResponse] opens with one system message, followed by the mapped
    history.  Its text is the configured [system_prompt] if that is truthy,
    else the generic prompt, always followed by the inventory instruction:
    through the manager the language-aware prompt is never chosen, and no
    prompt is sent without the inventory instruction.  The model, the
    temperature and the token limit are those of [config.ai], with the
    defaults of the client selected; the request never asks for a stream. *)
Theorem manager_system_message (messages : list Message) (config : JSValue)
    (http : nat -> HttpResult JSValue) (random : nat -> Q) (latency : decimal) :
  Forall (fun r =>
            rMessages r
            = Msg (JStr "system")
                  (JStr (toString (orElse (getPropOpt config "system_prompt")
                                          (JStr defaultPrompt))
                         +:+ inventoryInstruction))
              :: map mapMessage messages /\
            (rModel r = orElse (aiSetting config "model") (JStr "mistral-small") \/
             rModel r = orElse (aiSetting config "model") (JStr "gpt-3.5-turbo")) /\
            rTemperature r = orElse (aiSetting config "temperature") (JNum (Dec 7 (-1))) /\
            rMaxTokens r = orElse (aiSetting config "max_tokens") (JNum (ofZ 1000)) /\
            rStream r = JBool false /\ rStreamed r = false)
         (requests (generateResponse manager messages config http random latency)).
Proof.
  refine (List.Forall_impl _ _ (manager_request_shape messages config http random
                                  latency)).
  intros r [-> | ->]; cbn [managerRequest rMessages rModel rTemperature rMaxTokens
                           rStream rStreamed]; auto 10.
Qed.

(** X11.  A call of the manager's [generateResponse] depends on the
    configuration object only through [system_prompt], [ai.provider],
    [ai.model], [ai.temperature] and [ai.max_tokens]: two configuration
    objects that agree on these five reads give the same requests, delays
    and result.  In particular [ai.userLanguage], which the session routes
    set on the configuration, has no effect. *)
Theorem manager_reads_five_settings (messages : list Message)
    (fields fields' : list (string * JSValue))
    (http : nat -> HttpResult JSValue) (random : nat -> Q) (latency : decimal) :
  lookupLast "system_prompt" fields = lookupLast "system_prompt" fields' ->
  providerOf (JObj fields) = providerOf (JObj fields') ->
  aiSetting (JObj fields) "model" = aiSetting (JObj fields') "model" ->
  aiSetting (JObj fields) "temperature" = aiSetting (JObj fields') "temperature" ->
  aiSetting (JObj fields) "max_tokens" = aiSetting (JObj fields') "max_tokens" ->
  generateResponse manager messages (JObj fields) http random latency
  = generateResponse manager messages (JObj fields') http random latency.
Proof.
  intros Hsp Hprov Hmodel Htemp Hmax.
  unfold generateResponse, getClient. rewrite Hprov.
  unfold aiSetting, getPropOpt in Hmodel, Htemp, Hmax.
  cbn [getProp] in *. rewrite Hsp.
  change (getPropOpt (lookupLast "ai" fields) "model")
    with (match getProp (lookupLast "ai" fields) "model" with
          | inl _ => JUndefined | inr x => x end).
  change (getPropOpt (lookupLast "ai" fields) "temperature")
    with (match getProp (lookupLast "ai" fields) "temperature" with
          | inl _ => JUndefined | inr x => x end).
  change (getPropOpt (lookupLast "ai" fields) "max_tokens")
    with (match getProp (lookupLast "ai" fields) "max_tokens" with
          | inl _ => JUndefined | inr x => x end).
  rewrite Hmodel, Htemp, Hmax. reflexivity.
Qed.

(** A configuration as the session routes hand it over, and the same
    without the language. *)
Definition withLanguage : list (string * JSValue) :=
  [("system_prompt", JStr "You sell printers.");
   ("ai", JObj [("provider", JStr "openai"); ("model", JStr "gpt-4");
                ("userLanguage", JStr "hi")])].

Definition withoutLanguage : list (string * JSValue) :=
  [("ai", JObj [("provider", JStr "openai"); ("model", JStr "gpt-4")]);
   ("system_prompt", JStr "You sell printers.")].

Lemma manager_reads_five_settings_witness :
  generateResponse manager [Msg (JStr "user") (JStr "namaste")] (JObj withLanguage)
    (fun _ => HttpOk JNull) (fun _ => 0%Q) (ofZ 0)
  = generateResponse manager [Msg (JStr "user") (JStr "namaste")] (JObj withoutLanguage)
      (fun _ => HttpOk JNull) (fun _ => 0%Q) (ofZ 0).
Proof.
  apply (manager_reads_five_settings [Msg (JStr "user") (JStr "namaste")]
           withLanguage withoutLanguage); reflexivity.
Defined.

(** X12.  The call by which the intent route asks for the analysis of a
    message: whatever the bot, the message and the network, every request
    it posts goes to the default model of the Mistral client with the
    default temperature and token limit, and carries three messages: a
    system message holding the intent prompt followed by the inventory
    instruction, the intent prompt once more as a [user] message (the
    route puts it in the history with the role [system], which the client
    maps to [user]), and the message of the user. *)
Theorem intent_analysis_request (message : JSValue)
    (http : nat -> HttpResult JSValue) (random : nat -> Q) (latency : decimal) :
  Forall (fun r =>
            rModel r = JStr "mistral-small" /\
            rTemperature r = JNum (Dec 7 (-1)) /\
            rMaxTokens r = JNum (ofZ 1000) /\
            rMessages r
            = [Msg (JStr "system")
                   (JStr (Inventory.intentDetectionPrompt +:+ inventoryInstruction));
               Msg (JStr "user") (JStr Inventory.intentDetectionPrompt);
               Msg (JStr "user") message])
         (requests (generateResponse manager
                      [Msg (JStr "system") (JStr Inventory.intentDetectionPrompt);
                       Msg (JStr "user") message]
                      (JObj [("system_prompt", JStr Inventory.intentDetectionPrompt)])
                      http random latency)).
Proof.
  set (config := JObj [("system_prompt", JStr Inventory.intentDetectionPrompt)]).
  assert (Hclient : getClient manager config = inr (Registered Mistral)) by reflexivity.
  assert (Hai : getProp config "ai" = inr JUndefined) by reflexivity.
  assert (Hsp : getProp config "system_prompt"
                = inr (JStr Inventory.intentDetectionPrompt)) by reflexivity.
  unfold generateResponse. change (match config with
                                   | JUndefined => JObj []
                                   | c => c
                                   end) with config.
  cbv zeta. rewrite Hclient, Hai, Hsp.
  unfold MistralClient.generateResponse. cbn [requests].
  match goal with
  | |- Forall _ (requests (retryLoop _ _ ?req _ _ _)) =>
      destruct (MessageProperties.retryLoop_requests
                  MistralClient._shouldRetryRequest MistralClient.delayFor
                  req http random) as [_ Hall]
  end.
  refine (List.Forall_impl _ _ Hall). intros r ->.
  repeat split.
Qed.

Lemma intent_analysis_request_sample :
  requests (generateResponse manager
              [Msg (JStr "system") (JStr Inventory.intentDetectionPrompt);
               Msg (JStr "user") (JStr "Do you have laptops in stock?")]
              (JObj [("system_prompt", JStr Inventory.intentDetectionPrompt)])
              (fun _ => HttpOk JNull) (fun _ => 0%Q) (ofZ 0))
  <> [] /\
  Forall (fun r => rModel r = JStr "mistral-small")
         (requests (generateResponse manager
                      [Msg (JStr "system") (JStr Inventory.intentDetectionPrompt);
                       Msg (JStr "user") (JStr "Do you have laptops in stock?")]
                      (JObj [("system_prompt", JStr Inventory.intentDetectionPrompt)])
                      (fun _ => HttpOk JNull) (fun _ => 0%Q) (ofZ 0))).
Proof.
  split; [discriminate |].
  refine (List.Forall_impl _ _
            (intent_analysis_request (JStr "Do you have laptops in stock?")
               (fun _ => HttpOk JNull) (fun _ => 0%Q) (ofZ 0))).
  intros r (Hmodel & _). exact Hmodel.
Defined.

(** *** Streaming *)

(** A line on which the Mistral listener signals completion. *)
Definition isTerminator (line : string) : bool :=
  includes "data:" line &&
  String.eqb (trim (replaceFirst "data:" EmptyString line)) "[DONE]".

(** With an options object where the sink is expected, no call is
    delivered, and the listener is left by a [TypeError] at the first
    terminator. *)
Lemma mistralLines_options (o : Options) (lines : list string) :
  mistralLines (Opts o) lines
  = {| delivered := [];
       escaped := if existsb isTerminator lines
                  then Some (TypeError "onChunk") else None |}.
Proof.
  induction lines as [| line rest IH]; [reflexivity |].
  cbn [mistralLines existsb]. unfold isTerminator at 1.
  destruct (includes "data:" line); cbn [andb orb]; [| exact IH].
  destruct (String.eqb _ "[DONE]"); cbn [invoke orb]; [reflexivity |].
  repeat case_match; exact IH.
Qed.

Lemma mistralStream_options (o : Options) (chunks : list string) :
  delivered (mistralStream (Opts o) chunks) = [].
Proof.
  induction chunks as [| chunk rest IH]; [reflexivity |].
  cbn [mistralStream]. rewrite mistralLines_options. cbn [escaped delivered].
  destruct (existsb isTerminator (chunkLines chunk)); [reflexivity |].
  cbn [andThen delivered app]. exact IH.
Qed.

(** With the sink where it is expected, the calls are those of the
    listener of the client, and no exception leaves it. *)
Lemma mistralLines_callback (lines : list string) :
  mistralLines Callback lines
  = {| delivered := flat_map MistralClient.onLine lines; escaped := None |}.
Proof.
  induction lines as [| line rest IH]; [reflexivity |].
  cbn [mistralLines flat_map invoke]. unfold MistralClient.onLine at 1.
  rewrite IH. unfold andThen. cbn [delivered escaped].
  repeat case_match; reflexivity.
Qed.

Lemma mistralStream_callback (chunks : list string) :
  mistralStream Callback chunks
  = {| delivered := flat_map MistralClient.onData chunks; escaped := None |}.
Proof.
  induction chunks as [| chunk rest IH]; [reflexivity |].
  cbn [mistralStream flat_map]. rewrite mistralLines_callback, IH. reflexivity.
Qed.

(** X13.  The manager hands [options] and [onChunk] to both clients in the
    order of the OpenAI client; the Mistral client expects them the other
    way round.  The Mistral client called directly, sink first, delivers
    the calls of its listener.  Through the manager, for a configuration
    that selects it: every request carries the default model, temperature
    and token limit of the client whatever the configuration holds (the
    options are read from the function); the caller's function receives no
    call at all, whatever the stream delivers; and a stream whose first
    chunk holds the [[DONE]] line ends in a [TypeError] that leaves the
    listener. *)
Theorem manager_streaming_misses_mistral_sink (messages : list Message)
    (fields : list (string * JSValue))
    (stream : nat -> HttpResult (list string)) (random : nat -> Q) :
  getClient manager (JObj fields) = inr (Registered Mistral) ->
  let t := generateStreamingResponse manager messages (JObj fields) stream random in
  (forall o,
     result (mistralStreaming messages Callback (Opts o) stream random)
     = match result (MistralClient.generateStreamingResponse messages o
                       stream random) with
       | inl e => inl e
       | inr calls => inr {| delivered := calls; escaped := None |}
       end) /\
  Forall (fun r => rModel r = JStr "mistral-small" /\
                   rTemperature r = JNum (Dec 7 (-1)) /\
                   rMaxTokens r = JNum (ofZ 1000))
         (requests t) /\
  (forall h, result t = inr h -> delivered h = []) /\
  (forall before after,
     Forall (fun l => StreamProperties.hasNewline l = false) (before ++ after) ->
     stream 0%nat
     = HttpOk (StreamProperties.joinLines (before ++ "data: [DONE]" :: after)
               :: []) ->
     result t = inr {| delivered := []; escaped := Some (TypeError "onChunk") |}).
Proof.
  intros Hclient t. subst t. unfold generateStreamingResponse.
  rewrite Hclient. cbn [getProp]. cbv zeta. cbn [requests delays result].
  split; [| split; [| split]].
  - intros o. unfold mistralStreaming, MistralClient.generateStreamingResponse.
    cbn [result].
    destruct (result (retryLoop _ _ _ stream _ _)) as [thrown | [chunks |]];
      try reflexivity.
    rewrite mistralStream_callback. unfold MistralClient.onEnd.
    rewrite app_nil_r. reflexivity.
  - unfold mistralStreaming. cbn [requests optionsOf].
    destruct (MessageProperties.retryLoop_requests MistralClient._shouldRetryRequest
                MistralClient.delayFor
                (MistralClient.buildStreamingRequest messages noOptions)
                stream random) as [_ Hall].
    refine (List.Forall_impl _ _ Hall). intros r ->. repeat split.
  - intros h. unfold mistralStreaming. cbn [result].
    destruct (result (retryLoop _ _ _ stream _ _)) as [thrown | [chunks |]];
      try discriminate.
    intros [= <-]. apply mistralStream_options.
  - intros before after Hnl Hstream. unfold mistralStreaming. cbn [result].
    rewrite (RetryProperties.retryLoop_succeeds _ _ _ stream random _ Hstream).
    cbn [result mistralStream]. rewrite mistralLines_options. cbn [escaped].
    assert (Hall : Forall (fun l => StreamProperties.hasNewline l = false)
                          (before ++ "data: [DONE]" :: after)).
    { apply Forall_app in Hnl as [Hb Ha]. apply Forall_app.
      split; [exact Hb |]. constructor; [reflexivity | exact Ha]. }
    rewrite (StreamProperties.chunkLines_joinLines _ Hall), List.filter_app.
    rewrite existsb_app. cbn [List.filter].
    change (StreamProperties.nonblank "data: [DONE]") with true. cbv iota.
    cbn [existsb]. change (isTerminator "data: [DONE]") with true.
    rewrite orb_true_l, orb_true_r. reflexivity.
Qed.

(** A configuration that names a model of the default provider. *)
Definition largeModel : list (string * JSValue) :=
  [("ai", JObj [("model", JStr "mistral-large-latest");
                ("temperature", JNum (Dec 2 (-1)))])].

Lemma manager_streaming_misses_mistral_sink_witness :
  result (generateStreamingResponse manager [Msg (JStr "user") (JStr "Hi")]
            (JObj largeModel) (fun _ => HttpOk [StreamProperties.threeDeltas])
            (fun _ => 0%Q))
  = inr {| delivered := []; escaped := Some (TypeError "onChunk") |} /\
  Forall (fun r => rModel r = JStr "mistral-small" /\
                   rTemperature r = JNum (Dec 7 (-1)) /\
                   rMaxTokens r = JNum (ofZ 1000))
         (requests (generateStreamingResponse manager [Msg (JStr "user") (JStr "Hi")]
                      (JObj largeModel)
                      (fun _ => HttpOk [StreamProperties.threeDeltas])
                      (fun _ => 0%Q))).
Proof.
  destruct (manager_streaming_misses_mistral_sink [Msg (JStr "user") (JStr "Hi")]
              largeModel (fun _ => HttpOk [StreamProperties.threeDeltas])
              (fun _ => 0%Q) eq_refl) as (_ & Hreq & _ & Hdone).
  split; [| exact Hreq].
  apply (Hdone [StreamProperties.deltaLine "Hel"; EmptyString;
                StreamProperties.deltaLine "lo"; EmptyString;
                StreamProperties.deltaLine "!"; EmptyString]
               [EmptyString]).
  - repeat constructor.
  - reflexivity.
Defined.

End ManagerProperties.

(* ===================================================================== *)
(** ** Properties of the catalog and of the routes that use it *)
(* ===================================================================== *)

Module CatalogProperties.
Import JS Provider Inventory Catalog NumberProperties.

(** What a required trimmed String path stores is the trimmed cast of the
    value, and it is not empty. *)
Lemma castRequiredString_trim (v : JSValue) (n : string) :
  castRequiredString v = inr n ->
  exists s, castString v = inr s /\ n = trim s /\ n <> EmptyString.
Proof.
  unfold castRequiredString.
  destruct v; try discriminate;
    (destruct (castString _) as [e | text]; [discriminate |]);
    (destruct (trim text) eqn:Ht; [discriminate |]);
    cbv beta iota; intros [= <-]; exists text; repeat split; congruence.
Qed.

Lemma castRequiredString_string (s n : string) :
  castRequiredString (JStr s) = inr n -> n = trim s.
Proof.
  intros H. apply castRequiredString_trim in H as (t & Ht & -> & _).
  injection Ht as <-. reflexivity.
Qed.

(** *** The routes as [server.js] wires them *)

(** X14.  In [server.js] the inventory route modules are required before
    the connection callback registers the models on [global], and they
    copy [global.InventoryProduct] and [global.InventoryOrder] into
    constants when they are loaded.  After the boot the global object holds
    the models, but the constants of the route modules are [undefined].
    With these constants [/check] never answers, [/add] never creates a
    product and [/update-stock] never updates one: every request that gets
    as far as the catalog ends in a [TypeError].  [/add] has by then
    enabled the inventory of the bot. *)
Theorem inventory_routes_as_wired
    (fuzzySearch : list Product -> JSValue -> list Product) (db : DB) :
  let g := fst Server.boot in
  let b := snd Server.boot in
  Server.InventoryProduct g = Some Server.ProductInventoryModel /\
  Server.InventoryOrder g = Some Server.OrderRequestModel /\
  Server.ProductInventory b = None /\ Server.OrderRequest b = None /\
  (forall query a, getCheck b fuzzySearch db query <> Answered a) /\
  (forall bot botConfig q,
     bot <> EmptyString -> truthy q = true ->
     configs db !! bot = Some botConfig ->
     truthy (inventoryEnabled botConfig) = true ->
     getCheck b fuzzySearch db [("botId", JStr bot); ("query", q)]
     = Errored (CaughtExn (TypeError "find"))) /\
  (forall body p db', postAdd b db body <> (Sent p, db')) /\
  (forall body, products (snd (postAdd b db body)) = products db) /\
  (forall bot botConfig name s stock,
     bot <> EmptyString -> truthy name = true -> truthy s = true ->
     stock <> JUndefined ->
     configs db !! bot = Some botConfig ->
     exists db',
       postAdd b db [("botId", JStr bot); ("productName", name); ("sku", s);
                     ("availableStock", stock)]
       = (Threw (CaughtExn (TypeError "findOne")), db') /\
       (exists c, configs db' !! bot = Some c /\ truthy (inventoryEnabled c) = true)) /\
  (forall body p db', patchUpdateStock b db body <> (Sent p, db')) /\
  (forall body, snd (patchUpdateStock b db body) = db).
Proof.
  intros g b.
  assert (Hb : b = {| Server.ProductInventory := None; Server.OrderRequest := None |})
    by reflexivity.
  clearbody b. subst b g.
  repeat (split; [reflexivity |]).
  split; [| split; [| split; [| split; [| split; [| split]]]]].
  - intros query a. unfold getCheck. cbn [Server.ProductInventory].
    repeat case_match; discriminate.
  - intros bot cfg q Hbot Hq Hcfg Hen. unfold getCheck.
    change (lookupLast "botId" [("botId", JStr bot); ("query", q)]) with (JStr bot).
    change (lookupLast "query" [("botId", JStr bot); ("query", q)]) with q.
    rewrite Hq. cbn [truthy findConfig castId].
    destruct (String.eqb_spec bot EmptyString) as [? | _]; [contradiction |].
    cbn [negb orb]. rewrite Hcfg, Hen. reflexivity.
  - intros body p db'. unfold postAdd. cbn [Server.ProductInventory].
    repeat case_match; discriminate.
  - intros body. unfold postAdd. cbn [Server.ProductInventory].
    repeat case_match; reflexivity.
  - intros bot cfg name s stock Hbot Hname Hs Hstock Hcfg. unfold postAdd.
    change (lookupLast "botId" [("botId", JStr bot); ("productName", name);
                                ("sku", s); ("availableStock", stock)])
      with (JStr bot).
    change (lookupLast "productName" [("botId", JStr bot); ("productName", name);
                                      ("sku", s); ("availableStock", stock)])
      with name.
    change (lookupLast "sku" [("botId", JStr bot); ("productName", name);
                              ("sku", s); ("availableStock", stock)])
      with s.
    change (lookupLast "availableStock" [("botId", JStr bot); ("productName", name);
                                         ("sku", s); ("availableStock", stock)])
      with stock.
    rewrite Hname, Hs. cbn [truthy findConfig castId].
    destruct (String.eqb_spec bot EmptyString) as [? | _]; [contradiction |].
    replace (isUndefined stock) with false by (destruct stock; simpl; congruence).
    cbn [negb orb]. rewrite Hcfg. cbn [Server.ProductInventory].
    eexists. split; [reflexivity |].
    destruct (truthy (inventoryEnabled cfg)) eqn:Hen; cbn [negb].
    + exists cfg. auto.
    + exists {| inventoryEnabled := JBool true |}. cbn [configs setConfigs].
      rewrite lookup_insert_eq. auto.
  - intros body p db'. unfold patchUpdateStock. cbn [Server.ProductInventory].
    repeat case_match; discriminate.
  - intros body. unfold patchUpdateStock. cbn [Server.ProductInventory].
    repeat case_match; reflexivity.
Qed.

(** *** The chat routes *)

Section ChatRoutes.

Variable fuzzySearch : list Product -> JSValue -> list Product.

(** The search selects among the products it is given. *)
Definition selects : Prop :=
  forall ps q p, In p (fuzzySearch ps q) -> In p ps.

(** X15.  [/check] and [/order] agree.  Whenever [/order] answers for a
    bot and a product text, [/check] for the same bot and text, on the same
    store, answers too.  If [/check] reports a product, the order is
    recorded under the name of that product, and it is confirmed exactly
    when the reported stock is at least the requested quantity.  If
    [/check] reports none, the order is recorded as pending under the text
    the user gave, cast as the schema casts a name. *)
Theorem check_then_order (db : DB) (fresh : string) (body : list (string * JSValue))
    (bot : string) (name : JSValue) (o : Order) (db' : DB) :
  selects ->
  lookupLast "botId" body = JStr bot -> lookupLast "productName" body = name ->
  postOrder fuzzySearch db fresh body = (Answered o, db') ->
  let check := getCheck Server.bound fuzzySearch db
                 [("botId", JStr bot); ("query", name)] in
  (exists a, check = Answered a) /\
  (forall l, check = Answered (Found l) ->
     oProductName o = trim (lProductName l) /\
     (oStatus o = confirmed <->
      geValue (lAvailableStock l) (lookupLast "requestedQty" body) = true)) /\
  (check = Answered NoProductsAvailable \/ check = Answered NoMatchingProducts ->
   oStatus o = pending /\ castRequiredString name = inr (oProductName o) /\
   (forall text, name = JStr text -> oProductName o = trim text)).
Proof.
  intros Hsel Hbot Hname Hrun check. subst check.
  unfold postOrder in Hrun. rewrite Hbot, Hname in Hrun.
  unfold getCheck.
  change (lookupLast "botId" [("botId", JStr bot); ("query", name)]) with (JStr bot).
  change (lookupLast "query" [("botId", JStr bot); ("query", name)]) with name.
  destruct (negb (truthy (JStr bot))) eqn:Hb; [discriminate Hrun |].
  destruct (negb (truthy name)) eqn:Hn; [discriminate Hrun |].
  cbn [orb] in Hrun |- *. destruct (_ || _); [discriminate Hrun |].
  cbn [castId] in Hrun |- *.
  destruct (findConfig db (JStr bot)) as [e | [cfg |]]; try discriminate Hrun.
  destruct (negb (truthy (inventoryEnabled cfg))); [discriminate Hrun |].
  change (Server.ProductInventory Server.bound)
    with (Some Server.ProductInventoryModel). cbv iota.
  destruct (createOrder _ _ _ _ _ _ _ _ _) as [e | [o0 db1]] eqn:Hcreate;
    [discriminate Hrun |].
  pose proof (OrderProperties.createOrder_inv _ _ _ _ _ _ _ _ _ _ _ Hcreate)
    as (_ & _ & _ & Hst & _ & _).
  apply OrderProperties.createOrder_fields in Hcreate as (_ & Hnm & _).
  assert (Hempty : fuzzySearch [] name = []).
  { destruct (fuzzySearch [] name) as [| p ps] eqn:Hs; [reflexivity |].
    exfalso. apply (Hsel [] name p). rewrite Hs. left. reflexivity. }
  assert (Htext : forall n, castRequiredString name = inr n ->
                            forall text, name = JStr text -> n = trim text).
  { intros n Hcast text ->. exact (castRequiredString_string _ _ Hcast). }
  destruct (findProducts db bot) as [| p0 ps] eqn:Hps.
  - rewrite Hempty in Hrun, Hnm. cbn [head] in Hrun, Hnm.
    injection Hrun as <- <-.
    split; [eauto |]. split; [discriminate |]. eauto.
  - destruct (fuzzySearch (p0 :: ps) name) as [| p rest] eqn:Hs;
      cbn [head] in Hrun, Hnm.
    + injection Hrun as <- <-.
      split; [eauto |]. split; [discriminate |]. eauto.
    + split; [eauto |]. split; [| intros [H | H]; discriminate H].
      intros l [= <-]. cbn [listing lProductName lAvailableStock] in *.
      apply castRequiredString_string in Hnm.
      destruct (geValue (availableStock p) (lookupLast "requestedQty" body));
        injection Hrun as <- <-; cbn [withStatus oProductName oStatus].
      * split; [exact Hnm |]. split; reflexivity.
      * split; [exact Hnm |]. rewrite Hst. split; discriminate.
Qed.


End ChatRoutes.

Lemma sampleSearch_selects : selects OrderProperties.sampleSearch.
Proof.
  intros ps q p Hin. unfold OrderProperties.sampleSearch in Hin.
  apply List.filter_In in Hin as [Hin _]. exact Hin.
Qed.

Lemma check_then_order_witness :
  getCheck Server.bound OrderProperties.sampleSearch OrderProperties.shop
    [("botId", JStr "bot1"); ("query", JStr "printer")]
  = Answered (Found (listing OrderProperties.printer)) /\
  oProductName OrderProperties.placed = trim "Printer" /\
  (oStatus OrderProperties.placed = confirmed <->
   geValue (Fin (ofZ 10)) (JNum (ofZ 3)) = true).
Proof.
  split; [reflexivity |].
  destruct (check_then_order OrderProperties.sampleSearch OrderProperties.shop "o1"
              (OrderProperties.orderBody "printer" 3) "bot1" (JStr "printer")
              OrderProperties.placed _ sampleSearch_selects eq_refl eq_refl
              OrderProperties.postOrder_sample) as (_ & Hfound & _).
  exact (Hfound (listing OrderProperties.printer) eq_refl).
Defined.



Definition strayBody : list (string * JSValue) :=
  OrderProperties.orderBody "printer" 3 ++ [("sessionId", JStr "s1")].


Lemma postOrder_stray :
  postOrder OrderProperties.sampleSearch OrderProperties.shop "o1" strayBody
  = (Errored (CaughtStore ValidationError), OrderProperties.shop).
Proof. vm_compute. reflexivity. Qed.


(** *** The branches of the intent route *)

Section IntentBranches.

Variable fuzzySearch : list Product -> JSValue -> list Product.

Lemma truthy_positive (q : decimal) : numLt zero (Fin q) -> truthy (JNum q) = true.
Proof.
  intros Hq. apply numLt_zero in Hq as [Hq | (d & [= <-] & Hq)]; [discriminate Hq |].
  apply (proj2 (isPositive_lt q)) in Hq.
  unfold isPositive in Hq. apply Z.ltb_lt in Hq.
  cbn [truthy]. unfold isZero.
  destruct (Z.eqb_spec (mant q) 0); [lia | reflexivity].
Qed.

Lemma castRequiredString_text (s : string) :
  trim s <> EmptyString -> castRequiredString (JStr s) = inr (trim s).
Proof.
  intros Hs. unfold castRequiredString. cbn [castString toString].
  destruct (trim s); [contradiction | reflexivity].
Qed.

(** X17.  The order branch of the intent route, from a resolved order
    intent on, when the first match of the search has at least the quantity
    asked for.  If the quantity is at least one and the message and the
    user of the request cast as the schema asks, the route stores exactly
    one order, confirmed, for that quantity, under the name of the matched
    product, with the message as it was written, the user trimmed and the
    session of the request, and answers with the confirmation.  If the
    message or the user does not cast, or if the quantity is positive but
    below one (the stock test passes all the same), the order is rejected
    by the schema, and the route ends in a validation error with the store
    unchanged. *)
Theorem intent_order_branch_confirms (db : DB) (fresh bot : string)
    (message userId : JSValue) (sid : string) (intentData : JSValue) (p : Product)
    (q : decimal) :
  getProp intentData "intent" = inr (JStr "order_intent") ->
  truthy (getPropOpt intentData "productName") = true ->
  getPropOpt intentData "quantity" = JNum q ->
  findProducts db bot <> [] ->
  head (fuzzySearch (findProducts db bot) (getPropOpt intentData "productName"))
  = Some p ->
  trim (productName p) <> EmptyString ->
  numLt zero (Fin q) -> numLe (Fin q) (availableStock p) ->
  let run := processIntent fuzzySearch db fresh (JStr bot) message userId
               sid intentData in
  (numLe (Fin (ofZ 1)) (Fin q) ->
   (forall text user,
      castRequiredText message = inr text -> castOptionalString userId = inr user ->
      exists o,
        run = (Answered (OrderConfirmed (JNum q) p), setOrders db (orders db ++ [o])) /\
        oStatus o = confirmed /\ oId o = fresh /\ oBotId o = bot /\
        oProductName o = trim (productName p) /\ requestedQty o = Fin q /\
        userQuery o = text /\ oUserId o = user /\ oSessionId o = JStr sid /\
        notes o = JUndefined) /\
   ((exists e, castRequiredText message = inl e) \/
    (exists e, castOptionalString userId = inl e) ->
    run = (Errored (CaughtStore ValidationError), db))) /\
  (~ numLe (Fin (ofZ 1)) (Fin q) ->
   run = (Errored (CaughtStore ValidationError), db)).
Proof.
  intros Hintent Hname Hqty Hcat Hmatch Hpn Hpos Hle run. subst run.
  unfold processIntent. rewrite Hintent, Hname, Hqty.
  change (strictEqStr (JStr "order_intent") "inventory_check") with false.
  change (strictEqStr (JStr "order_intent") "order_intent") with true.
  rewrite (truthy_positive q Hpos). cbn [andb castId].
  destruct (findProducts db bot) as [| p0 ps] eqn:Hps; [congruence |].
  destruct (fuzzySearch (p0 :: ps) (getPropOpt intentData "productName"))
    as [| p1 rest]; [discriminate |].
  injection Hmatch as ->.
  assert (Hge : geValue (availableStock p) (JNum q) = true).
  { unfold geValue. cbn [toNumber]. apply numLeb_le, Hle. }
  rewrite Hge. unfold createOrder. cbn [castId onSave].
  rewrite (castRequiredString_text _ Hpn).
  unfold castQty. cbn [toNumber onSave]. split.
  - intros Hone. rewrite (proj2 (numLeb_le _ _) Hone). cbn [onSave]. split.
    + intros text user Htext Huser. rewrite Htext, Huser. cbn [onSave].
      eexists. split; [reflexivity |]. cbn. auto 12.
    + intros [[e He] | [e He]]; rewrite He; cbn [onSave].
      * destruct (castOptionalString userId); reflexivity.
      * destruct (castRequiredText message); reflexivity.
  - intros Hlow. destruct (numLeb (Fin (ofZ 1)) (Fin q)) eqn:Hl.
    + exfalso. apply Hlow, numLeb_le, Hl.
    + cbn [onSave].
      destruct (castRequiredText message), (castOptionalString userId);
        reflexivity.
Qed.

(** X18.  The stock-check branch of the intent route, from a resolved
    stock-check intent on: whatever quantity the intent carries, the route
    writes nothing.  It answers that there are no products when the bot has
    none, that the product was not found when the search has no result, and
    otherwise that the first match is available if its stock is above zero
    and out of stock if it is not. *)
Theorem intent_stock_check_reads_only (db : DB) (fresh bot : string)
    (message userId : JSValue) (sid : string) (intentData : JSValue) :
  getProp intentData "intent" = inr (JStr "inventory_check") ->
  truthy (getPropOpt intentData "productName") = true ->
  let name := getPropOpt intentData "productName" in
  let run := processIntent fuzzySearch db fresh (JStr bot) message userId sid
               intentData in
  snd run = db /\
  (findProducts db bot = [] -> fst run = Answered NoProducts) /\
  (findProducts db bot <> [] ->
   (fuzzySearch (findProducts db bot) name = [] ->
    fst run = Answered (NotFound name)) /\
   (forall p, head (fuzzySearch (findProducts db bot) name) = Some p ->
      (numLt zero (availableStock p) -> fst run = Answered (Available p)) /\
      (~ numLt zero (availableStock p) -> fst run = Answered (OutOfStock p)))).
Proof.
  intros Hintent Hname name run. subst name run.
  unfold processIntent. rewrite Hintent, Hname.
  change (strictEqStr (JStr "inventory_check") "inventory_check") with true.
  cbn [andb castId].
  destruct (findProducts db bot) as [| p0 ps] eqn:Hps.
  - split; [reflexivity |]. split; [reflexivity | congruence].
  - destruct (fuzzySearch (p0 :: ps) (getPropOpt intentData "productName"))
      as [| p1 rest] eqn:Hs.
    + split; [reflexivity |]. split; [discriminate |]. intros _.
      split; [reflexivity | discriminate].
    + destruct (numLtb zero (availableStock p1)) eqn:Hp;
        (split; [reflexivity |]); (split; [discriminate |]); intros _;
        (split; [discriminate |]); intros p [= <-]; split; intros Hq;
        try reflexivity; exfalso.
      * apply Hq, numLtb_lt, Hp.
      * apply numLtb_lt in Hq. congruence.
Qed.

(** X19.  A request to the intent route that names no session, for a bot
    with the inventory enabled, leaves a new session in the store whatever
    becomes of the request, provided the user of the request casts to a
    text: the session is created before the model is asked, it holds the
    user as the request wrote it (a string is stored as it is, blanks
    included), and it stays when the call of the model is rejected.
    Nothing else is written.  A user that does not cast ends the request
    in a validation error before anything is written. *)
Theorem intent_route_creates_session (db : DB) (freshSession freshOrder : string)
    (body : list (string * JSValue)) (bot : string) (botConfig : BotConfig)
    (http : nat -> HttpResult JSValue) (random : nat -> Q) (latency : decimal) :
  lookupLast "botId" body = JStr bot -> bot <> EmptyString ->
  truthy (lookupLast "userId" body) = true ->
  truthy (lookupLast "message" body) = true ->
  truthy (lookupLast "sessionId" body) = false ->
  configs db !! bot = Some botConfig ->
  truthy (inventoryEnabled botConfig) = true ->
  let run := postIntent fuzzySearch db freshSession freshOrder body http random
               latency in
  (forall user, castRequiredText (lookupLast "userId" body) = inr user ->
     snd run = setSessions db (<[freshSession := {| configId := bot; sUserId := user |}]>
                                 (sessions db)) /\
     ((exists a, fst run = Answered a) \/
      (exists rejection, fst run = Errored (CaughtReject rejection)))) /\
  (forall user, lookupLast "userId" body = JStr user ->
     castRequiredText (lookupLast "userId" body) = inr user) /\
  (forall e, castRequiredText (lookupLast "userId" body) = inl e ->
     run = (Errored (CaughtStore ValidationError), db)).
Proof.
  intros Hbot Hb Hu Hmsg Hsid Hcfg Hen run. subst run.
  unfold postIntent. rewrite Hbot, Hu, Hmsg, Hsid.
  cbn [truthy findConfig castId onSave].
  destruct (String.eqb_spec bot EmptyString) as [? | _]; [contradiction |].
  cbn [negb orb]. rewrite Hcfg, Hen. cbn [negb].
  split; [| split].
  - intros user Hcast. rewrite Hcast. cbn [onSave].
    destruct (result (AIClientManager.generateResponse _ _ _ _ _ _))
      as [rejection | intentAnalysis] eqn:Hcall.
    + split; [reflexivity |]. right. eauto.
    + apply OrderProperties.reply_has_no_content in Hcall.
      assert (Hd : resolveIntent intentAnalysis = defaultIntent)
        by (unfold resolveIntent; rewrite Hcall; reflexivity).
      rewrite Hd, OrderProperties.default_intent_asks_to_help.
      split; [reflexivity |]. left. eauto.
  - intros user Huser. rewrite Huser in Hu |- *.
    destruct user; [discriminate Hu | reflexivity].
  - intros e Hcast. rewrite Hcast. reflexivity.
Qed.

End IntentBranches.

(** A user as an object of the request, which no String path takes. *)
Definition userObject : JSValue := JObj [("name", JStr "u1")].

Lemma intent_order_branch_confirms_witness :
  (exists o,
     processIntent OrderProperties.sampleSearch OrderProperties.shop "o1" (JStr "bot1")
       (JStr " I want to order 3 printers ") (JStr " u1 ") "s1"
       (OrderProperties.orderIntent "printer" 3)
     = (Answered (OrderConfirmed (JNum (ofZ 3)) OrderProperties.printer),
        setOrders OrderProperties.shop (orders OrderProperties.shop ++ [o])) /\
     oStatus o = confirmed /\ requestedQty o = Fin (ofZ 3) /\
     userQuery o = " I want to order 3 printers " /\ oUserId o = JStr "u1") /\
  processIntent OrderProperties.sampleSearch OrderProperties.shop "o1" (JStr "bot1")
    (JStr "I want to order 3 printers") userObject "s1"
    (OrderProperties.orderIntent "printer" 3)
  = (Errored (CaughtStore ValidationError), OrderProperties.shop).
Proof.
  split.
  - destruct (intent_order_branch_confirms OrderProperties.sampleSearch
                OrderProperties.shop "o1" "bot1" (JStr " I want to order 3 printers ")
                (JStr " u1 ") "s1" (OrderProperties.orderIntent "printer" 3)
                OrderProperties.printer (ofZ 3) eq_refl eq_refl eq_refl
                ltac:(discriminate) eq_refl ltac:(discriminate)
                ltac:(apply numLtb_lt; reflexivity)
                ltac:(apply numLeb_le; reflexivity))
      as [Hone _].
    destruct Hone as [Hstored _]; [apply numLeb_le; reflexivity |].
    destruct (Hstored " I want to order 3 printers " (JStr "u1") eq_refl eq_refl)
      as (o & Hrun & Hst & _ & _ & _ & Hq & Htext & Huser & _).
    exists o. auto.
  - destruct (intent_order_branch_confirms OrderProperties.sampleSearch
                OrderProperties.shop "o1" "bot1" (JStr "I want to order 3 printers")
                userObject "s1" (OrderProperties.orderIntent "printer" 3)
                OrderProperties.printer (ofZ 3) eq_refl eq_refl eq_refl
                ltac:(discriminate) eq_refl ltac:(discriminate)
                ltac:(apply numLtb_lt; reflexivity)
                ltac:(apply numLeb_le; reflexivity))
      as [Hone _].
    destruct Hone as [_ Hfails]; [apply numLeb_le; reflexivity |].
    apply Hfails. right. exists CastError. reflexivity.
Defined.

Lemma intent_stock_check_reads_only_witness :
  fst (processIntent OrderProperties.sampleSearch OrderProperties.shop "o1"
         (JStr "bot1") (JStr "Do you have printers?") (JStr "u1") "s1"
         (JObj [("intent", JStr "inventory_check"); ("productName", JStr "printer");
                ("quantity", JNum (ofZ 500))]))
  = Answered (Available OrderProperties.printer).
Proof.
  destruct (intent_stock_check_reads_only OrderProperties.sampleSearch
              OrderProperties.shop "o1" "bot1" (JStr "Do you have printers?")
              (JStr "u1") "s1"
              (JObj [("intent", JStr "inventory_check");
                     ("productName", JStr "printer");
                     ("quantity", JNum (ofZ 500))]) eq_refl eq_refl)
    as (_ & _ & Hsome).
  destruct Hsome as [_ Hmatch]; [discriminate |].
  destruct (Hmatch OrderProperties.printer eq_refl) as [Havail _].
  apply Havail. apply numLtb_lt. reflexivity.
Defined.

Lemma intent_route_creates_session_witness :
  sessions (snd (postIntent OrderProperties.sampleSearch OrderProperties.shop
                   "s2" "o1"
                   [("botId", JStr "bot1"); ("message", JStr "hello");
                    ("userId", JStr " u7 ")]
                   (fun _ => HttpFail ClientProperties.forbidden)
                   ClientProperties.half (ofZ 0)))
  !! "s2" = Some {| configId := "bot1"; sUserId := " u7 " |} /\
  postIntent OrderProperties.sampleSearch OrderProperties.shop "s2" "o1"
    [("botId", JStr "bot1"); ("message", JStr "hello"); ("userId", userObject)]
    (fun _ => HttpFail ClientProperties.forbidden) ClientProperties.half (ofZ 0)
  = (Errored (CaughtStore ValidationError), OrderProperties.shop).
Proof.
  split.
  - destruct (intent_route_creates_session OrderProperties.sampleSearch
                OrderProperties.shop "s2" "o1"
                [("botId", JStr "bot1"); ("message", JStr "hello");
                 ("userId", JStr " u7 ")]
                "bot1" {| inventoryEnabled := JBool true |}
                (fun _ => HttpFail ClientProperties.forbidden)
                ClientProperties.half (ofZ 0)
                eq_refl ltac:(discriminate) eq_refl eq_refl eq_refl eq_refl eq_refl)
      as (Hstored & Htext & _).
    destruct (Hstored " u7 " (Htext " u7 " eq_refl)) as [Hdb _].
    rewrite Hdb. cbn [sessions setSessions]. apply lookup_insert_eq.
  - destruct (intent_route_creates_session OrderProperties.sampleSearch
                OrderProperties.shop "s2" "o1"
                [("botId", JStr "bot1"); ("message", JStr "hello");
                 ("userId", userObject)]
                "bot1" {| inventoryEnabled := JBool true |}
                (fun _ => HttpFail ClientProperties.forbidden)
                ClientProperties.half (ofZ 0)
                eq_refl ltac:(discriminate) eq_refl eq_refl eq_refl eq_refl eq_refl)
      as (_ & _ & Hfails).
    exact (Hfails CastError eq_refl).
Defined.

(** *** The catalog under the routes that write *)

(** The key of the unique index of the product collection. *)
Definition key (p : Product) : string * string := (pBotId p, sku p).

(** No two products of a bot share a SKU, and no stock is negative. *)
Definition wellFormed (db : DB) : Prop :=
  NoDup (map key (products db)) /\
  Forall (fun p => numLe zero (availableStock p)) (products db).

Lemma wellFormed_products (db db' : DB) :
  products db' = products db -> wellFormed db -> wellFormed db'.
Proof. unfold wellFormed. intros ->. auto. Qed.

Lemma updateFirst_keys (test : Product -> bool) (g : Product -> number)
    (l : list Product) :
  map key (updateFirst test (fun p => withStock p (g p)) l) = map key l.
Proof.
  induction l as [| x l IH]; [reflexivity |].
  cbn [updateFirst]. destruct (test x); cbn [map]; [reflexivity |].
  rewrite IH. reflexivity.
Qed.

Lemma updateFirst_Forall {A} (P : A -> Prop) (test : A -> bool) (f : A -> A)
    (l : list A) :
  (forall x, test x = true -> P (f x)) -> Forall P l -> Forall P (updateFirst test f l).
Proof.
  intros Hf. induction 1 as [| x l Hx Hl IH]; [constructor |].
  cbn [updateFirst]. destruct (test x) eqn:Ht; constructor; auto.
Qed.

Lemma find_none_key (bot s : string) (l : list Product) :
  find (sameSku bot s) l = None -> ~ In (bot, s) (map key l).
Proof.
  induction l as [| x l IH]; [intros _ []|].
  cbn [find map]. destruct (sameSku bot s x) eqn:Hx; [discriminate |].
  intros Hnone [Hk | Hin]; [| exact (IH Hnone Hin)].
  unfold sameSku, key in *. injection Hk as <- <-.
  rewrite !String.eqb_refl in Hx. discriminate Hx.
Qed.

Lemma castStock_nonneg (v : JSValue) (d : number) :
  castStock v = inr d -> numLe zero d.
Proof.
  unfold castStock. intros H.
  assert (Hvalid : exists n, validStock n = inr d).
  { destruct v as [| | b | n | t | l | f]; try discriminate H; eauto.
    destruct t; [discriminate H | eauto]. }
  destruct Hvalid as [n Hn].
  apply OrderProperties.validStock_inr in Hn as [-> Hn].
  apply numLeb_le, Hn.
Qed.

Lemma createProduct_inv (db : DB) (botId name skuValue stock unitValue : JSValue)
    (p : Product) (db' : DB) :
  createProduct db botId name skuValue stock unitValue = inr (p, db') ->
  db' = setProducts db (products db ++ [p]) /\
  castId botId = inr (pBotId p) /\
  castRequiredString name = inr (productName p) /\
  castRequiredString skuValue = inr (sku p) /\
  castStock stock = inr (availableStock p) /\
  castTrimmed unitValue = inr (unit p).
Proof.
  unfold createProduct, onSave.
  destruct (castId botId) as [e1 | b], (castRequiredString name) as [e2 | n],
    (castRequiredString skuValue) as [e3 | s], (castStock stock) as [e4 | d],
    (castTrimmed unitValue) as [e5 | u]; try discriminate.
  intros [= <- <-]. cbn. auto 10.
Qed.

Lemma castTrimmed_required (v : JSValue) (s s' : string) :
  castTrimmed v = inr s -> castRequiredString v = inr s' -> s' = s.
Proof.
  intros Ht Hr. apply castRequiredString_trim in Hr as (t & Hcast & -> & _).
  unfold castTrimmed in Ht. rewrite Hcast in Ht. congruence.
Qed.

Section Writers.

Variable fuzzySearch : list Product -> JSValue -> list Product.
Variable bindings : Server.Bindings.

Lemma postOrder_products (db : DB) (fresh : string) (body : list (string * JSValue)) :
  products (snd (postOrder fuzzySearch db fresh body)) = products db.
Proof.
  unfold postOrder.
  repeat case_match; simplify_eq; try reflexivity;
    match goal with
    | Hc : createOrder _ _ _ _ _ _ _ _ _ = inr _ |- _ =>
        apply OrderProperties.createOrder_inv in Hc as (_ & Hp & _); exact Hp
    end.
Qed.

Lemma processIntent_products (db : DB) (fresh : string) (botId message userId : JSValue)
    (sid : string) (intentData : JSValue) :
  products (snd (processIntent fuzzySearch db fresh botId message userId sid intentData))
  = products db.
Proof.
  destruct (processIntent fuzzySearch db fresh botId message userId sid intentData)
    as [r db'] eqn:Hrun.
  destruct (OrderProperties.processIntent_inv fuzzySearch _ _ _ _ _ _ _ _ _ Hrun)
    as [-> | (o & p & bot & _ & _ & _ & Hcreate & _)]; [reflexivity |].
  apply OrderProperties.createOrder_inv in Hcreate as (_ & Hp & _). exact Hp.
Qed.

Lemma postAdd_wellFormed (db : DB) (body : list (string * JSValue)) :
  wellFormed db -> wellFormed (snd (postAdd bindings db body)).
Proof.
  intros Hwf. unfold postAdd.
  destruct (_ || _); [exact Hwf |].
  destruct (castId (lookupLast "botId" body)) as [e | bot] eqn:Hbot;
    [destruct (findConfig db (lookupLast "botId" body)); exact Hwf |].
  destruct (findConfig db (lookupLast "botId" body)) as [e | [cfg |]];
    try exact Hwf.
  set (db1 := if negb (truthy (inventoryEnabled cfg)) then _ else db).
  assert (Hp1 : products db1 = products db)
    by (subst db1; destruct (negb _); reflexivity).
  pose proof (wellFormed_products db db1 Hp1 Hwf) as Hwf1.
  destruct (Server.ProductInventory bindings); [| exact Hwf1].
  destruct (castTrimmed (lookupLast "sku" body)) as [e | s] eqn:Hsku;
    [exact Hwf1 |].
  destruct (find (sameSku bot s) (products db1)) eqn:Hfind; [exact Hwf1 |].
  destruct (createProduct _ _ _ _ _ _) as [e | [item db2]] eqn:Hcreate;
    [exact Hwf1 |].
  apply createProduct_inv in Hcreate as (-> & Hb & _ & Hs & Hstock & _).
  rewrite Hbot in Hb. injection Hb as Hb.
  pose proof (castTrimmed_required _ _ _ Hsku Hs) as Hs'.
  destruct Hwf1 as [Hnd Hst]. split; cbn [snd products setProducts].
  - rewrite map_app. cbn [map]. apply NoDup_app. split; [exact Hnd |].
    split; [| apply NoDup_singleton].
    intros k Hk Hin. apply list_elem_of_In in Hk.
    apply list_elem_of_In in Hin. destruct Hin as [<- | []].
    apply find_none_key in Hfind. apply Hfind.
    unfold key in Hk. rewrite <- Hb, Hs' in Hk. exact Hk.
  - apply Forall_app. split; [exact Hst |]. constructor; [| constructor].
    exact (castStock_nonneg _ _ Hstock).
Qed.

Lemma patchUpdateStock_wellFormed (db : DB) (body : list (string * JSValue)) :
  wellFormed db -> wellFormed (snd (patchUpdateStock bindings db body)).
Proof.
  intros Hwf. unfold patchUpdateStock.
  destruct (_ || _); [exact Hwf |].
  destruct (Server.ProductInventory bindings); [| exact Hwf].
  destruct (castId (lookupLast "botId" body)) as [e | bot];
    [destruct (castTrimmed (lookupLast "sku" body)); exact Hwf |].
  destruct (castTrimmed (lookupLast "sku" body)) as [e | s]; [exact Hwf |].
  destruct (find (sameSku bot s) (products db)); [| exact Hwf].
  unfold onSave.
  destruct (castStock (lookupLast "availableStock" body)) as [e | d] eqn:Hstock;
    [exact Hwf |].
  destruct Hwf as [Hnd Hst]. split; cbn [snd products setProducts].
  - rewrite (updateFirst_keys (sameSku bot s) (fun _ => d)). exact Hnd.
  - apply updateFirst_Forall; [| exact Hst].
    intros x _. cbn [withStock availableStock].
    exact (castStock_nonneg _ _ Hstock).
Qed.

Lemma patchOrder_wellFormed (db : DB) (id : string) (body : list (string * JSValue)) :
  wellFormed db -> wellFormed (snd (patchOrder db id body)).
Proof.
  intros Hwf. unfold patchOrder.
  destruct (isStatusName (lookupLast "status" body)) as [st |]; [| exact Hwf].
  destruct (find _ (orders db)) as [found |]; [| exact Hwf].
  destruct (if truthy (lookupLast "notes" body) then _ else _) as [e | n];
    [exact Hwf |].
  set (o1 := withNotes (withStatus found st) n).
  cbv zeta. change (products (saveOrder db o1)) with (products db).
  assert (Hwf1 : wellFormed (saveOrder db o1))
    by (apply (wellFormed_products db); [reflexivity | exact Hwf]).
  destruct st; try exact Hwf1.
  destruct (find _ (products db)) as [product |] eqn:Hfind; [| exact Hwf1].
  destruct (numLeb (requestedQty o1) (availableStock product)); [| exact Hwf1].
  destruct (onSave (validStock _)) as [e | stock] eqn:Hsave; [exact Hwf1 |].
  apply OrderProperties.onSave_inr, OrderProperties.validStock_inr in Hsave
    as [Heq Hpos].
  rewrite <- Heq in Hpos.
  destruct Hwf as [Hnd Hst]. split; cbn [snd products setProducts].
  - rewrite (updateFirst_keys _ (fun _ => stock)). exact Hnd.
  - apply updateFirst_Forall; [| exact Hst].
    intros x _. cbn [withStock availableStock]. apply numLeb_le, Hpos.
Qed.

(** X21.  Two invariants of the catalog hold under every route that
    writes to the store, whatever the request and whether or not the route
    module has its models: no two products of a bot share a SKU, and no
    product has a negative stock.  [/add] refuses a SKU the bot already
    has and a negative stock; [/update-stock] rejects a negative stock; the
    order-status update takes a quantity off only where at least that much
    is there; [/order] and the intent route do not write products. *)
Theorem catalog_invariants_preserved (db : DB) :
  wellFormed db ->
  (forall body, wellFormed (snd (postAdd bindings db body))) /\
  (forall body, wellFormed (snd (patchUpdateStock bindings db body))) /\
  (forall id body, wellFormed (snd (patchOrder db id body))) /\
  (forall fresh body, wellFormed (snd (postOrder fuzzySearch db fresh body))) /\
  (forall fresh botId message userId sid intentData,
     wellFormed (snd (processIntent fuzzySearch db fresh botId message userId sid
                        intentData))).
Proof.
  intros Hwf.
  split; [intros; apply postAdd_wellFormed, Hwf |].
  split; [intros; apply patchUpdateStock_wellFormed, Hwf |].
  split; [intros; apply patchOrder_wellFormed, Hwf |].
  split; intros.
  - apply (wellFormed_products db); [apply postOrder_products | exact Hwf].
  - apply (wellFormed_products db); [apply processIntent_products | exact Hwf].
Qed.

End Writers.

Lemma shop_wellFormed : wellFormed OrderProperties.shop.
Proof.
  split.
  - cbn. apply NoDup_cons. split; [| apply NoDup_singleton].
    intros H. apply list_elem_of_In in H. destruct H as [H | []].
    discriminate H.
  - repeat constructor; apply numLeb_le; reflexivity.
Qed.

Definition laptopBody : list (string * JSValue) :=
  [("botId", JStr "bot1"); ("productName", JStr " Laptop "); ("sku", JStr "LP-1");
   ("availableStock", JStr "5")].

Lemma catalog_invariants_preserved_witness :
  wellFormed (snd (postAdd Server.bound OrderProperties.shop laptopBody)) /\
  length (products (snd (postAdd Server.bound OrderProperties.shop laptopBody)))
  = 3%nat.
Proof.
  destruct (catalog_invariants_preserved OrderProperties.sampleSearch Server.bound
              OrderProperties.shop shop_wellFormed) as (Hadd & _).
  split; [apply Hadd | reflexivity].
Defined.

(** *** The admin routes *)

Lemma find_first (test : Product -> bool) (l1 l2 : list Product) (x : Product) :
  Forall (fun y => test y = false) l1 -> test x = true ->
  find test (l1 ++ x :: l2) = Some x.
Proof.
  intros Hall Hx. induction Hall as [| y l Hy _ IH]; cbn [app find].
  - rewrite Hx. reflexivity.
  - rewrite Hy. exact IH.
Qed.

Lemma updateFirst_first (test : Product -> bool) (f : Product -> Product)
    (l1 l2 : list Product) (x : Product) :
  Forall (fun y => test y = false) l1 -> test x = true ->
  updateFirst test f (l1 ++ x :: l2) = l1 ++ f x :: l2.
Proof.
  intros Hall Hx. induction Hall as [| y l Hy _ IH]; cbn [app updateFirst].
  - rewrite Hx. reflexivity.
  - rewrite Hy, IH. reflexivity.
Qed.

(** X20.  [/update-stock] sets the stock of one product and nothing else.
    When it sends a product, that product is the first one of the bot with
    the SKU given, with its stock replaced by the number given, which is
    not negative; it sits in the store where the old one sat, every other
    product, the orders, the sessions and the configurations are as
    before; looking the SKU up afterwards yields the product sent, and the
    same request once more changes nothing. *)
Theorem update_stock_round_trip (db : DB) (body : list (string * JSValue))
    (p' : Product) (db' : DB) :
  patchUpdateStock Server.bound db body = (Sent p', db') ->
  exists bot s d l1 p l2,
    castId (lookupLast "botId" body) = inr bot /\
    castTrimmed (lookupLast "sku" body) = inr s /\
    castStock (lookupLast "availableStock" body) = inr d /\
    numLe zero d /\
    products db = l1 ++ p :: l2 /\
    Forall (fun x => sameSku bot s x = false) l1 /\ sameSku bot s p = true /\
    p' = withStock p d /\
    db' = setProducts db (l1 ++ p' :: l2) /\
    find (sameSku bot s) (products db') = Some p' /\
    patchUpdateStock Server.bound db' body = (Sent p', db').
Proof.
  unfold patchUpdateStock.
  change (Server.ProductInventory Server.bound)
    with (Some Server.ProductInventoryModel). cbv iota.
  destruct (_ || _) eqn:Hvalid; [discriminate |].
  destruct (castId (lookupLast "botId" body)) as [e | bot];
    [destruct (castTrimmed (lookupLast "sku" body)); discriminate |].
  destruct (castTrimmed (lookupLast "sku" body)) as [e | s]; [discriminate |].
  destruct (find (sameSku bot s) (products db)) as [p |] eqn:Hfind;
    [| discriminate].
  unfold onSave.
  destruct (castStock (lookupLast "availableStock" body)) as [e | d] eqn:Hstock;
    [discriminate |].
  intros [= <- <-].
  destruct (OrderProperties.find_updateFirst _ (fun x => withStock x d) _ _ Hfind)
    as (l1 & l2 & Hl & Hupd & Hp & Hall).
  assert (Hp' : sameSku bot s (withStock p d) = true) by exact Hp.
  exists bot, s, d, l1, p, l2. rewrite Hupd.
  repeat (split; [first [reflexivity | assumption
                        | exact (castStock_nonneg _ _ Hstock)] |]).
  cbn [products setProducts]. rewrite (find_first _ _ _ _ Hall Hp').
  split; [reflexivity |].
  rewrite (updateFirst_first _ _ _ _ _ Hall Hp'). reflexivity.
Qed.

Lemma update_stock_round_trip_witness :
  exists db',
    patchUpdateStock Server.bound OrderProperties.shop
      [("botId", JStr "bot1"); ("sku", JStr "MP-1"); ("availableStock", JNum (ofZ 40))]
    = (Sent (withStock OrderProperties.phone (Fin (ofZ 40))), db') /\
    find (sameSku "bot1" "MP-1") (products db')
    = Some (withStock OrderProperties.phone (Fin (ofZ 40))).
Proof.
  eexists. split; [reflexivity |].
  destruct (update_stock_round_trip OrderProperties.shop
              [("botId", JStr "bot1"); ("sku", JStr "MP-1");
               ("availableStock", JNum (ofZ 40))]
              (withStock OrderProperties.phone (Fin (ofZ 40))) _ eq_refl)
    as (bot & s & d & l1 & p & l2 & Hbot & Hs & _ & _ & _ & _ & _ & _ & _ & Hfind & _).
  injection Hbot as <-. injection Hs as <-. exact Hfind.
Defined.

(** X22.  [/add] enables the inventory of the bot before it looks at the
    product.  For every request that names an existing bot and passes the
    test of the required fields, the bot has its inventory enabled
    afterwards, also when the product is refused because the SKU exists,
    fails the validation, or cannot be stored because the route module has
    no model; no other configuration changes, and the products are as
    before unless a product was sent. *)
Theorem add_enables_inventory (bindings : Server.Bindings) (db : DB)
    (body : list (string * JSValue)) (bot : string) (botConfig : BotConfig) :
  lookupLast "botId" body = JStr bot -> configs db !! bot = Some botConfig ->
  fst (postAdd bindings db body) <> Denied Missing ->
  let db' := snd (postAdd bindings db body) in
  (exists c, configs db' !! bot = Some c /\ truthy (inventoryEnabled c) = true) /\
  (forall other, other <> bot -> configs db' !! other = configs db !! other) /\
  ((forall p, fst (postAdd bindings db body) <> Sent p) ->
   products db' = products db) /\
  orders db' = orders db /\ sessions db' = sessions db.
Proof.
  intros Hbot Hcfg. unfold postAdd. rewrite Hbot.
  destruct (_ || _); [intros H; exfalso; apply H; reflexivity |].
  intros _. cbn [castId findConfig]. rewrite Hcfg.
  set (db1 := if negb (truthy (inventoryEnabled botConfig)) then _ else db).
  assert (H1 : (exists c, configs db1 !! bot = Some c /\
                          truthy (inventoryEnabled c) = true) /\
               (forall other, other <> bot ->
                              configs db1 !! other = configs db !! other) /\
               products db1 = products db /\ orders db1 = orders db /\
               sessions db1 = sessions db).
  { subst db1. destruct (truthy (inventoryEnabled botConfig)) eqn:Hen; cbn [negb].
    - split; [eauto | auto].
    - cbn [configs setConfigs products orders sessions]. split.
      + exists {| inventoryEnabled := JBool true |}.
        rewrite lookup_insert_eq. auto.
      + split; [| auto]. intros other Hne. apply lookup_insert_ne. congruence. }
  destruct H1 as (Hen & Hother & Hp & Ho & Hs).
  destruct (Server.ProductInventory bindings); [| cbn [fst snd]; auto 10].
  destruct (castTrimmed (lookupLast "sku" body)) as [e | s];
    [cbn [fst snd]; auto 10 |].
  destruct (find (sameSku bot s) (products db1)); [cbn [fst snd]; auto 10 |].
  destruct (createProduct _ _ _ _ _ _) as [e | [item db2]] eqn:Hcreate;
    [cbn [fst snd]; auto 10 |].
  apply createProduct_inv in Hcreate as (-> & _).
  cbn [fst snd configs orders sessions setProducts].
  split; [exact Hen |]. split; [exact Hother |]. split; [| auto].
  intros Hno. exfalso. apply (Hno item). reflexivity.
Qed.

Lemma add_enables_inventory_witness :
  let db := Catalog.setConfigs OrderProperties.shop
              (<["bot1" := {| inventoryEnabled := JBool false |}]> ∅) in
  let body := [("botId", JStr "bot1"); ("productName", JStr "Printer");
               ("sku", JStr "PR-1"); ("availableStock", JNum (ofZ 7))] in
  fst (postAdd Server.bound db body) = Denied SkuExists /\
  exists c, configs (snd (postAdd Server.bound db body)) !! "bot1" = Some c /\
            truthy (inventoryEnabled c) = true.
Proof.
  intros db body. split; [reflexivity |].
  destruct (add_enables_inventory Server.bound db body "bot1"
              {| inventoryEnabled := JBool false |} eq_refl eq_refl)
    as (Hen & _).
  - discriminate.
  - exact Hen.
Defined.

(** *** The order-status update, repeated *)

Lemma find_replaced (id : string) (o o1 : Order) (l : list Order) :
  find (fun x => String.eqb (oId x) id) l = Some o -> oId o1 = oId o ->
  find (fun x => String.eqb (oId x) id)
       (map (fun x => if String.eqb (oId x) (oId o1) then o1 else x) l)
  = Some o1.
Proof.
  intros Hfind Hid. induction l as [| y l IH]; [discriminate |].
  cbn [find map] in *.
  destruct (String.eqb (oId y) id) eqn:Hy.
  - injection Hfind as ->. rewrite Hid, String.eqb_refl, Hid, Hy. reflexivity.
  - destruct (String.eqb_spec (oId y) (oId o1)) as [Heq | _].
    + apply find_some in Hfind as [_ Ho]. rewrite Heq, Hid, Ho in Hy.
      discriminate Hy.
    + rewrite Hy. exact (IH Hfind).
Qed.

Lemma find_updated (test : Product -> bool) (f : Product -> Product)
    (l : list Product) (x : Product) :
  find test l = Some x -> test (f x) = true ->
  find test (updateFirst test f l) = Some (f x).
Proof.
  intros Hfind Hfx.
  destruct (OrderProperties.find_updateFirst test f l x Hfind)
    as (l1 & l2 & _ & -> & _ & Hall).
  apply find_first; assumption.
Qed.

Lemma validStock_accepts (n : number) :
  numLe zero n -> onSave (validStock n) = inr n.
Proof.
  intros Hn. apply numLeb_le in Hn. unfold validStock.
  destruct n; try (rewrite Hn; reflexivity). discriminate Hn.
Qed.

(** X23.  The order-status update is not idempotent.  Confirming an order
    takes the requested quantity off the stock of its product, and
    confirming the same order once more, which the route accepts with the
    same answer, takes it off a second time, as long as the stock suffices
    and what is left is a stock the schema accepts.  What is left is each
    time the difference of two doubles: 3.3 lowered twice by 1.1 leaves
    1.0999999999999996. *)
Theorem repeated_confirmation_lowers_twice (db : DB) (id : string) (o : Order)
    (p : Product) :
  find (fun x => String.eqb (oId x) id) (orders db) = Some o ->
  find (OrderProperties.orderedProduct o) (products db) = Some p ->
  let once := numSub (availableStock p) (requestedQty o) in
  let twice := numSub once (requestedQty o) in
  numLe (requestedQty o) (availableStock p) -> numLe zero once ->
  numLe (requestedQty o) once -> numLe zero twice ->
  let confirm := [("status", JStr "confirmed")] in
  let first := patchOrder db id confirm in
  let second := patchOrder (snd first) id confirm in
  fst first = Answered (withStatus o confirmed) /\
  fst second = Answered (withStatus o confirmed) /\
  exists p1 p2,
    find (OrderProperties.orderedProduct o) (products (snd first)) = Some p1 /\
    availableStock p1 = once /\
    find (OrderProperties.orderedProduct o) (products (snd second)) = Some p2 /\
    availableStock p2 = twice.
Proof.
  intros Ho Hp once twice Hq1 Hs1 Hq2 Hs2 confirm first second.
  set (q := requestedQty o) in *.
  set (f1 := fun x : Product => withStock x once).
  set (f2 := fun x : Product => withStock x twice).
  assert (Hpt : OrderProperties.orderedProduct o p = true)
    by (apply find_some in Hp as [_ H]; exact H).
  apply numLeb_le in Hq1, Hq2.
  apply validStock_accepts in Hs1, Hs2.
  assert (Hfirst : first = (Answered (withStatus o confirmed),
                            setProducts (saveOrder db (withStatus o confirmed))
                              (updateFirst (OrderProperties.orderedProduct o) f1
                                 (products db)))).
  { subst first confirm. unfold patchOrder.
    change (lookupLast "status" [("status", JStr "confirmed")]) with (JStr "confirmed").
    change (lookupLast "notes" [("status", JStr "confirmed")]) with JUndefined.
    cbn [isStatusName truthy]. rewrite Ho. cbv zeta.
    change (withNotes (withStatus o confirmed) (notes (withStatus o confirmed)))
      with (withStatus o confirmed).
    change (products (saveOrder db (withStatus o confirmed))) with (products db).
    change (fun p0 : Product =>
              String.eqb (pBotId p0) (oBotId (withStatus o confirmed)) &&
              String.eqb (productName p0) (oProductName (withStatus o confirmed)))
      with (OrderProperties.orderedProduct o).
    rewrite Hp. change (requestedQty (withStatus o confirmed)) with q.
    rewrite Hq1. fold once. rewrite Hs1. reflexivity. }
  assert (Hp1 : find (OrderProperties.orderedProduct o) (products (snd first))
                = Some (f1 p)).
  { rewrite Hfirst. cbn [snd products setProducts].
    apply find_updated; [exact Hp | exact Hpt]. }
  assert (Ho1 : find (fun x => String.eqb (oId x) id) (orders (snd first))
                = Some (withStatus o confirmed)).
  { rewrite Hfirst. cbn [snd orders setProducts saveOrder setOrders].
    apply (find_replaced id o (withStatus o confirmed)); [exact Ho | reflexivity]. }
  assert (Hsecond : second = (Answered (withStatus o confirmed),
                              setProducts (saveOrder (snd first) (withStatus o confirmed))
                                (updateFirst (OrderProperties.orderedProduct o) f2
                                   (products (snd first))))).
  { subst second confirm. unfold patchOrder.
    change (lookupLast "status" [("status", JStr "confirmed")]) with (JStr "confirmed").
    change (lookupLast "notes" [("status", JStr "confirmed")]) with JUndefined.
    cbn [isStatusName truthy]. rewrite Ho1. cbv zeta.
    change (withNotes (withStatus (withStatus o confirmed) confirmed)
              (notes (withStatus (withStatus o confirmed) confirmed)))
      with (withStatus o confirmed).
    change (products (saveOrder (snd first) (withStatus o confirmed)))
      with (products (snd first)).
    change (fun p0 : Product =>
              String.eqb (pBotId p0) (oBotId (withStatus o confirmed)) &&
              String.eqb (productName p0) (oProductName (withStatus o confirmed)))
      with (OrderProperties.orderedProduct o).
    rewrite Hp1. change (requestedQty (withStatus o confirmed)) with q.
    change (availableStock (f1 p)) with once.
    rewrite Hq2. fold twice. rewrite Hs2. reflexivity. }
  split; [rewrite Hfirst; reflexivity |].
  split; [rewrite Hsecond; reflexivity |].
  exists (f1 p), (f2 (f1 p)). split; [exact Hp1 |]. split; [reflexivity |].
  split; [| reflexivity].
  rewrite Hsecond. cbn [snd products setProducts].
  apply find_updated; [exact Hp1 | exact Hpt].
Qed.

Lemma repeated_confirmation_lowers_twice_witness :
  let confirm := [("status", JStr "confirmed")] in
  (exists p2,
     find (OrderProperties.orderedProduct OrderProperties.placed)
          (products (snd (patchOrder
                            (snd (patchOrder
                                    (setOrders OrderProperties.shop
                                       [withStatus OrderProperties.placed pending])
                                    "o1" confirm))
                            "o1" confirm)))
     = Some p2 /\
     numToString (availableStock p2) = "4") /\
  (exists p2,
     find (OrderProperties.orderedProduct OrderProperties.metres)
          (products (snd (patchOrder
                            (snd (patchOrder
                                    (setProducts
                                       (setOrders OrderProperties.shop
                                          [OrderProperties.metres])
                                       [OrderProperties.cable])
                                    "o2" confirm))
                            "o2" confirm)))
     = Some p2 /\
     numToString (availableStock p2) = "1.0999999999999996").
Proof.
  intros confirm.
  pose (q := requestedQty OrderProperties.placed).
  pose (s := availableStock OrderProperties.printer).
  assert (H1 : numLe q s) by (refine (proj1 (numLeb_le _ _) _); vm_compute; reflexivity).
  assert (H2 : numLe zero (numSub s q)) by (refine (proj1 (numLeb_le _ _) _); vm_compute; reflexivity).
  assert (H3 : numLe q (numSub s q)) by (refine (proj1 (numLeb_le _ _) _); vm_compute; reflexivity).
  assert (H4 : numLe zero (numSub (numSub s q) q))
    by (refine (proj1 (numLeb_le _ _) _); vm_compute; reflexivity).
  pose (q' := requestedQty OrderProperties.metres).
  pose (s' := availableStock OrderProperties.cable).
  assert (H1' : numLe q' s') by (refine (proj1 (numLeb_le _ _) _); vm_compute; reflexivity).
  assert (H2' : numLe zero (numSub s' q')) by (refine (proj1 (numLeb_le _ _) _); vm_compute; reflexivity).
  assert (H3' : numLe q' (numSub s' q')) by (refine (proj1 (numLeb_le _ _) _); vm_compute; reflexivity).
  assert (H4' : numLe zero (numSub (numSub s' q') q'))
    by (refine (proj1 (numLeb_le _ _) _); vm_compute; reflexivity).
  split.
  - destruct (repeated_confirmation_lowers_twice
                (setOrders OrderProperties.shop
                   [withStatus OrderProperties.placed pending])
                "o1" (withStatus OrderProperties.placed pending)
                OrderProperties.printer eq_refl eq_refl H1 H2 H3 H4)
      as (_ & _ & p1 & p2 & _ & _ & Hfind & Hstock).
    exists p2. split; [exact Hfind |]. rewrite Hstock. vm_compute. reflexivity.
  - destruct (repeated_confirmation_lowers_twice
                (setProducts (setOrders OrderProperties.shop [OrderProperties.metres])
                   [OrderProperties.cable])
                "o2" OrderProperties.metres OrderProperties.cable eq_refl eq_refl
                H1' H2' H3' H4')
      as (_ & _ & p1 & p2 & _ & _ & Hfind & Hstock).
    exists p2. split; [exact Hfind |]. rewrite Hstock. vm_compute. reflexivity.
Defined.

End CatalogProperties.

(* ===================================================================== *)
(** ** Properties of the conversation handlers *)
(* ===================================================================== *)

Module ConversationProperties.
Import JS Provider Inventory Conversation.

(** *** The history window *)

(** The messages a session holds. *)
Definition ofSession (c : Chat) (sessionId : string) : list StoredMessage :=
  List.filter (fun m => String.eqb (mSessionId m) sessionId) (messages c).

Lemma insertByTime_length (m : StoredMessage) (l : list StoredMessage) :
  length (insertByTime m l) = S (length l).
Proof.
  induction l as [| x l IH]; [reflexivity |].
  cbn [insertByTime]. destruct (timestamp m <=? timestamp x)%Z; cbn [length];
    [reflexivity | rewrite IH; reflexivity].
Qed.

Lemma sortByTime_length (l : list StoredMessage) :
  length (sortByTime l) = length l.
Proof.
  induction l as [| x l IH]; [reflexivity |].
  cbn [sortByTime fold_right]. rewrite insertByTime_length.
  cbn [length]. f_equal. exact IH.
Qed.

Lemma insertByTime_before (x m : StoredMessage) (s : list StoredMessage) :
  (timestamp x < timestamp m)%Z ->
  insertByTime x (s ++ [m]) = insertByTime x s ++ [m].
Proof.
  intros Hlt. induction s as [| y s IH]; cbn [app insertByTime].
  - destruct (Z.leb_spec (timestamp x) (timestamp m)); [reflexivity | lia].
  - destruct (timestamp x <=? timestamp y)%Z; [reflexivity |].
    rewrite IH. reflexivity.
Qed.

(** A message later than all the others is the last one of the sorted
    list. *)
Lemma sortByTime_latest (l : list StoredMessage) (m : StoredMessage) :
  Forall (fun x => (timestamp x < timestamp m)%Z) l ->
  sortByTime (l ++ [m]) = sortByTime l ++ [m].
Proof.
  induction 1 as [| x l Hx _ IH]; [reflexivity |].
  cbn [app sortByTime fold_right]. fold (sortByTime (l ++ [m])).
  fold (sortByTime l). rewrite IH. apply insertByTime_before, Hx.
Qed.

Lemma sortByTime_In (l : list StoredMessage) (x : StoredMessage) :
  In x (sortByTime l) -> In x l.
Proof.
  assert (Hins : forall m s, In x (insertByTime m s) -> x = m \/ In x s).
  { intros m s. induction s as [| y s IH]; cbn [insertByTime].
    - intros [<- | []]. auto.
    - destruct (timestamp m <=? timestamp y)%Z.
      + intros [<- | Hin]; auto.
      + intros [<- | Hin]; [right; left; reflexivity |].
        destruct (IH Hin) as [-> | Hs]; [auto | right; right; exact Hs]. }
  induction l as [| y l IH]; [intros [] |].
  cbn [sortByTime fold_right]. intros Hin.
  destruct (Hins _ _ Hin) as [-> | Hs]; [left; reflexivity | right; exact (IH Hs)].
Qed.

(** Storing a message in a session that holds at least ten earlier ones
    leaves the history window as it was. *)
Lemma findHistory_full (c : Chat) (sessionId : string) (m : StoredMessage) :
  mSessionId m = sessionId ->
  (10 <= length (ofSession c sessionId))%nat ->
  Forall (fun x => (timestamp x < timestamp m)%Z) (ofSession c sessionId) ->
  findHistory (setMessages c (messages c ++ [m])) sessionId = findHistory c sessionId.
Proof.
  intros Hm Hlen Hold. unfold findHistory, ofSession in *.
  cbn [messages setMessages]. rewrite List.filter_app. cbn [List.filter].
  rewrite Hm, String.eqb_refl. rewrite (sortByTime_latest _ _ Hold).
  rewrite firstn_app, sortByTime_length.
  replace (10 - length _)%nat with 0%nat by lia.
  cbn [firstn]. apply app_nil_r.
Qed.

Lemma firstn_In {A} (n : nat) (l : list A) (x : A) : In x (firstn n l) -> In x l.
Proof.
  revert l. induction n as [| n IH]; intros [| y l]; simpl; try tauto.
  intros [<- | Hin]; [left; reflexivity | right; exact (IH l Hin)].
Qed.

Section Window.

Variables freshUser freshBot : string.
Variables now later : Z.
Variable http : nat -> HttpResult JSValue.
Variable random : nat -> Q.
Variable latency : decimal.

(** What a handler answers depends on the store, once the user message is
    in it, only through the configurations and what is prepared for the
    manager. *)
Lemma respond_fst (c1 c1' : Chat) (sessionId : string) (session : Session)
    (language : JSValue)
    (prepare : Chat -> string -> JSValue -> list (string * JSValue) ->
               list Message * JSValue) :
  chatConfigs c1' = chatConfigs c1 ->
  (forall data, prepare c1' sessionId language data
                = prepare c1 sessionId language data) ->
  fst (respond freshBot later http random latency c1' sessionId session language
         prepare)
  = fst (respond freshBot later http random latency c1 sessionId session language
           prepare).
Proof.
  intros Hcfg Hprep. unfold respond. rewrite Hcfg.
  destruct (chatConfigs c1 !! configId session) as [data |]; [| reflexivity].
  rewrite Hprep. destruct (prepare c1 sessionId language data) as [msgs config].
  destruct (result _) as [rejection | aiResponse]; [reflexivity |].
  destruct (getProp aiResponse "reply") as [x | text]; [reflexivity |].
  unfold createMessage. destruct (Inventory.onSave _); reflexivity.
Qed.

Lemma createMessage_text (c : Chat) (fresh : string) (time : Z)
    (sessionId role text : string) :
  trim text <> EmptyString ->
  createMessage c fresh time sessionId role (JStr text)
  = inr ({| mId := fresh; mSessionId := sessionId; mRole := role;
            mContent := trim text; timestamp := time |},
         setMessages c (messages c ++
                        [{| mId := fresh; mSessionId := sessionId; mRole := role;
                            mContent := trim text; timestamp := time |}])).
Proof.
  intros Ht. unfold createMessage.
  rewrite (CatalogProperties.castRequiredString_text _ Ht). reflexivity.
Qed.

(** X24.  The history handed to the model is the first ten messages of the
    session by time, not the last ten.  In a session that already holds ten
    messages or more, all older than the request, the user message that the
    handler has just stored is outside that window and the window is what
    it was before.  What the handler for signed-in users and the public
    handler answer then does not depend on the text the user sent: two
    requests that differ in the message alone get the same outcome. *)
Theorem new_message_outside_history_window (c : Chat) (requester sessionId : string)
    (language : JSValue) (text text' : string) :
  (10 <= length (ofSession c sessionId))%nat ->
  Forall (fun x => (timestamp x < now)%Z) (ofSession c sessionId) ->
  trim text <> EmptyString -> trim text' <> EmptyString ->
  let body t := [("message", JStr t); ("language", language)] in
  (forall m c1,
     createMessage c freshUser now sessionId "user" (JStr text) = inr (m, c1) ->
     findHistory c1 sessionId = findHistory c sessionId /\
     ~ In m (findHistory c1 sessionId)) /\
  fst (postMessage freshUser freshBot now later http random latency c requester
         sessionId (body text))
  = fst (postMessage freshUser freshBot now later http random latency c requester
           sessionId (body text')) /\
  fst (postPublicMessage freshUser freshBot now later http random latency c
         sessionId (body text))
  = fst (postPublicMessage freshUser freshBot now later http random latency c
           sessionId (body text')).
Proof.
  intros Hlen Hold Ht Ht' body.
  assert (Hwin : forall t,
            findHistory
              (setMessages c (messages c ++
                 [{| mId := freshUser; mSessionId := sessionId; mRole := "user";
                     mContent := trim t; timestamp := now |}])) sessionId
            = findHistory c sessionId).
  { intros t. apply findHistory_full; [reflexivity | exact Hlen | exact Hold]. }
  assert (Hprep : forall t t' data,
            prepared (setMessages c (messages c ++
                 [{| mId := freshUser; mSessionId := sessionId; mRole := "user";
                     mContent := trim t; timestamp := now |}])) sessionId language data
            = prepared (setMessages c (messages c ++
                 [{| mId := freshUser; mSessionId := sessionId; mRole := "user";
                     mContent := trim t'; timestamp := now |}])) sessionId language
                data).
  { intros t t' data. unfold prepared. rewrite !Hwin. reflexivity. }
  assert (Hpub : forall t t' data,
            preparedPublic (setMessages c (messages c ++
                 [{| mId := freshUser; mSessionId := sessionId; mRole := "user";
                     mContent := trim t; timestamp := now |}])) sessionId language data
            = preparedPublic (setMessages c (messages c ++
                 [{| mId := freshUser; mSessionId := sessionId; mRole := "user";
                     mContent := trim t'; timestamp := now |}])) sessionId language
                data).
  { intros t t' data. unfold preparedPublic. rewrite !Hwin. reflexivity. }
  split; [| split].
  - intros m c1. rewrite (createMessage_text _ _ _ _ _ _ Ht). intros [= <- <-].
    rewrite Hwin. split; [reflexivity |]. intros Hin.
    unfold findHistory in Hin. apply firstn_In, sortByTime_In in Hin.
    rewrite List.Forall_forall in Hold. specialize (Hold _ Hin).
    cbn [timestamp] in Hold. lia.
  - unfold postMessage. subst body.
    change (lookupLast "message" [("message", JStr text); ("language", language)])
      with (JStr text).
    change (lookupLast "message" [("message", JStr text'); ("language", language)])
      with (JStr text').
    change (lookupLast "language" [("message", JStr text); ("language", language)])
      with language.
    change (lookupLast "language" [("message", JStr text'); ("language", language)])
      with language.
    destruct (chatSessions c !! sessionId) as [session |]; [| reflexivity].
    destruct (negb _); [reflexivity |].
    rewrite (createMessage_text _ _ _ _ _ _ Ht), (createMessage_text _ _ _ _ _ _ Ht').
    apply respond_fst; [reflexivity | apply Hprep].
  - unfold postPublicMessage. subst body.
    change (lookupLast "message" [("message", JStr text); ("language", language)])
      with (JStr text).
    change (lookupLast "message" [("message", JStr text'); ("language", language)])
      with (JStr text').
    change (lookupLast "language" [("message", JStr text); ("language", language)])
      with language.
    change (lookupLast "language" [("message", JStr text'); ("language", language)])
      with language.
    destruct (chatSessions c !! sessionId) as [session |]; [| reflexivity].
    destruct (userRoles c !! sUserId session) as [role |]; [| reflexivity].
    rewrite (createMessage_text _ _ _ _ _ _ Ht), (createMessage_text _ _ _ _ _ _ Ht').
    repeat case_match; try reflexivity.
    apply respond_fst; [reflexivity | apply Hpub].
Qed.

End Window.

(** *** A sample conversation *)

Definition stored (n : Z) (role text : string) : StoredMessage :=
  {| mId := "m" +:+ pretty n; mSessionId := "s1"; mRole := role; mContent := text;
     timestamp := n |}.

(** Five exchanges in the session [s1] of an admin, for a bot that is
    configured for OpenAI. *)
Definition talk : Chat :=
  {| chatSessions := <["s1" := {| configId := "bot1"; sUserId := "admin1" |}]> ∅;
     chatConfigs :=
       <["bot1" := [("purpose", JStr "selling printers");
                    ("system_prompt", JStr "You sell printers.");
                    ("ai", JObj [("provider", JStr "openai"); ("model", JStr "gpt-4")])]]> ∅;
     userRoles := <["admin1" := "admin"]> ∅;
     messages := [stored 1 "user" "Hello"; stored 2 "bot" "Hi!";
                  stored 3 "user" "Do you sell printers?"; stored 4 "bot" "Yes.";
                  stored 5 "user" "Which ones?"; stored 6 "bot" "Laser printers.";
                  stored 7 "user" "How much?"; stored 8 "bot" "From 100.";
                  stored 9 "user" "Any discount?"; stored 10 "bot" "Not today."];
     inventory := Some [OrderProperties.printer; OrderProperties.phone] |}.

Lemma new_message_outside_history_window_witness :
  fst (postMessage "m11" "m12" 11 12 (fun _ => HttpOk ClientProperties.answer)
         (fun _ => 0%Q) (ofZ 900) talk "admin1" "s1"
         [("message", JStr "Do you ship abroad?"); ("language", JUndefined)])
  = fst (postMessage "m11" "m12" 11 12 (fun _ => HttpOk ClientProperties.answer)
           (fun _ => 0%Q) (ofZ 900) talk "admin1" "s1"
           [("message", JStr "Cancel my order"); ("language", JUndefined)]).
Proof.
  destruct (new_message_outside_history_window "m11" "m12" 11 12
              (fun _ => HttpOk ClientProperties.answer) (fun _ => 0%Q) (ofZ 900)
              talk "admin1" "s1" JUndefined "Do you ship abroad?" "Cancel my order")
    as (_ & Hsame & _).
  - cbn. lia.
  - repeat (constructor; [reflexivity |]). constructor.
  - discriminate.
  - discriminate.
  - exact Hsame.
Defined.

(** *** The configuration in the public handler *)

Definition setChatConfigs (c : Chat) (cs : gmap string (list (string * JSValue)))
  : Chat :=
  {| chatSessions := chatSessions c; chatConfigs := cs; userRoles := userRoles c;
     messages := messages c; inventory := inventory c |}.

(** The spread copy of a configuration document has none of the settings
    the manager reads. *)
Lemma spread_call (messagesForAI : list Message) (data data' : list (string * JSValue))
    (http : nat -> HttpResult JSValue) (random : nat -> Q) (latency : decimal) :
  AIClientManager.generateResponse AIClientManager.manager messagesForAI
    (JObj (spreadDocument data ++ [("inventoryAccess", JBool true)]))
    http random latency
  = AIClientManager.generateResponse AIClientManager.manager messagesForAI
      (JObj (spreadDocument data' ++ [("inventoryAccess", JBool true)]))
      http random latency.
Proof. reflexivity. Qed.

Section PublicHandler.

Variables freshUser freshBot : string.
Variables now later : Z.
Variable http : nat -> HttpResult JSValue.
Variable random : nat -> Q.
Variable latency : decimal.

(** X25.  The public handler hands the manager a spread copy of the
    configuration document, which holds the internals of the document and
    none of its paths.  Every request it causes therefore goes to the
    default model of the Mistral client, with the default temperature and
    token limit and with the generic prompt followed by the inventory
    instruction as system message, whatever provider, model and system
    prompt the configuration holds (the prompt the handler has just set
    included).  The outcome of a request is the same for any two sets of
    configurations in which the session's configuration exists. *)
Theorem public_handler_ignores_configuration (c : Chat) (sessionId : string)
    (language : JSValue) (data : list (string * JSValue)) :
  Forall (fun r =>
            rModel r = JStr "mistral-small" /\
            rTemperature r = JNum (Dec 7 (-1)) /\
            rMaxTokens r = JNum (ofZ 1000) /\
            rMessages r
            = Msg (JStr "system") (JStr (defaultPrompt +:+ inventoryInstruction))
              :: map mapMessage (fst (preparedPublic c sessionId language data)))
         (requests (AIClientManager.generateResponse AIClientManager.manager
                      (fst (preparedPublic c sessionId language data))
                      (snd (preparedPublic c sessionId language data))
                      http random latency)) /\
  forall configs' body,
    (forall id, is_Some (configs' !! id) <-> is_Some (chatConfigs c !! id)) ->
    fst (postPublicMessage freshUser freshBot now later http random latency
           (setChatConfigs c configs') sessionId body)
    = fst (postPublicMessage freshUser freshBot now later http random latency
             c sessionId body).
Proof.
  split.
  - cbn [preparedPublic fst snd].
    set (msgs := aiMessages (findHistory c sessionId) (inventoryContext c)).
    unfold AIClientManager.generateResponse.
    change (AIClientManager.getClient AIClientManager.manager _)
      with (inr (AIClientManager.Registered AIClientManager.Mistral)
            : exn + AIClientManager.Entry).
    cbn [getProp]. cbv zeta.
    change (lookupLast "ai" _) with JUndefined.
    change (lookupLast "system_prompt" _) with JUndefined.
    unfold MistralClient.generateResponse. cbn [requests].
    match goal with
    | |- Forall _ (requests (retryLoop _ _ ?req _ _ _)) =>
        destruct (MessageProperties.retryLoop_requests
                    MistralClient._shouldRetryRequest MistralClient.delayFor
                    req http random) as [_ Hall]
    end.
    refine (List.Forall_impl _ _ Hall). intros r ->. repeat split.
  - intros configs' body Hsome. unfold postPublicMessage.
    cbn [chatSessions userRoles setChatConfigs].
    destruct (chatSessions c !! sessionId) as [session |]; [| reflexivity].
    destruct (userRoles c !! sUserId session) as [role |]; [| reflexivity].
    set (K' := match createMessage (setChatConfigs c configs') _ _ _ _ _ with
               | inl e => _
               | inr _ => _
               end).
    set (K := match createMessage c _ _ _ _ _ with
              | inl e => _
              | inr _ => _
              end).
    assert (HK : fst K' = fst K).
    { subst K' K. unfold createMessage.
      destruct (Inventory.onSave _) as [e | text]; [reflexivity |].
      unfold respond. cbn [chatConfigs setChatConfigs setMessages].
      specialize (Hsome (configId session)).
      destruct (configs' !! configId session) as [data' |],
        (chatConfigs c !! configId session) as [data0 |].
      - unfold preparedPublic, findHistory, inventoryContext.
        cbn [messages inventory setMessages setChatConfigs]. cbv beta iota zeta.
        rewrite (spread_call _
                   (withPrompt (withLanguage (lookupLast "language" body) data'))
                   (withPrompt (withLanguage (lookupLast "language" body) data0))).
        destruct (result _) as [rejection | aiResponse]; [reflexivity |].
        destruct (getProp aiResponse "reply") as [x | reply]; [reflexivity |].
        unfold createMessage. destruct (Inventory.onSave _); reflexivity.
      - exfalso. destruct Hsome as [H _]. destruct H; [eauto | discriminate].
      - exfalso. destruct Hsome as [_ H]. destruct H; [eauto | discriminate].
      - reflexivity. }
    clearbody K' K. repeat case_match; try reflexivity; exact HK.
Qed.

End PublicHandler.

Lemma public_handler_ignores_configuration_witness :
  fst (postPublicMessage "m11" "m12" 11 12 (fun _ => HttpOk ClientProperties.answer)
         (fun _ => 0%Q) (ofZ 900)
         (setChatConfigs talk (<["bot1" := [("system_prompt", JStr "Speak French.")]]> ∅))
         "s1" [("message", JStr "Hello")])
  = fst (postPublicMessage "m11" "m12" 11 12 (fun _ => HttpOk ClientProperties.answer)
           (fun _ => 0%Q) (ofZ 900) talk "s1" [("message", JStr "Hello")]).
Proof.
  destruct (public_handler_ignores_configuration "m11" "m12" 11 12
              (fun _ => HttpOk ClientProperties.answer) (fun _ => 0%Q) (ofZ 900)
              talk "s1" JUndefined []) as [_ Hsame].
  apply Hsame. intros id.
  destruct (String.eqb_spec id "bot1") as [-> | Hne].
  - cbn [chatConfigs talk]. rewrite !lookup_insert_eq. split; eauto.
  - cbn [chatConfigs talk]. rewrite !lookup_insert_ne by congruence.
    reflexivity.
Defined.

(** *** The inventory note *)

Lemma includes_unfold (sub s : string) :
  includes sub s = String.prefix sub s ||
                   match s with
                   | EmptyString => false
                   | String _ s' => includes sub s'
                   end.
Proof. destruct s; reflexivity. Qed.

Lemma prefix_here (sub r : string) : String.prefix sub (sub +:+ r) = true.
Proof.
  induction sub as [| a sub IH]; [destruct r; reflexivity |].
  change (String a sub +:+ r) with (String a (sub +:+ r)). cbn [String.prefix].
  destruct (ascii_dec a a); [exact IH | contradiction].
Qed.

Lemma prefix_longer (sub s b : string) :
  String.prefix sub s = true -> String.prefix sub (s +:+ b) = true.
Proof.
  revert s. induction sub as [| a sub IH]; intros s.
  - intros _. destruct (s +:+ b); reflexivity.
  - destruct s as [| c s]; [discriminate |].
    change (String c s +:+ b) with (String c (s +:+ b)). cbn [String.prefix].
    destruct (ascii_dec a c); [apply IH | discriminate].
Qed.

Lemma includes_here (sub r : string) : includes sub (sub +:+ r) = true.
Proof. rewrite includes_unfold, prefix_here. reflexivity. Qed.

Lemma includes_after (sub a s : string) :
  includes sub s = true -> includes sub (a +:+ s) = true.
Proof.
  intros Hs. induction a as [| c a IH]; [exact Hs |].
  change (String c a +:+ s) with (String c (a +:+ s)).
  rewrite includes_unfold, IH. apply orb_true_r.
Qed.

Lemma includes_before (sub s b : string) :
  includes sub s = true -> includes sub (s +:+ b) = true.
Proof.
  induction s as [| c s IH]; intros Hs.
  - rewrite includes_unfold, orb_false_r in Hs.
    destruct sub; [| discriminate Hs].
    rewrite includes_unfold. destruct (EmptyString +:+ b); reflexivity.
  - rewrite includes_unfold in Hs. apply orb_true_iff in Hs as [Hp | Hi].
    + rewrite includes_unfold, (prefix_longer _ _ b Hp). reflexivity.
    + change (String c s +:+ b) with (String c (s +:+ b)).
      rewrite includes_unfold, (IH Hi). apply orb_true_r.
Qed.

Lemma includes_self (x : string) : includes x x = true.
Proof.
  assert (Hp : String.prefix x x = true).
  { induction x as [| a x IH]; [reflexivity |].
    cbn. destruct (ascii_dec a a); [exact IH | contradiction]. }
  rewrite includes_unfold, Hp. reflexivity.
Qed.

Lemma includes_joinWith (sep x : string) (l : list string) :
  In x l -> includes x (joinWith sep l) = true.
Proof.
  induction l as [| y l IH]; [intros [] |].
  intros [-> | Hin]; destruct l as [| z l].
  - apply includes_self.
  - apply includes_here.
  - destruct Hin.
  - change (joinWith sep (y :: z :: l)) with (y +:+ sep +:+ joinWith sep (z :: l)).
    apply includes_after, includes_after, IH, Hin.
Qed.

(** A message of the history as it goes to the manager without a note. *)
Definition unmarked (msg : StoredMessage) : Message :=
  Msg (JStr (mRole msg)) (JStr (mContent msg)).

Lemma mapHistory_last (n index : nat) (context : string)
    (before : list StoredMessage) (last : StoredMessage) :
  (index + length before + 1 = n)%nat ->
  mapHistory n index context (before ++ [last])
  = map unmarked before ++
    [if String.eqb (mRole last) "user" && negb (String.eqb context EmptyString)
     then Msg (JStr (mRole last)) (JStr (mContent last +:+ systemNote +:+ context))
     else unmarked last].
Proof.
  revert index. induction before as [| x before IH]; intros index Hn.
  - cbn [app mapHistory map length] in *.
    replace (Nat.eqb index (n - 1)) with true
      by (symmetry; apply Nat.eqb_eq; lia).
    rewrite andb_true_r. reflexivity.
  - cbn [app mapHistory map length] in *.
    replace (Nat.eqb index (n - 1)) with false
      by (symmetry; apply Nat.eqb_neq; lia).
    rewrite andb_false_r. cbn [andb].
    rewrite (IH (S index)) by lia. reflexivity.
Qed.

(** X26.  The inventory note of the message handlers is built from the
    first two hundred products of the whole collection, whatever bot they
    belong to: the line of each of them is part of the text.  The text
    goes to the model only as an appendix to the last message of the
    history window, and only if that message is a user message; if the
    window ends with a reply of the bot, no inventory text is sent. *)
Theorem inventory_note_covers_every_bot (c : Chat) (all : list Product) :
  inventory c = Some all ->
  (forall p, In p (firstn 200 all) ->
     includes (inventoryLine p) (inventoryContext c) = true) /\
  (forall before last,
     all <> [] -> mRole last = "user" ->
     aiMessages (before ++ [last]) (inventoryContext c)
     = map unmarked before ++
       [Msg (JStr "user")
            (JStr (mContent last +:+ systemNote +:+ inventoryContext c))]) /\
  (forall before last,
     mRole last <> "user" ->
     aiMessages (before ++ [last]) (inventoryContext c)
     = map unmarked (before ++ [last])).
Proof.
  intros Hinv. unfold inventoryContext. rewrite Hinv. split; [| split].
  - intros p Hin. destruct (firstn 200 all) as [| p0 ps] eqn:Hfirst; [destruct Hin |].
    apply includes_after, includes_after, includes_after, includes_before.
    apply includes_joinWith, in_map, Hin.
  - intros before last Hne Hrole. unfold aiMessages.
    rewrite mapHistory_last by (rewrite length_app; cbn [length]; lia).
    rewrite Hrole. cbn [String.eqb Ascii.eqb Bool.eqb andb].
    destruct all as [| p0 ps]; [contradiction |]. reflexivity.
  - intros before last Hrole. unfold aiMessages.
    rewrite mapHistory_last by (rewrite length_app; cbn [length]; lia).
    destruct (String.eqb_spec (mRole last) "user") as [? | _]; [contradiction |].
    rewrite map_app. reflexivity.
Qed.

(** A catalog with products of two bots. *)
Definition otherBot : Product :=
  {| pBotId := "bot2"; productName := "Espresso machine"; sku := "EM-9";
     availableStock := Fin (ofZ 4); unit := "pcs" |}.

Lemma inventory_note_covers_every_bot_witness :
  includes "- Espresso machine (SKU: EM-9): 4 pcs available"
    (inventoryContext (setMessages
                         {| chatSessions := chatSessions talk;
                            chatConfigs := chatConfigs talk;
                            userRoles := userRoles talk; messages := [];
                            inventory := Some [OrderProperties.printer; otherBot] |}
                         []))
  = true.
Proof.
  destruct (inventory_note_covers_every_bot
              (setMessages
                 {| chatSessions := chatSessions talk; chatConfigs := chatConfigs talk;
                    userRoles := userRoles talk; messages := [];
                    inventory := Some [OrderProperties.printer; otherBot] |} [])
              [OrderProperties.printer; otherBot] eq_refl) as [Hline _].
  apply (Hline otherBot). right. left. reflexivity.
Defined.

(** *** A reply the schema refuses *)

Section Replies.

Variables freshUser freshBot : string.
Variables now later : Z.
Variable http : nat -> HttpResult JSValue.
Variable random : nat -> Q.
Variable latency : decimal.

(** X27.  The reply of the model is stored as a message whose content is
    required.  When the model answers with a reply that is missing,
    [null], empty or blank, the handler for signed-in users fails with a
    validation error after the call of the model; the user message it
    stored before stays in the store, and no message of the bot is
    stored. *)
Theorem blank_reply_fails_after_user_message (c : Chat) (requester sessionId : string)
    (session : Session) (data : list (string * JSValue)) (text : string)
    (language aiResponse blank : JSValue) :
  chatSessions c !! sessionId = Some session -> sUserId session = requester ->
  chatConfigs c !! configId session = Some data ->
  trim text <> EmptyString ->
  let userMessage := {| mId := freshUser; mSessionId := sessionId; mRole := "user";
                        mContent := trim text; timestamp := now |} in
  let c1 := setMessages c (messages c ++ [userMessage]) in
  result (AIClientManager.generateResponse AIClientManager.manager
            (fst (prepared c1 sessionId language data))
            (snd (prepared c1 sessionId language data)) http random latency)
  = inr aiResponse ->
  getProp aiResponse "reply" = inr blank ->
  blank = JUndefined \/ blank = JNull \/
  (exists s, blank = JStr s /\ trim s = EmptyString) ->
  postMessage freshUser freshBot now later http random latency c requester sessionId
    [("message", JStr text); ("language", language)]
  = (Threw (CaughtStore ValidationError), c1).
Proof.
  intros Hsession Howner Hconfig Htext userMessage c1 Hcall Hreply Hblank.
  unfold postMessage.
  change (lookupLast "message" [("message", JStr text); ("language", language)])
    with (JStr text).
  change (lookupLast "language" [("message", JStr text); ("language", language)])
    with language.
  rewrite Hsession, Howner, String.eqb_refl. cbn [negb].
  rewrite (createMessage_text _ _ _ _ _ _ Htext). fold userMessage. fold c1.
  unfold respond. change (chatConfigs c1) with (chatConfigs c). rewrite Hconfig.
  destruct (prepared c1 sessionId language data) as [msgs config] eqn:Hprep.
  cbn [fst snd] in Hcall. rewrite Hcall, Hreply.
  unfold createMessage.
  destruct Hblank as [-> | [-> | (s & -> & Hs)]]; try reflexivity.
  unfold castRequiredString. cbn [castString toString]. rewrite Hs. reflexivity.
Qed.

End Replies.

(** A completion without text. *)
Definition emptyAnswer : JSValue :=
  JObj [("choices", JArr [JObj [("message", JObj [("role", JStr "assistant");
                                                  ("content", JNull)])]]);
        ("model", JStr "gpt-4")].

Lemma blank_reply_fails_after_user_message_witness :
  fst (postMessage "m11" "m12" 11 12 (fun _ => HttpOk emptyAnswer) (fun _ => 0%Q)
         (ofZ 900) talk "admin1" "s1"
         [("message", JStr "Hello"); ("language", JUndefined)])
  = Threw (CaughtStore ValidationError) /\
  length (messages (snd (postMessage "m11" "m12" 11 12 (fun _ => HttpOk emptyAnswer)
                           (fun _ => 0%Q) (ofZ 900) talk "admin1" "s1"
                           [("message", JStr "Hello"); ("language", JUndefined)])))
  = 11%nat.
Proof.
  rewrite (blank_reply_fails_after_user_message "m11" "m12" 11 12
             (fun _ => HttpOk emptyAnswer) (fun _ => 0%Q) (ofZ 900) talk "admin1" "s1"
             {| configId := "bot1"; sUserId := "admin1" |}
             [("purpose", JStr "selling printers");
              ("system_prompt", JStr "You sell printers.");
              ("ai", JObj [("provider", JStr "openai"); ("model", JStr "gpt-4")])]
             "Hello" JUndefined
             (JObj [("reply", JNull); ("model", JStr "gpt-4"); ("usage", JUndefined)])
             JNull eq_refl eq_refl eq_refl ltac:(discriminate) eq_refl eq_refl
             (or_intror (or_introl eq_refl))).
  split; reflexivity.
Defined.

(** *** Clearing a conversation *)

(** X30.  Clearing the messages of a session, which only its owner may
    do, removes the messages of that session and no other message, and
    leaves sessions and configurations alone.  After it the history window
    is empty, so that the next user message is the history handed to the
    model: clearing is what brings a session that has reached ten messages
    back to a state in which the model sees what the user writes. *)
Theorem clearing_restores_the_window (c : Chat) (requester sessionId : string) :
  (forall c', deleteMessages c requester sessionId = (Sent tt, c') ->
     ofSession c' sessionId = [] /\
     (forall other, other <> sessionId -> ofSession c' other = ofSession c other) /\
     chatSessions c' = chatSessions c /\ chatConfigs c' = chatConfigs c /\
     forall fresh now text,
       trim text <> EmptyString ->
       exists m c1,
         createMessage c' fresh now sessionId "user" (JStr text) = inr (m, c1) /\
         mContent m = trim text /\ findHistory c1 sessionId = [m]) /\
  (forall session,
     chatSessions c !! sessionId = Some session -> sUserId session <> requester ->
     deleteMessages c requester sessionId = (Denied NotOwner, c)).
Proof.
  unfold deleteMessages. split.
  - intros c'. destruct (chatSessions c !! sessionId) as [session |]; [| discriminate].
    destruct (negb _); [discriminate |]. intros [= <-].
    assert (Hnone : ofSession
                      (setMessages c
                         (List.filter
                            (fun m => negb (String.eqb (mSessionId m) sessionId))
                            (messages c))) sessionId = []).
    { unfold ofSession. cbn [messages setMessages].
      induction (messages c) as [| m l IH]; [reflexivity |].
      cbn [List.filter]. destruct (String.eqb (mSessionId m) sessionId) eqn:Hm;
        cbn [negb List.filter]; [exact IH |]. rewrite Hm. exact IH. }
    split; [exact Hnone |]. split; [| split; [reflexivity | split; [reflexivity |]]].
    + intros other Hother. clear Hnone. unfold ofSession.
      cbn [messages setMessages].
      induction (messages c) as [| m l IH]; [reflexivity |].
      cbn [List.filter].
      destruct (String.eqb_spec (mSessionId m) sessionId) as [Heq | Hne];
        cbn [negb List.filter].
      * destruct (String.eqb_spec (mSessionId m) other) as [Heq' | _];
          [congruence | exact IH].
      * destruct (String.eqb (mSessionId m) other); [f_equal |]; exact IH.
    + intros fresh now text Htext.
      rewrite (createMessage_text _ _ _ _ _ _ Htext). eexists _, _.
      split; [reflexivity |]. split; [reflexivity |].
      unfold findHistory. cbn [messages setMessages]. rewrite List.filter_app.
      unfold ofSession in Hnone. cbn [messages setMessages] in Hnone.
      rewrite Hnone. cbn [List.filter mSessionId]. rewrite String.eqb_refl.
      reflexivity.
  - intros session Hsession Hne. rewrite Hsession.
    destruct (String.eqb_spec (sUserId session) requester) as [? | _];
      [contradiction | reflexivity].
Qed.

Lemma clearing_restores_the_window_witness :
  exists m c1,
    createMessage (snd (deleteMessages talk "admin1" "s1")) "m11" 11 "s1" "user"
      (JStr "Do you ship abroad?") = inr (m, c1) /\
    mContent m = trim "Do you ship abroad?" /\ findHistory c1 "s1" = [m].
Proof.
  destruct (clearing_restores_the_window talk "admin1" "s1") as [Hclear _].
  destruct (Hclear (snd (deleteMessages talk "admin1" "s1")) eq_refl)
    as (_ & _ & _ & _ & Hnext).
  apply Hnext. discriminate.
Defined.

End ConversationProperties.

(* ===================================================================== *)
(** ** Properties of the webhook *)
(* ===================================================================== *)

Module WebhookProperties.
Import JS Provider Inventory Conversation Webhook.

(** An answer of the intent route has neither an [intent] nor a [message]
    at its top: the handler takes it for a detected intent and finds no
    text in it. *)
Lemma detect_answer (a : IntentAnswer) :
  detect (Some (intentAnswerJson a)) = InventoryReply JUndefined.
Proof. reflexivity. Qed.

Section Detection.

Variables freshSession freshUser freshBot : string.
Variables now later : Z.
Variables first second : World.

(** X28.  The webhook and the intent route, composed, for a bot with the
    inventory enabled and a request in an existing session.  Whenever the
    intent route answers, the webhook reads [intent] and [message] at the
    top of the answer, where the route puts neither: it takes the answer
    for a detected intent, uses an undefined reply, and fails with a
    validation error when it stores the reply; the user message is stored,
    the model is not asked, and nothing is sent.  When the response of the
    intent route is not a success and the call of the model inside the
    [try] block is rejected, the [catch] block calls the model a second
    time: the outcome is that of a request whose only call is the second
    one. *)
Theorem webhook_loses_inventory_reply (c : Chat) (body : list (string * JSValue))
    (bot sid text : string) (data : list (string * JSValue)) (session : Session) :
  lookupLast "configId" body = JStr bot -> bot <> EmptyString ->
  truthy (lookupLast "userId" body) = true ->
  lookupLast "message" body = JStr text -> trim text <> EmptyString ->
  lookupLast "sessionId" body = JStr sid -> sid <> EmptyString ->
  chatSessions c !! sid = Some session ->
  chatConfigs c !! bot = Some data ->
  truthy (lookupLast "inventoryEnabled" data) = true ->
  let userMessage := {| mId := freshUser; mSessionId := sid; mRole := "user";
                        mContent := trim text; timestamp := now |} in
  let c1 := setMessages c (messages c ++ [userMessage]) in
  (forall a,
     postWebhook freshSession freshUser freshBot now later
       (Some (intentAnswerJson a)) first second c body
     = (Threw (CaughtStore ValidationError), c1)) /\
  (forall fetched x,
     detect fetched = NoIntent ->
     ask first (findHistory c1 sid) data = inl x ->
     postWebhook freshSession freshUser freshBot now later fetched first second c body
     = postWebhook freshSession freshUser freshBot now later None second second c
         body).
Proof.
  intros Hconfig Hbot Huser Hmsg Htext Hsid Hs Hsession Hdata Hen userMessage c1.
  assert (Hrun : forall fetched w1 w2,
            postWebhook freshSession freshUser freshBot now later fetched w1 w2 c body
            = match obtain fetched w1 w2 (findHistory c1 sid) data with
              | inl x => (Threw x, c1)
              | inr aiResponse =>
                  match getProp aiResponse "reply" with
                  | inl x => (Threw (CaughtExn x), c1)
                  | inr reply =>
                      match createMessage c1 freshBot later sid "bot" reply with
                      | inl e => (Threw (CaughtStore e), c1)
                      | inr (botMessage, c2) =>
                          (Sent {| aSessionId := sid; aReply := reply;
                                   aMessageId := mId botMessage;
                                   aChannel := match lookupLast "channel" body with
                                               | JUndefined => JStr "api"
                                               | v => v
                                               end |}, c2)
                      end
                  end
              end).
  { intros fetched w1 w2. unfold postWebhook.
    rewrite Hconfig, Huser, Hmsg, Hsid. cbn [truthy castId].
    destruct (String.eqb_spec bot EmptyString) as [? | _]; [contradiction |].
    destruct (String.eqb_spec sid EmptyString) as [? | _]; [contradiction |].
    destruct (String.eqb_spec text EmptyString) as [-> | _];
      [exfalso; apply Htext; reflexivity |].
    cbn [negb orb]. rewrite Hdata, Hsession.
    rewrite (ConversationProperties.createMessage_text _ _ _ _ _ _ Htext).
    reflexivity. }
  split.
  - intros a. rewrite Hrun. unfold obtain. rewrite Hen, detect_answer.
    reflexivity.
  - intros fetched x Hdetect Hfirst. rewrite !Hrun. unfold obtain.
    rewrite Hen, Hdetect, Hfirst. reflexivity.
Qed.

End Detection.

(** The bot of the sample conversation with the inventory enabled, and a
    request of its user. *)
Definition enabled : Chat :=
  ConversationProperties.setChatConfigs ConversationProperties.talk
    (<["bot1" := [("inventoryEnabled", JBool true);
                  ("system_prompt", JStr "You sell printers.")]]> ∅).

Definition request : list (string * JSValue) :=
  [("configId", JStr "bot1"); ("userId", JStr "admin1");
   ("message", JStr "Do you have printers?"); ("sessionId", JStr "s1")].

Definition quiet : World :=
  {| http := fun _ => HttpOk ClientProperties.answer; random := fun _ => 0%Q;
     latency := ofZ 700 |}.

Lemma webhook_loses_inventory_reply_witness :
  fst (postWebhook "s9" "m11" "m12" 11 12
         (Some (intentAnswerJson {| intent := defaultIntent; isHindi := false;
                                    response := Help |}))
         quiet quiet enabled request)
  = Threw (CaughtStore ValidationError).
Proof.
  destruct (webhook_loses_inventory_reply "s9" "m11" "m12" 11 12 quiet quiet
              enabled request "bot1" "s1" "Do you have printers?"
              [("inventoryEnabled", JBool true);
               ("system_prompt", JStr "You sell printers.")]
              {| configId := "bot1"; sUserId := "admin1" |}
              eq_refl ltac:(discriminate) eq_refl eq_refl ltac:(discriminate)
              eq_refl ltac:(discriminate) eq_refl eq_refl eq_refl) as [Hlost _].
  rewrite Hlost. reflexivity.
Defined.

End WebhookProperties.

(* ===================================================================== *)
(** ** Properties of the prompt enhancer *)
(* ===================================================================== *)

Module EnhancerProperties.
Import JS Provider PromptEnhancer.

Lemma lookupLast_app (k : string) (l extra : list (string * JSValue)) :
  lookupLast k (l ++ extra)
  = fold_left (fun acc kv => if String.eqb (fst kv) k then snd kv else acc)
              extra (lookupLast k l).
Proof. unfold lookupLast. apply fold_left_app. Qed.

(** The configuration the enhancer hands to the manager: the settings of
    [config.ai] with the temperature and the token limit replaced. *)
Lemma enhanced_settings (fields aiFields : list (string * JSValue)) :
  let config :=
    JObj (fields ++
          [("ai", JObj (aiFields ++ [("temperature", JNum (Dec 8 (-1)));
                                     ("max_tokens", JNum (ofZ 2000))]));
           ("system_prompt", JStr engineerPrompt)]) in
  getPropOpt config "system_prompt" = JStr engineerPrompt /\
  ManagerProperties.aiSetting config "temperature" = JNum (Dec 8 (-1)) /\
  ManagerProperties.aiSetting config "max_tokens" = JNum (ofZ 2000).
Proof.
  unfold ManagerProperties.aiSetting, getPropOpt. cbn [getProp].
  rewrite !lookupLast_app. cbn [fold_left fst snd].
  change (String.eqb "ai" "system_prompt") with false.
  change (String.eqb "system_prompt" "system_prompt") with true.
  change (String.eqb "ai" "ai") with true.
  change (String.eqb "system_prompt" "ai") with false.
  cbv iota. cbn [getProp]. rewrite !lookupLast_app. cbn [fold_left fst snd].
  repeat split.
Qed.

(** X29.  [enhancePrompt] asks the model with settings of its own.  For a
    prompt with text and a configuration object, every request it causes
    carries the temperature 0.8 and the token limit 2000 whatever the
    configuration says, and two messages: the system message made of the
    prompt-engineer prompt followed by the inventory instruction which the
    manager adds to every call, and one user message holding the
    enhancement instructions and the original prompt.  A prompt that is
    missing, empty or blank is refused before any request is made, and so
    is a configuration that is [null]. *)
Theorem enhance_prompt_settings (prompt : string) (fields : list (string * JSValue))
    (http : nat -> HttpResult JSValue) (random : nat -> Q) (latency : decimal) :
  trim prompt <> EmptyString ->
  Forall (fun r =>
            rTemperature r = JNum (Dec 8 (-1)) /\
            rMaxTokens r = JNum (ofZ 2000) /\
            rMessages r
            = [Msg (JStr "system") (JStr (engineerPrompt +:+ inventoryInstruction));
               Msg (JStr "user")
                   (JStr (defaultEnhancementInstructions +:+ nl +:+ nl +:+
                          "Original Prompt: " +:+ prompt +:+ nl +:+ nl +:+
                          "Enhanced Prompt:"))])
         (requests (enhancePrompt (JStr prompt) (JObj fields) http random latency)) /\
  (forall blank config,
     truthy blank = false \/ (exists s, blank = JStr s /\ trim s = EmptyString) ->
     enhancePrompt blank config http random latency
     = AIClientManager.noTrace (inl PromptRequired)) /\
  enhancePrompt (JStr prompt) JNull http random latency
  = AIClientManager.noTrace (inl (Exception (TypeError "ai"))).
Proof.
  intros Hprompt.
  assert (Htruthy : truthy (JStr prompt) = true).
  { cbn [truthy]. destruct prompt; [exfalso; apply Hprompt |]; reflexivity. }
  split; [| split].
  - unfold enhancePrompt. rewrite Htruthy. cbn [negb callTrim getProp toString].
    destruct (trim prompt) eqn:Ht; [contradiction |]. cbn [requests spread].
    set (ai := lookupLast "ai" fields).
    refine (List.Forall_impl _ _ (ManagerProperties.manager_request_shape _ _ _ _ _)).
    destruct (enhanced_settings fields (spread ai)) as (Hsp & Htemp & Hmax).
    intros r [-> | ->];
      cbn [ManagerProperties.managerRequest rTemperature rMaxTokens rMessages];
      unfold ManagerProperties.managerPrompt; rewrite Hsp, Htemp, Hmax;
      repeat split.
  - intros blank config [Hfalsy | (s & -> & Hs)]; unfold enhancePrompt.
    + rewrite Hfalsy. reflexivity.
    + destruct (truthy (JStr s)); [| reflexivity]. cbn [negb callTrim].
      rewrite Hs. reflexivity.
  - unfold enhancePrompt. rewrite Htruthy. cbn [negb callTrim getProp].
    destruct (trim prompt); [contradiction | reflexivity].
Qed.

(** A configuration with a temperature of its own. *)
Definition cool : list (string * JSValue) :=
  [("ai", JObj [("provider", JStr "openai"); ("temperature", JNum (Dec 1 (-1)));
                ("max_tokens", JNum (ofZ 50))]);
   ("system_prompt", JStr "You sell printers.")].

Lemma enhance_prompt_settings_witness :
  Forall (fun r => rTemperature r = JNum (Dec 8 (-1)) /\
                   rMaxTokens r = JNum (ofZ 2000))
         (requests (enhancePrompt (JStr "Sell more printers") (JObj cool)
                      (fun _ => HttpOk ClientProperties.answer) (fun _ => 0%Q)
                      (ofZ 0))) /\
  result (enhancePrompt (JStr "Sell more printers") (JObj cool)
            (fun _ => HttpOk ClientProperties.answer) (fun _ => 0%Q) (ofZ 0))
  = inr "Hello!".
Proof.
  split; [| reflexivity].
  destruct (enhance_prompt_settings "Sell more printers" cool
              (fun _ => HttpOk ClientProperties.answer) (fun _ => 0%Q) (ofZ 0))
    as [Hall _]; [discriminate |].
  refine (List.Forall_impl _ _ Hall). intros r (Ht & Hm & _). auto.
Defined.

End EnhancerProperties.
